(** * uniplot: series normalisation ([MultiSeries]) and axis label layout
      ([LabelSet])

    A shallow embedding of [uniplot/multi_series.py] and
    [uniplot/axis_labels/label_set.py], together with the properties that
    the design document states about them.

    Modelling conventions.
    - Python values are the closed type [pyval]: [None], [int], [float],
      [datetime.date], [datetime.datetime], (nested) lists of these, and
      the two pandas containers that the source tests for, [pd.Series] and
      [pd.DatetimeIndex].  The type tests and the date conversion of the
      source are modelled on the containers; what [np.array] makes of a
      pandas container is not.
    - A numpy value is an array of any rank or an array scalar: a ufunc
      applied to a 0-d array returns an array scalar, which cannot be
      assigned into.
    - A Python [float] (and a numpy [float64]) is an IEEE 754 binary64
      number, [spec_float] of the standard library with precision 53 and
      [emax] 1024.
    - A call either returns, raises, or leaves the modelled fragment of
      numpy / pandas; the three cases are the constructors of [outcome].
    - Methods that assign to [self] are functions in the state-and-exception
      monad [method]. *)

From Stdlib Require Import ZArith List String Ascii Bool Lia.
From Stdlib Require Import Floats.SpecFloat.
From stdpp Require Import base option list strings gmap.

Set Warnings "-register-all,-clear-no-such-hyp".

Local Open Scope string_scope.
Local Open Scope list_scope.
Local Open Scope Z_scope.

(* ================================================================== *)
(** * Python: exceptions, outcomes, methods                            *)
(* ================================================================== *)

Module Py.

Inductive exn : Type :=
| ValueError
| TypeError
| AttributeError
| OverflowError
| IndexError.

(** The result of running a Python expression: a value, a raised
    exception, or a library behaviour that this development does not
    model (out-of-range integers, pandas parsing of non-dates). *)
Inductive outcome (A : Type) : Type :=
| Ok (a : A)
| Raise (e : exn)
| Unmodelled.

Arguments Ok {A} a.
Arguments Raise {A} e.
Arguments Unmodelled {A}.

Definition bind {A B : Type} (m : outcome A) (k : A -> outcome B) : outcome B :=
  match m with
  | Ok a => k a
  | Raise e => Raise e
  | Unmodelled => Unmodelled
  end.

Declare Scope py_scope.
Delimit Scope py_scope with py.
Notation "x <- m ;; k" := (bind m (fun x => k))
  (at level 100, m at next level, right associativity) : py_scope.

Local Open Scope py_scope.

(** A list comprehension [[f(x) for x in l]]: elements are evaluated left
    to right and the first exception aborts the comprehension. *)
Fixpoint comprehension {A B : Type} (f : A -> outcome B) (l : list A)
  : outcome (list B) :=
  match l with
  | [] => Ok []
  | x :: rest =>
      y <- f x ;;
      ys <- comprehension f rest ;;
      Ok (y :: ys)
  end.

Definition is_ok {A : Type} (m : outcome A) : bool :=
  match m with Ok _ => true | _ => false end.

(** ** Methods: state passing over [self], with exceptions.
    An exception leaves [self] as it was when the exception was raised. *)
Definition method (S A : Type) : Type := S -> outcome A * S.

Definition ret {S A : Type} (a : A) : method S A := fun s => (Ok a, s).

Definition mbind {S A B : Type} (m : method S A) (k : A -> method S B)
  : method S B :=
  fun s =>
    match m s with
    | (Ok a, s') => k a s'
    | (Raise e, s') => (Raise e, s')
    | (Unmodelled, s') => (Unmodelled, s')
    end.

Definition lift {S A : Type} (m : outcome A) : method S A := fun s => (m, s).
Definition gets {S A : Type} (f : S -> A) : method S A := fun s => (Ok (f s), s).
Definition modify {S : Type} (f : S -> S) : method S unit := fun s => (Ok tt, f s).

Declare Scope method_scope.
Delimit Scope method_scope with method.
Notation "x <~ m ;; k" := (mbind m (fun x => k))
  (at level 100, m at next level, right associativity) : method_scope.
Notation "m ;;; k" := (mbind m (fun _ => k))
  (at level 100, right associativity) : method_scope.

(** A [for] loop threading a local variable [acc] through the body. *)
Fixpoint for_each {S A B : Type} (body : A -> B -> method S B)
         (l : list A) (acc : B) : method S B :=
  match l with
  | [] => ret acc
  | x :: rest => mbind (body x acc) (for_each body rest)
  end.

(** [enumerate(l)], counting from [start]. *)
Fixpoint enumerate_from {A : Type} (start : Z) (l : list A) : list (Z * A) :=
  match l with
  | [] => []
  | x :: rest => (start, x) :: enumerate_from (start + 1) rest
  end.

Definition enumerate {A : Type} (l : list A) : list (Z * A) := enumerate_from 0 l.

(** ** Floating-point numbers *)

Definition float : Type := spec_float.

Definition prec : Z := 53.
Definition emax : Z := 1024.

Definition nan : float := S754_nan.
Definition pos_inf : float := S754_infinity false.
Definition neg_inf : float := S754_infinity true.
Definition zero : float := S754_zero false.

Definition isnan (f : float) : bool :=
  match f with S754_nan => true | _ => false end.

Definition isfinite (f : float) : bool :=
  match f with S754_zero _ | S754_finite _ _ _ => true | _ => false end.

(** [a < b] and [a <= b] on floats (false when either is NaN). *)
Definition flt (a b : float) : bool := SFltb a b.
Definition fle (a b : float) : bool := SFleb a b.

(** [float(n)] for an integer [n]: round to nearest, ties to even. *)
Definition float_of_Z (n : Z) : float := binary_normalize prec emax n 0 false.

(** [int(f)]: truncation towards zero; NaN and the infinities raise. *)
Definition int_of_float (f : float) : outcome Z :=
  match f with
  | S754_nan => Raise ValueError
  | S754_infinity _ => Raise OverflowError
  | S754_zero _ => Ok 0
  | S754_finite s m e => Ok (cond_Zopp s (Z.shiftl (Z.pos m) e))
  end.

(** ** Dates *)

Record date : Type := mk_date { year : Z; month : Z; day : Z }.

(** Days from 1970-01-01 to the given day of the proleptic Gregorian
    calendar. *)
Definition days_from_civil (d : date) : Z :=
  let y := if month d <=? 2 then year d - 1 else year d in
  let era := y / 400 in
  let yoe := y - era * 400 in
  let mp := if 2 <? month d then month d - 3 else month d + 9 in
  let doy := (153 * mp + 2) / 5 + day d - 1 in
  let doe := yoe * 365 + yoe / 4 - yoe / 100 + doy in
  era * 146097 + doe - 719468.

Definition NS_PER_SECOND : Z := 10 ^ 9.
Definition NS_PER_DAY : Z := 86400 * NS_PER_SECOND.

(** ** Values *)

Inductive pyval : Type :=
| PyNone
| PyInt (n : Z)
| PyFloat (f : float)
| PyDate (d : date)
    (** a [datetime.date] that is not a [datetime.datetime] *)
| PyDatetime (d : date) (ns_of_day : Z)
    (** a [datetime.datetime] (or [pd.Timestamp]): a day and the
        nanoseconds elapsed since its midnight *)
| PyList (items : list pyval)
| PySeries (items : list pyval)
    (** a [pd.Series] whose dtype is not [datetime64[ns]], with the items
        that iterating it yields *)
| PyDatetimeSeries (stamps : list (date * Z))
    (** a [pd.Series] whose dtype is [datetime64[ns]]: each instant as a
        day and the nanoseconds elapsed since its midnight *)
| PyDatetimeIndex (stamps : list (date * Z)).
    (** a [pd.DatetimeIndex], likewise *)

(** [isinstance(x, datetime.date)]; [datetime.datetime] is a subclass. *)
Definition is_date (x : pyval) : bool :=
  match x with PyDate _ | PyDatetime _ _ => true | _ => false end.

(** [isinstance(x, datetime.datetime)]. *)
Definition is_datetime (x : pyval) : bool :=
  match x with PyDatetime _ _ => true | _ => false end.

Definition is_list (x : pyval) : bool :=
  match x with PyList _ => true | _ => false end.

(** The [pd.Timestamp] items of a [datetime64[ns]] container;
    [pd.Timestamp] is a subclass of [datetime.datetime]. *)
Definition timestamps (stamps : list (date * Z)) : list pyval :=
  map (fun stamp => PyDatetime (fst stamp) (snd stamp)) stamps.

(** [iter(x)], as the list of the items it will yield: lists and the
    pandas containers are iterable, the other values are not. *)
Definition iter (x : pyval) : outcome (list pyval) :=
  match x with
  | PyList items => Ok items
  | PySeries items => Ok items
  | PyDatetimeSeries stamps => Ok (timestamps stamps)
  | PyDatetimeIndex stamps => Ok (timestamps stamps)
  | _ => Raise TypeError
  end.

(** Nanoseconds since the epoch of a date-like value. *)
Definition epoch_ns (x : pyval) : option Z :=
  match x with
  | PyDate d => Some (days_from_civil d * NS_PER_DAY)
  | PyDatetime d ns => Some (days_from_civil d * NS_PER_DAY + ns)
  | _ => None
  end.

Definition INT64_MIN : Z := - 2 ^ 63.
Definition INT64_MAX : Z := 2 ^ 63 - 1.

Definition in_int64 (n : Z) : bool := (INT64_MIN <=? n) && (n <=? INT64_MAX).

End Py.

Import Py.
Local Open Scope py_scope.

(* ================================================================== *)
(** * The fragment of numpy and pandas that the two modules use         *)
(* ================================================================== *)

Module Np.

(** The cells of an array, tagged by its [dtype]: [int64], [float64] or
    [object]. *)
Inductive ndata : Type :=
| IntData (cells : list Z)
| FloatData (cells : list float)
| ObjData (cells : list pyval).

(** A numpy value that a series variable can hold.  It is an array of any
    rank, given by its shape and its cells in row-major order (a 0-d array
    has shape [[]] and one cell), or an array scalar such as
    [np.float64(2.0)], which has the shape, the dtype and the cell of a 0-d
    array but is not an [ndarray] and cannot be assigned into.
    [is_scalar] tells the two apart. *)
Record ndarray : Type := mk_value {
  is_scalar : bool;
  shape : list nat;
  data : ndata
}.

(** An array proper. *)
Abbreviation mk_ndarray := (mk_value false).

(** A numpy scalar, as [max] and [min] return them. *)
Inductive number : Type :=
| NInt (n : Z)
| NFloat (f : float).

Definition is_float_data (d : ndata) : bool :=
  match d with FloatData _ => true | _ => false end.

Definition is_obj_data (d : ndata) : bool :=
  match d with ObjData _ => true | _ => false end.

Definition cells_as_ints (d : ndata) : list Z :=
  match d with IntData l => l | _ => [] end.

Definition cells_as_floats (d : ndata) : list float :=
  match d with
  | IntData l => map float_of_Z l
  | FloatData l => l
  | ObjData _ => []
  end.

Definition cells_as_objects (d : ndata) : list pyval :=
  match d with
  | IntData l => map PyInt l
  | FloatData l => map PyFloat l
  | ObjData l => l
  end.

(** The cells of an array built from sub-arrays, at the common dtype:
    [object] if any part is, else [float64] if any part is, else
    [int64]. *)
Definition promote (parts : list ndata) : ndata :=
  if existsb is_obj_data parts then ObjData (concat (map cells_as_objects parts))
  else if existsb is_float_data parts then FloatData (concat (map cells_as_floats parts))
  else IntData (concat (map cells_as_ints parts)).

Definition shape_eqb (s1 s2 : list nat) : bool := bool_decide (s1 = s2).

(** [np.array] of a list whose items have been converted: items of one
    shape are stacked along a new first axis, items of different shapes
    raise [ValueError] (inhomogeneous shape), the empty list is an empty
    [float64] array. *)
Definition stack (items : list (outcome ndarray)) : outcome ndarray :=
  arrs <- comprehension (fun a => a) items ;;
  match arrs with
  | [] => Ok (mk_ndarray [0%nat] (FloatData []))
  | a :: rest =>
      if forallb (fun b => shape_eqb (shape b) (shape a)) rest
      then Ok (mk_ndarray (length arrs :: shape a) (promote (map data arrs)))
      else Raise ValueError
  end.

(** [np.array(v)].  The array that numpy makes of a pandas container is
    not modelled. *)
Fixpoint array (v : pyval) : outcome ndarray :=
  match v with
  | PyInt n =>
      if in_int64 n then Ok (mk_ndarray [] (IntData [n])) else Unmodelled
  | PyFloat f => Ok (mk_ndarray [] (FloatData [f]))
  | PyNone | PyDate _ | PyDatetime _ _ => Ok (mk_ndarray [] (ObjData [v]))
  | PyList items => stack (map array items)
  | PySeries _ | PyDatetimeSeries _ | PyDatetimeIndex _ => Unmodelled
  end.

(** [np.issubdtype(a.dtype, np.inexact)]. *)
Definition is_inexact (a : ndarray) : bool := is_float_data (data a).

(** The conversion of one cell of an [object] array to [float]: [None]
    becomes NaN, a date is not a number. *)
Definition float_of_object (x : pyval) : outcome float :=
  match x with
  | PyNone => Ok nan
  | PyInt n => Ok (float_of_Z n)
  | PyFloat f => Ok f
  | PyDate _ | PyDatetime _ _ => Raise TypeError
  | PyList _ => Raise ValueError
  | PySeries _ | PyDatetimeSeries _ | PyDatetimeIndex _ => Unmodelled
  end.

(** [a.astype(float)]: an array gives an array, an array scalar an array
    scalar. *)
Definition astype_float (a : ndarray) : outcome ndarray :=
  match data a with
  | IntData l => Ok (mk_value (is_scalar a) (shape a) (FloatData (map float_of_Z l)))
  | FloatData l => Ok (mk_value (is_scalar a) (shape a) (FloatData l))
  | ObjData l =>
      cells <- comprehension float_of_object l ;;
      Ok (mk_value (is_scalar a) (shape a) (FloatData cells))
  end.

(** [len(a)]: the first dimension; a 0-d array and an array scalar are
    unsized. *)
Definition len (a : ndarray) : outcome nat :=
  match shape a with
  | [] => Raise TypeError
  | n :: _ => Ok n
  end.

(** [np.arange(1, n + 1, step=1, dtype=int)]. *)
Definition arange_from_1 (n : nat) : ndarray :=
  mk_ndarray [n] (IntData (map Z.of_nat (seq 1 n))).

(** [a[~np.isnan(a)]]: the 1-d array of the cells that are not NaN, also
    when [a] is a 0-d array or an array scalar (indexing by a boolean
    scalar).  [np.isnan] is not defined on [object] arrays. *)
Definition select_not_nan (a : ndarray) : outcome ndarray :=
  match data a with
  | IntData l => Ok (mk_ndarray [length l] (IntData l))
  | FloatData l =>
      let kept := List.filter (fun x => negb (isnan x)) l in
      Ok (mk_ndarray [length kept] (FloatData kept))
  | ObjData _ => Raise TypeError
  end.

(** [np.maximum] and [np.minimum] on two floats: NaN propagates. *)
Definition fmaximum (a b : float) : float :=
  if isnan a then a else if isnan b then b else if flt a b then b else a.

Definition fminimum (a b : float) : float :=
  if isnan a then a else if isnan b then b else if flt b a then b else a.

(** [a.max()] and [a.min()]: the reduction of all cells; an empty array
    raises [ValueError]. *)
Definition amax (a : ndarray) : outcome number :=
  match data a with
  | IntData [] | FloatData [] | ObjData [] => Raise ValueError
  | IntData (x :: l) => Ok (NInt (fold_left Z.max l x))
  | FloatData (x :: l) => Ok (NFloat (fold_left fmaximum l x))
  | ObjData _ => Unmodelled
  end.

Definition amin (a : ndarray) : outcome number :=
  match data a with
  | IntData [] | FloatData [] | ObjData [] => Raise ValueError
  | IntData (x :: l) => Ok (NInt (fold_left Z.min l x))
  | FloatData (x :: l) => Ok (NFloat (fold_left fminimum l x))
  | ObjData _ => Unmodelled
  end.

(** [a[a <= 0.0] = v] on a [float64] array; an array scalar does not
    support item assignment. *)
Definition assign_where (p : float -> bool) (v : float) (a : ndarray)
  : outcome ndarray :=
  if is_scalar a then Raise TypeError
  else
    match data a with
    | FloatData l =>
        Ok (mk_ndarray (shape a) (FloatData (map (fun x => if p x then v else x) l)))
    | _ => Unmodelled
    end.

(** The result of a ufunc is an array scalar when its argument has no
    dimension (a 0-d array or an array scalar), and an array otherwise. *)
Definition unsized (a : ndarray) : bool :=
  match shape a with [] => true | _ :: _ => false end.

(** A unary ufunc applied to a [float64] value. *)
Definition ufunc (f : float -> float) (a : ndarray) : outcome ndarray :=
  match data a with
  | FloatData l => Ok (mk_value (unsized a) (shape a) (FloatData (map f l)))
  | _ => Unmodelled
  end.

(** Comparison of two numpy scalars; an [int64] meeting a [float64] is
    converted to [float64]. *)
Definition as_float (x : number) : float :=
  match x with NInt n => float_of_Z n | NFloat f => f end.

Definition num_lt (x y : number) : bool :=
  match x, y with
  | NInt a, NInt b => a <? b
  | _, _ => flt (as_float x) (as_float y)
  end.

End Np.

Module Pd.

(** [pd.to_datetime] of a series with the given items, all dates and
    datetimes: the [datetime64[ns]] column, as nanoseconds since the
    epoch.  What pandas does with other items, or with instants that do
    not fit 64 bits, is not modelled. *)
Definition to_datetime (items : list pyval) : outcome (list Z) :=
  comprehension
    (fun x =>
       match epoch_ns x with
       | Some ns => if in_int64 ns then Ok ns else Unmodelled
       | None => Unmodelled
       end)
    items.

End Pd.

(** The builtins [max] and [min] on a list of numbers: the first largest
    (smallest) item; the empty list raises [ValueError]. *)
Definition py_max (l : list Np.number) : outcome Np.number :=
  match l with
  | [] => Raise ValueError
  | x :: rest => Ok (fold_left (fun acc y => if Np.num_lt acc y then y else acc) rest x)
  end.

Definition py_min (l : list Np.number) : outcome Np.number :=
  match l with
  | [] => Raise ValueError
  | x :: rest => Ok (fold_left (fun acc y => if Np.num_lt y acc then y else acc) rest x)
  end.

(* ================================================================== *)
(** * [uniplot/multi_series.py]                                        *)
(* ================================================================== *)

Module MultiSeries.

Import Np.

(** The attributes of a [MultiSeries] object. *)
Record t : Type := mk {
  xs : list ndarray;
  ys : list ndarray;
  is_multi_dimensional : bool;
  x_is_timeseries : bool
}.

Definition set_xs (v : list ndarray) (self : t) : t :=
  mk v (ys self) (is_multi_dimensional self) (x_is_timeseries self).

Definition set_ys (v : list ndarray) (self : t) : t :=
  mk (xs self) v (is_multi_dimensional self) (x_is_timeseries self).

(** [_is_multi_dimensional]: the comprehension [[iter(x) for x in series]]
    is run for its exceptions only; a [TypeError] (from iterating
    [series] itself or from [iter] of an item) gives [False], any other
    exception propagates. *)
Definition _is_multi_dimensional (series : pyval) : outcome bool :=
  match (items <- iter series ;; comprehension iter items) with
  | Ok _ => Ok true
  | Raise TypeError => Ok false
  | Raise e => Raise e
  | Unmodelled => Unmodelled
  end.

(** [_is_timeseries_ish].  The dtype of a [pd.Series] is
    [datetime64[ns]] for a [PyDatetimeSeries] and another one for a
    [PySeries].  The [pendulum.DateTime] test sits in the branch of lists,
    and a list is never one. *)
Definition _is_timeseries_ish (series : pyval) : bool :=
  match series with
  | PyDatetimeIndex _ => true
  | PyDatetimeSeries _ => true
  | PySeries _ => false
  | PyList items =>
      if forallb is_date items then true
      else if forallb is_datetime items then true
      else false
  | _ => false
  end.

(** [_convert_timeseries_to_numpy]: a [pd.Series], a [pd.DatetimeIndex]
    and a list are made a [datetime64[ns]] series by [pd.to_datetime],
    then comes [series.astype(np.int64) // 10 ** 9] and [.values]; any
    other value is left as it is and has no [astype] attribute. *)
Definition _convert_timeseries_to_numpy (series : pyval) : outcome ndarray :=
  let converted :=
    match series with
    | PySeries items => Some (Pd.to_datetime items)
    | PyDatetimeSeries stamps => Some (Pd.to_datetime (timestamps stamps))
    | PyDatetimeIndex stamps => Some (Pd.to_datetime (timestamps stamps))
    | PyList items => Some (Pd.to_datetime items)
    | _ => None
    end in
  match converted with
  | Some series =>
      stamps <- series ;;
      let seconds := map (fun ns => ns / 10 ^ 9) stamps in
      Ok (mk_ndarray [length seconds] (IntData seconds))
  | None => Raise AttributeError
  end.

(** [_cast_as_numpy_floats]. *)
Definition _cast_as_numpy_floats (array : pyval) : outcome ndarray :=
  numpy_array <- Np.array array ;;
  if is_inexact numpy_array then Ok numpy_array
  else astype_float numpy_array.

(** [MultiSeries.__init__(ys, xs=None)]; [PyNone] is the omitted [xs]. *)
Definition __init__ (ys0 : pyval) (xs0 : pyval) : outcome t :=
  multi <- _is_multi_dimensional ys0 ;;
  ys_rows <-
    (if multi : bool
     then (rows <- iter ys0 ;; comprehension _cast_as_numpy_floats rows)
     else (row <- _cast_as_numpy_floats ys0 ;; Ok [row])) ;;
  let timeseries := _is_timeseries_ish xs0 in
  xs_rows <-
    match xs0 with
    | PyNone =>
        comprehension (fun ys_row => n <- len ys_row ;; Ok (arange_from_1 n)) ys_rows
    | _ =>
        if multi then
          if timeseries
          then (rows <- iter xs0 ;; comprehension _convert_timeseries_to_numpy rows)
          else (rows <- iter xs0 ;; comprehension _cast_as_numpy_floats rows)
        else
          if timeseries
          then (row <- _convert_timeseries_to_numpy xs0 ;; Ok [row])
          else (row <- _cast_as_numpy_floats xs0 ;; Ok [row])
    end ;;
  Ok (mk xs_rows ys_rows multi timeseries).

(** [__len__]: the number of series. *)
Definition __len__ (self : t) : Z := Z.of_nat (length (ys self)).

(** [shape]: the length of each series. *)
Definition shape (self : t) : outcome (list nat) := comprehension len (ys self).

Definition _safe_max (array : ndarray) : outcome number :=
  kept <- select_not_nan array ;; amax kept.

Definition _safe_min (array : ndarray) : outcome number :=
  kept <- select_not_nan array ;; amin kept.

Definition y_max (self : t) : outcome number :=
  rows <- comprehension _safe_max (ys self) ;; py_max rows.

Definition y_min (self : t) : outcome number :=
  rows <- comprehension _safe_min (ys self) ;; py_min rows.

Definition x_max (self : t) : outcome number :=
  rows <- comprehension _safe_max (xs self) ;; py_max rows.

Definition x_min (self : t) : outcome number :=
  rows <- comprehension _safe_min (xs self) ;; py_min rows.

Section Log10.

(** [np.log10] on one [float64]; the library function is a parameter. *)
Variable log10 : float -> float.

(** [_safe_log10]. *)
Definition _safe_log10 (x : ndarray) : outcome ndarray :=
  x1 <- astype_float x ;;
  x2 <- assign_where (fun v => fle v zero) nan x1 ;;
  ufunc log10 x2.

(** [set_x_axis_to_log10]: the comprehension is evaluated before
    [self.xs] is assigned. *)
Definition set_x_axis_to_log10 : method t unit :=
  (timeseries <~ gets x_is_timeseries ;;
   if timeseries : bool then lift (Raise ValueError)
   else
     rows <~ gets xs ;;
     logs <~ lift (comprehension _safe_log10 rows) ;;
     modify (set_xs logs))%method.

(** [set_y_axis_to_log10]. *)
Definition set_y_axis_to_log10 : method t unit :=
  (rows <~ gets ys ;;
   logs <~ lift (comprehension _safe_log10 rows) ;;
   modify (set_ys logs))%method.

(** The [MultiSeries] objects a program can hold: built by the
    constructor, then changed by the two log transforms. *)
Inductive reachable : t -> Prop :=
| reach_init ys0 xs0 ms :
    __init__ ys0 xs0 = Ok ms -> reachable ms
| reach_x_log ms r ms' :
    reachable ms -> set_x_axis_to_log10 ms = (r, ms') -> reachable ms'
| reach_y_log ms r ms' :
    reachable ms -> set_y_axis_to_log10 ms = (r, ms') -> reachable ms'.

End Log10.

End MultiSeries.

(* ================================================================== *)
(** * Python string formatting of numbers                              *)
(* ================================================================== *)

Module PyFormat.

Definition digit_char (d : Z) : ascii := ascii_of_nat (48 + Z.to_nat d).

(** The decimal digits of [n >= 0], most significant first; [fuel]
    bounds the number of digits. *)
Fixpoint digits_rev (fuel : nat) (n : Z) : list ascii :=
  match fuel with
  | O => []
  | S fuel' =>
      if n <? 10 then [digit_char n]
      else digit_char (n mod 10) :: digits_rev fuel' (n / 10)
  end.

Definition digits (n : Z) : list ascii :=
  rev (digits_rev (S (Z.to_nat (Z.log2 n))) n).

(** Commas between groups of three digits, on reversed digits. *)
Fixpoint group_rev (rev_digits : list ascii) (count : nat) : list ascii :=
  match rev_digits with
  | [] => []
  | c :: rest =>
      if (count =? 3)%nat then "," %char :: c :: group_rev rest 1
      else c :: group_rev rest (S count)
  end.

Definition grouped (ds : list ascii) : list ascii := rev (group_rev (rev ds) 0).

Definition sign_prefix (negative : bool) : string := if negative then "-" else "".

(** ["{:,d}".format(n)]. *)
Definition format_d (n : Z) : string :=
  sign_prefix (n <? 0) +:+ string_of_list_ascii (grouped (digits (Z.abs n))).

(** ** Decimal expansion of a positive rational [num / den] *)

(** [10 ^ x <= num / den] *)
Definition ge_pow10 (num den x : Z) : bool :=
  if 0 <=? x then den * 10 ^ x <=? num else den <=? num * 10 ^ (- x).

(** The largest [x] in [[lo, lo + fuel]] with [10 ^ x <= num / den]. *)
Fixpoint decimal_exponent_from (fuel : nat) (num den lo : Z) : Z :=
  match fuel with
  | O => lo
  | S fuel' =>
      if ge_pow10 num den (lo + 1) then decimal_exponent_from fuel' num den (lo + 1)
      else lo
  end.

Definition decimal_exponent (num den : Z) : Z :=
  decimal_exponent_from 800 num den (- 400).

(** [num / den / 10 ^ x] as a fraction. *)
Definition scale (num den x : Z) : Z * Z :=
  if 0 <=? x then (num, den * 10 ^ x) else (num * 10 ^ (- x), den).

Definition round_half_even_frac (n d : Z) : Z :=
  let q := n / d in
  let r := n mod d in
  match 2 * r ?= d with
  | Lt => q
  | Gt => q + 1
  | Eq => if Z.even q then q else q + 1
  end.

(** [num / den] rounded to [p] significant digits: the integer of the
    digits and the decimal exponent of the first of them. *)
Definition round_significant (p : Z) (num den : Z) : Z * Z :=
  let x := decimal_exponent num den in
  let '(n, d) := scale num den (x - p + 1) in
  let q := round_half_even_frac n d in
  if q =? 10 ^ p then (10 ^ (p - 1), x + 1) else (q, x).

Fixpoint strip_trailing_zeros_rev (rev_digits : list ascii) : list ascii :=
  match rev_digits with
  | c :: rest => if Ascii.eqb c "0" then strip_trailing_zeros_rev rest else rev_digits
  | [] => []
  end.

Definition strip_trailing_zeros (ds : list ascii) : list ascii :=
  rev (strip_trailing_zeros_rev (rev ds)).

Definition with_fraction (int_part frac : list ascii) : string :=
  match frac with
  | [] => string_of_list_ascii int_part
  | _ => string_of_list_ascii (int_part ++ "." %char :: frac)
  end.

(** The exponent suffix [e+XX] / [e-XX], at least two digits. *)
Definition exponent_suffix (x : Z) : string :=
  let ds := digits (Z.abs x) in
  let ds := match ds with [_] => "0"%char :: ds | _ => ds end in
  let sign : ascii := if x <? 0 then "-"%char else "+"%char in
  String "e"%char (String sign (string_of_list_ascii ds)).

(** Scientific notation of the digits [ds] with decimal exponent [x]. *)
Definition scientific (ds : list ascii) (x : Z) : string :=
  match ds with
  | [] => ""
  | d :: frac =>
      (with_fraction [d] (strip_trailing_zeros frac) +:+ exponent_suffix x)
  end.

(** Positional notation of the digits [ds] with decimal exponent [x];
    [sep] asks for thousands separators, [dot_zero] for [.0] after an
    integer. *)
Definition positional (ds : list ascii) (x : Z) (sep dot_zero : bool) : string :=
  let int_digits :=
    if x <? 0 then ["0"%char]
    else take (Z.to_nat (x + 1)) (ds ++ repeat "0"%char (Z.to_nat (x + 1))) in
  let frac_digits :=
    if x <? 0 then repeat "0"%char (Z.to_nat (- x - 1)) ++ ds
    else drop (Z.to_nat (x + 1)) ds in
  let frac := strip_trailing_zeros frac_digits in
  let frac := match frac with [] => if dot_zero then ["0"%char] else [] | _ => frac end in
  with_fraction (if sep then grouped int_digits else int_digits) frac.

(** The exact value of a finite non-zero float as a fraction. *)
Definition fraction_of (m : positive) (e : Z) : Z * Z :=
  if 0 <=? e then (Z.pos m * 2 ^ e, 1) else (Z.pos m, 2 ^ (- e)).

(** ["{:,.<p>g}".format(v)] for [p >= 1]. *)
Definition format_g (p : nat) (v : float) : string :=
  match v with
  | S754_nan => "nan"
  | S754_infinity s => (sign_prefix s +:+ "inf")
  | S754_zero s => (sign_prefix s +:+ "0")
  | S754_finite s m e =>
      let p := Z.max 1 (Z.of_nat p) in
      let '(num, den) := fraction_of m e in
      let '(q, x) := round_significant p num den in
      let body :=
        if (x <? -4) || (p <=? x) then scientific (digits q) x
        else positional (digits q) x true false in
      (sign_prefix s +:+ body)
  end.

(** ** [str] of a float: the shortest digits that read back as it *)

(** The float nearest to [q * 10 ^ k], for [q > 0]. *)
Definition float_of_decimal (q k : Z) : float :=
  if 0 <=? k then binary_normalize prec emax (q * 10 ^ k) 0 false
  else SFdiv prec emax (binary_normalize prec emax q 0 false)
                       (S754_finite false (Z.to_pos (10 ^ (- k))) 0).

Definition same_float (a b : float) : bool := SFeqb a b.

(** The [p]-digit decimal nearest to [num / den] that reads back as [v],
    if one does. *)
Definition shortest_at (p : Z) (v : float) (num den : Z) : option (Z * Z) :=
  let x := decimal_exponent num den in
  let '(n, d) := scale num den (x - p + 1) in
  let lo := n / d in
  let hi := lo + 1 in
  let near := round_half_even_frac n d in
  let far := if near =? lo then hi else lo in
  let norm q := if q =? 10 ^ p then (10 ^ (p - 1), x + 1) else (q, x) in
  let reads_back q := (0 <? q) && same_float (float_of_decimal q (x - p + 1)) v in
  if reads_back near then Some (norm near)
  else if reads_back far then Some (norm far)
  else None.

Fixpoint shortest_from (fuel : nat) (p : Z) (v : float) (num den : Z) : Z * Z :=
  match fuel with
  | O => round_significant 17 num den
  | S fuel' =>
      match shortest_at p v num den with
      | Some r => r
      | None => shortest_from fuel' (p + 1) v num den
      end
  end.

(** [str(v)] (the [repr] of a float). *)
Definition str_float (v : float) : string :=
  match v with
  | S754_nan => "nan"
  | S754_infinity s => (sign_prefix s +:+ "inf")
  | S754_zero s => (sign_prefix s +:+ "0.0")
  | S754_finite s m e =>
      let '(num, den) := fraction_of m e in
      let '(q, x) := shortest_from 16 1 (S754_finite false m e) num den in
      let ds := strip_trailing_zeros (digits q) in
      let body :=
        if (x <? -4) || (16 <=? x) then scientific ds x
        else positional ds x false true in
      (sign_prefix s +:+ body)
  end.

End PyFormat.

(* ================================================================== *)
(** * [uniplot/discretizer.py]                                         *)
(* ================================================================== *)

Module Discretizer.

(** [round(v)] on a float: to the nearest integer, ties to even. *)
Definition round_float (v : float) : outcome Z :=
  match v with
  | S754_nan => Raise ValueError
  | S754_infinity _ => Raise OverflowError
  | S754_zero _ => Ok 0
  | S754_finite s m e =>
      let '(num, den) := PyFormat.fraction_of m e in
      Ok (cond_Zopp s (PyFormat.round_half_even_frac num den))
  end.

(** Modelled from the spec: [discretize] of [uniplot/discretizer.py],
    which is not among the sources.  Linear interpolation,
    [round((value - x_min) / (x_max - x_min) * steps)]; a degenerate
    domain ([x_max == x_min]) gives position 0.  A missing value is not
    a number, and arithmetic on [None] raises [TypeError]. *)
Definition discretize (value : option float) (x_min x_max : float) (steps : Z)
  : outcome Z :=
  match value with
  | None => Raise TypeError
  | Some v =>
      if SFeqb x_max x_min then Ok 0
      else
        round_float
          (SFmul prec emax
             (SFdiv prec emax (SFsub prec emax v x_min) (SFsub prec emax x_max x_min))
             (float_of_Z steps))
  end.

End Discretizer.

(* ================================================================== *)
(** * [uniplot/axis_labels/label_set.py]                               *)
(* ================================================================== *)

Module LabelSet.

Definition LEFT_MARGIN_FOR_HORIZONTAL_AXIS : Z := 1.

(** The attributes of a [LabelSet] object.  A label is a float, or
    [None] for a missing label. *)
Record t : Type := mk {
  labels : list (option float);
  x_min : float;
  x_max : float;
  available_space : Z;
  vertical_direction : bool;
  _results_already_in_cache : bool;
  _rendered_result : list string;
  _render_does_overlap : bool
}.

(** [LabelSet.__init__]. *)
Definition __init__ (labels : list (option float)) (x_min x_max : float)
           (available_space : Z) (vertical_direction : bool) : t :=
  mk labels x_min x_max available_space vertical_direction false [] false.

Definition set_render_does_overlap (v : bool) (self : t) : t :=
  mk (labels self) (x_min self) (x_max self) (available_space self)
     (vertical_direction self) (_results_already_in_cache self)
     (_rendered_result self) v.

Definition set_rendered_result (v : list string) (self : t) : t :=
  mk (labels self) (x_min self) (x_max self) (available_space self)
     (vertical_direction self) (_results_already_in_cache self)
     v (_render_does_overlap self).

Definition set_results_already_in_cache (v : bool) (self : t) : t :=
  mk (labels self) (x_min self) (x_max self) (available_space self)
     (vertical_direction self) v
     (_rendered_result self) (_render_does_overlap self).

(** [len(s)] of a string. *)
Definition len (s : string) : Z := Z.of_nat (String.length s).

(** [" " * n]; a negative count gives the empty string. *)
Definition spaces (n : Z) : string :=
  string_of_list_ascii (repeat " "%char (Z.to_nat n)).

(** [int(0.5 * n)] for a length [n]: the product is exact below [2^53]
    and truncating it gives the floor of [n / 2]. *)
Definition half (n : Z) : Z := n / 2.

(** [l[i]]. *)
Definition item {A : Type} (l : list A) (i : Z) : outcome A :=
  match l !! Z.to_nat i with
  | Some x => Ok x
  | None => Raise IndexError
  end.

(** [len(test_list) == len(set(test_list))]. *)
Definition all_distinct (test_list : list string) : bool :=
  (length test_list =? size (list_to_set test_list : gset string))%nat.

(** [[n for n in numbers if n is not None]]. *)
Definition present (numbers : list (option float)) : list float :=
  omap (fun n => n) numbers.

Section Methods.

(** [discretize] of [uniplot.discretizer], and the two library
    conversions ["{:,.<p>g}".format] and [str]. *)
Variable discretize : option float -> float -> float -> Z -> outcome Z.
Variable format_g : nat -> float -> string.
Variable str : float -> string.

(** [_float_format]. *)
Definition _float_format (n : float) (nr_digits : nat) : outcome string :=
  if (nr_digits =? 0)%nat
  then (i <- int_of_float n ;; Ok (PyFormat.format_d i))
  else Ok (format_g nr_digits n).

(** The loop [for nr_digits in range(10)] of
    [_find_shortest_string_representation], over the precisions still
    to try; after the last one comes the naive conversion. *)
Fixpoint try_precisions (range : list nat) (numbers : list (option float))
  : outcome (list string) :=
  match range with
  | [] =>
      Ok (map (fun n => match n with None => "" | Some v => str v end) numbers)
  | nr_digits :: rest =>
      test_list <-
        comprehension (fun n => _float_format n nr_digits) (present numbers) ;;
      if all_distinct test_list
      then
        comprehension
          (fun n => match n with
                    | None => Ok ""
                    | Some v => _float_format v nr_digits
                    end)
          numbers
      else try_precisions rest numbers
  end.

(** [_find_shortest_string_representation]. *)
Definition _find_shortest_string_representation
           (numbers : list (option float)) : outcome (list string) :=
  try_precisions (seq 0 10) numbers.

(** The body of the loop of [_render_and_measure_to_cache], for the
    pair [(i, label)] of [enumerate(self.labels)] and the local [line]. *)
Definition place_label (str_labels : list string)
           (entry : Z * option float) (line : string) : method t string :=
  (let '(i, label) := entry in
   str_label <~ lift (item str_labels i) ;;
   lo <~ gets x_min ;;
   hi <~ gets x_max ;;
   steps <~ gets available_space ;;
   position <~ lift (discretize label lo hi steps) ;;
   let offset :=
     Z.max 0 (position - half (len str_label) + LEFT_MARGIN_FOR_HORIZONTAL_AXIS) in
   let buffer := offset - len line in
   buffer <~
     (if (i =? 0) && (buffer <? 0)
      then (modify (set_render_does_overlap true) ;;; ret 0)
      else if (0 <? i) && (buffer <? 1)
      then (modify (set_render_does_overlap true) ;;; ret 1)
      else ret buffer) ;;
   ret (line +:+ spaces buffer +:+ str_label))%method.

(** [_render_and_measure_to_cache]. *)
Definition _render_and_measure_to_cache : method t unit :=
  (cached <~ gets _results_already_in_cache ;;
   if cached : bool then ret tt
   else
     numbers <~ gets labels ;;
     str_labels <~ lift (_find_shortest_string_representation numbers) ;;
     line <~ for_each (place_label str_labels) (enumerate numbers) "" ;;
     modify (set_rendered_result [line]) ;;;
     modify (set_results_already_in_cache true))%method.

(** [render]. *)
Definition render : method t (list string) :=
  (_render_and_measure_to_cache ;;; gets _rendered_result)%method.

(** [compute_if_render_does_overlap]. *)
Definition compute_if_render_does_overlap : method t bool :=
  (_render_and_measure_to_cache ;;; gets _render_does_overlap)%method.

End Methods.

End LabelSet.

(* ================================================================== *)
(** * A computable logarithm, to run the log transforms                 *)
(* ================================================================== *)

Module NpEval.

(** A stand-in for [np.log10] that can be evaluated: it agrees with it on
    NaN, the zeros, the infinities, the negative numbers and the powers of
    ten, and rounds the logarithm of any other number down to an
    integer. *)
Definition log10_floor (v : float) : float :=
  match v with
  | S754_nan => nan
  | S754_zero _ => neg_inf
  | S754_infinity false => pos_inf
  | S754_infinity true => nan
  | S754_finite true _ _ => nan
  | S754_finite false m e =>
      let '(num, den) := PyFormat.fraction_of m e in
      float_of_Z (PyFormat.decimal_exponent num den)
  end.

End NpEval.

(* ================================================================== *)
(** * The design document's wording, for comparison with the code       *)
(* ================================================================== *)

Module Claimed.

(** "truncating division of nanosecond-precision epoch integers by
    10^9": division rounding towards zero. *)
Definition epoch_seconds (ns : Z) : Z := Z.quot ns (10 ^ 9).

(** Label placement: the intended start column of a label, the minimum
    gap before it (none before the first label, one column before every
    other), and the line and overlap flag after each label. *)
Definition intended_start (position : Z) (str_label : string) : Z :=
  Z.max 0 (position - LabelSet.len str_label / 2
           + LabelSet.LEFT_MARGIN_FOR_HORIZONTAL_AXIS).

Definition min_gap (i : nat) : Z :=
  match i with O => 0 | S _ => 1 end.

Fixpoint layout (i : nat) (placed : list (Z * string))
         (line : string) (overlap : bool) : string * bool :=
  match placed with
  | [] => (line, overlap)
  | (position, str_label) :: rest =>
      let buffer := intended_start position str_label - LabelSet.len line in
      layout (S i) rest
             (line +:+ LabelSet.spaces (Z.max buffer (min_gap i)) +:+ str_label)
             (overlap || (buffer <? min_gap i))
  end.

(** ** The formatting rule, in the words of the design document.
    Nothing here uses the formatting functions of the code. *)

Definition digit (d : Z) : ascii :=
  match d with
  | 0 => "0" | 1 => "1" | 2 => "2" | 3 => "3" | 4 => "4"
  | 5 => "5" | 6 => "6" | 7 => "7" | 8 => "8" | _ => "9"
  end%char.

(** The last [width] decimal digits of [n >= 0]. *)
Fixpoint padded (width : nat) (n : Z) : string :=
  match width with
  | O => ""
  | S w => padded w (n / 10) +:+ String (digit (n mod 10)) ""
  end.

(** The decimal numeral of a number below 1000. *)
Definition below_1000 (n : Z) : string :=
  if n <? 10 then padded 1 n else if n <? 100 then padded 2 n else padded 3 n.

(** "grouped (thousands-separated)": the numeral of [n >= 0] in groups of
    three digits from the right, with a comma between groups;
    [groups] bounds the number of commas. *)
Fixpoint grouped (groups : nat) (n : Z) : string :=
  match groups with
  | O => below_1000 n
  | S g =>
      if n <? 1000 then below_1000 n
      else grouped g (n / 1000) +:+ "," +:+ padded 3 (n mod 1000)
  end.

Definition sign (negative : bool) : string := if negative then "-" else "".

(** A grouped integer. *)
Definition thousands (n : Z) : string :=
  sign (n <? 0) +:+ grouped (Z.to_nat (Z.log2 (Z.abs n))) (Z.abs n).

(** The integer that a finite number is shown as at precision 0: its
    exact value [(-1)^s * m * 2^e] rounded towards zero. *)
Definition whole (v : float) : Z :=
  match v with
  | S754_finite s m e =>
      Z.quot (cond_Zopp s (Z.pos m) * 2 ^ Z.max e 0) (2 ^ Z.max (- e) 0)
  | _ => 0
  end.

(** The place of the leading digit of [num / den > 0]: the largest [x]
    with [10 ^ x <= num / den]. *)
Fixpoint leading_up (fuel : nat) (n x : Z) : Z :=
  match fuel with
  | O => x
  | S f => if 10 ^ (x + 1) <=? n then leading_up f n (x + 1) else x
  end.

Fixpoint leading_down (fuel : nat) (num den x : Z) : Z :=
  match fuel with
  | O => x
  | S f => if den <=? num * 10 ^ (- x) then x else leading_down f num den (x - 1)
  end.

Definition leading (num den : Z) : Z :=
  if den <=? num then leading_up (Z.to_nat (Z.log2 num)) (num / den) 0
  else leading_down (Z.to_nat (Z.log2 den)) num den (-1).

(** The integer nearest to [n / d], the even one of two that are equally
    near. *)
Definition nearest (n d : Z) : Z :=
  let lo := n / d in
  match 2 * (n - lo * d) ?= d with
  | Lt => lo
  | Gt => lo + 1
  | Eq => if Z.even lo then lo else lo + 1
  end.

(** The digits after the decimal point of [f / 10 ^ scale], without
    trailing zeros, and nothing at all when there are none. *)
Fixpoint fraction (scale : nat) (f : Z) : string :=
  match scale with
  | O => ""
  | S sc => if f mod 10 =? 0 then fraction sc (f / 10) else "." +:+ padded scale f
  end.

(** The [p] digits [q] with the leading digit at place [x], written out:
    the integer part grouped, then the fraction. *)
Definition fixed_notation (p q x : Z) : string :=
  let scale := p - 1 - x in
  grouped (Z.to_nat (Z.log2 q)) (q / 10 ^ scale)
  +:+ fraction (Z.to_nat scale) (q mod 10 ^ scale).

(** The same digits with an exponent of at least two digits. *)
Definition exponent_notation (p q x : Z) : string :=
  String (digit (q / 10 ^ (p - 1))) (fraction (Z.to_nat (p - 1)) (q mod 10 ^ (p - 1)))
  +:+ "e" +:+ (if x <? 0 then "-" else "+")
  +:+ (if Z.abs x <? 100 then padded 2 (Z.abs x) else padded 3 (Z.abs x)).

(** "formats with that many significant digits, thousands-separated":
    the number is rounded to [p] significant digits and written without
    trailing zeros, the integer part grouped; a number whose leading digit
    is below the fourth decimal or at the place [p] or above is written
    with an exponent (the general format). *)
Definition significant (p : nat) (v : float) : string :=
  match v with
  | S754_nan => "nan"
  | S754_infinity s => sign s +:+ "inf"
  | S754_zero s => sign s +:+ "0"
  | S754_finite s m e =>
      let p := Z.max 1 (Z.of_nat p) in
      let num := Z.pos m * 2 ^ Z.max e 0 in
      let den := 2 ^ Z.max (- e) 0 in
      let x := leading num den in
      let k := x - p + 1 in
      let q := if 0 <=? k then nearest num (den * 10 ^ k)
               else nearest (num * 10 ^ (- k)) den in
      let '(q, x) := if q =? 10 ^ p then (10 ^ (p - 1), x + 1) else (q, x) in
      sign s +:+
      (if (x <? -4) || (p <=? x) then exponent_notation p q x
       else fixed_notation p q x)
  end.

(** "precision 0 formats as a grouped (thousands-separated) integer;
    precision > 0 formats with that many significant digits,
    thousands-separated". *)
Definition formatted (p : nat) (v : float) : string :=
  match p with
  | O => thousands (whole v)
  | S _ => significant p v
  end.

(** The strings of a label list at precision [p]; "missing labels render
    as empty string". *)
Definition rendered_at (p : nat) (numbers : list (option float)) : list string :=
  map (fun n => match n with None => "" | Some v => formatted p v end) numbers.

(** "the resulting strings are pairwise distinct": no two labels at
    different places of the list, neither of them missing, get the same
    string. *)
Definition distinct_at (p : nat) (numbers : list (option float)) : Prop :=
  forall i j v w,
    i <> j ->
    numbers !! i = Some (Some v) -> numbers !! j = Some (Some w) ->
    formatted p v <> formatted p w.

(** "each value's default/naive string form", [str] being the conversion
    of the language. *)
Definition naive (str : float -> string) (numbers : list (option float))
  : list string :=
  map (fun n => match n with None => "" | Some v => str v end) numbers.

End Claimed.

(* ================================================================== *)
(** * Predicates used in the statements                                 *)
(* ================================================================== *)

(** A value is iterable when [iter] returns. *)
Definition iterable (x : pyval) : Prop := exists items, iter x = Ok items.

(** The values that are iterable: the lists and the pandas containers. *)
Definition is_iterable (x : pyval) : bool :=
  match x with
  | PyList _ | PySeries _ | PyDatetimeSeries _ | PyDatetimeIndex _ => true
  | _ => false
  end.

(** A stored series that is an array, as opposed to an array scalar. *)
Definition is_array (a : Np.ndarray) : Prop := Np.is_scalar a = false.

(** The dtype of a stored series. *)
Definition float_row (a : Np.ndarray) : Prop :=
  exists cells, Np.data a = Np.FloatData cells.

Definition int_row (a : Np.ndarray) : Prop :=
  exists cells, Np.data a = Np.IntData cells.

Definition numeric_row (a : Np.ndarray) : Prop := int_row a \/ float_row a.

(** What [_safe_log10] makes of one cell: NaN when the cell is [<= 0],
    the logarithm of the cell otherwise. *)
Definition log10_cell (log10 : float -> float) (v : float) : float :=
  log10 (if fle v zero then nan else v).



(** The place of a float that is not NaN in the order of [SFcompare]:
    the infinities at the ends, the finite numbers by sign, then exponent,
    then mantissa. *)
Definition rank (f : float) : Z * Z * Z :=
  match f with
  | S754_nan => (0, 0, 0)
  | S754_zero _ => (0, 0, 0)
  | S754_infinity true => (-2, 0, 0)
  | S754_infinity false => (2, 0, 0)
  | S754_finite true m e => (-1, - e, - Z.pos m)
  | S754_finite false m e => (1, e, Z.pos m)
  end.

Definition lex_lt (a b : Z * Z * Z) : Prop :=
  let '(a1, a2, a3) := a in
  let '(b1, b2, b3) := b in
  a1 < b1 \/ (a1 = b1 /\ (a2 < b2 \/ (a2 = b2 /\ a3 < b3))).

Definition lex_le (a b : Z * Z * Z) : Prop := lex_lt a b \/ a = b.

(** The string that [_float_format] returns for a finite number, and the
    strings of a label list at one precision. *)
Definition label_string (format_g : nat -> float -> string) (p : nat) (v : float)
  : string :=
  match p with
  | O =>
      match v with
      | S754_finite s m e => PyFormat.format_d (cond_Zopp s (Z.shiftl (Z.pos m) e))
      | _ => PyFormat.format_d 0
      end
  | S _ => format_g p v
  end.

Definition label_strings (format_g : nat -> float -> string) (p : nat)
           (numbers : list (option float)) : list string :=
  map (fun n => match n with None => "" | Some v => label_string format_g p v end)
      numbers.

(** What is assumed of the library function ["{:,.<p>g}".format]: on the
    labels at hand, and for the precisions that the search tries, it
    formats with [p] significant digits, thousands-separated. *)
Definition formats_as_claimed (format_g : nat -> float -> string)
           (numbers : list (option float)) : Prop :=
  forall p v, (1 <= p <= 9)%nat -> In (Some v) numbers ->
    format_g p v = Claimed.significant p v.

(** A label that can be formatted at every precision: missing, or a
    finite number ([int] of NaN or of an infinity raises). *)
Definition formattable (n : option float) : Prop :=
  match n with
  | None => True
  | Some v => isfinite v = true
  end.

(** A [LabelSet] object with its [vertical_direction] replaced. *)
Definition with_direction (b : bool) (s : LabelSet.t) : LabelSet.t :=
  LabelSet.mk (LabelSet.labels s) (LabelSet.x_min s) (LabelSet.x_max s)
    (LabelSet.available_space s) b
    (LabelSet._results_already_in_cache s) (LabelSet._rendered_result s)
    (LabelSet._render_does_overlap s).

(** Two [LabelSet] objects that differ at most in [vertical_direction]. *)
Definition same_but_direction (s1 s2 : LabelSet.t) : Prop :=
  s2 = with_direction (LabelSet.vertical_direction s2) s1.

(** A method whose result does not depend on [vertical_direction] and
    which leaves that attribute alone. *)
Definition ignores_direction {A : Type} (m : method LabelSet.t A) : Prop :=
  forall b s, m (with_direction b s) = (fst (m s), with_direction b (snd (m s))).

(** All cells of the rows of a series list, NaN excluded. *)
Definition numbers_of (rows : list Np.ndarray) : list float :=
  List.filter (fun v => negb (isnan v))
    (concat (map (fun a => Np.cells_as_floats (Np.data a)) rows)).

(** All cells of the rows of a list of integer series. *)
Definition ints_of (rows : list Np.ndarray) : list Z :=
  concat (map (fun a => Np.cells_as_ints (Np.data a)) rows).

(** A Python number or [None]; an [int] within the range of [int64]. *)
Definition number_like (x : pyval) : Prop :=
  match x with
  | PyNone | PyFloat _ => True
  | PyInt n => in_int64 n = true
  | _ => False
  end.

(** The [float64] cell stored for a number or [None]. *)
Definition as_cell (x : pyval) : float :=
  match x with
  | PyInt n => float_of_Z n
  | PyFloat f => f
  | _ => nan
  end.

(** The exception that formatting a label at precision 0 raises, if any,
    and the first one met in a label list. *)
Definition format_error (n : option float) : option exn :=
  match n with
  | Some S754_nan => Some ValueError
  | Some (S754_infinity _) => Some OverflowError
  | _ => None
  end.

Fixpoint first_format_error (numbers : list (option float)) : option exn :=
  match numbers with
  | [] => None
  | n :: rest =>
      match format_error n with
      | Some e => Some e
      | None => first_format_error rest
      end
  end.

(** The column at which each label text starts in the rendered line:
    its intended start, or the first column that leaves the minimum gap
    after the text before it, whichever is further right.  [cursor] is the
    length of the line so far. *)
Fixpoint columns (i : nat) (placed : list (Z * string)) (cursor : Z) : list Z :=
  match placed with
  | [] => []
  | (position, str_label) :: rest =>
      let column :=
        Z.max (Claimed.intended_start position str_label)
              (cursor + Claimed.min_gap i) in
      column :: columns (S i) rest (column + LabelSet.len str_label)
  end.

(** [text] is what the line holds from column [column] on, over the length
    of [text]. *)
Definition text_at (line : string) (column : Z) (text : string) : Prop :=
  substring (Z.to_nat column) (String.length text) line = text.

(** A label whose column is not its intended start. *)
Definition shifted (entry : Z * (Z * string)) : bool :=
  let '(column, (position, str_label)) := entry in
  negb (column =? Claimed.intended_start position str_label).

(** The series that [_safe_log10] makes of an array of numbers: an array
    of the same shape, or an array scalar when the array has no
    dimension. *)
Definition log10_row (log10 : float -> float) (x : Np.ndarray) : Np.ndarray :=
  Np.mk_value (Np.unsized x) (Np.shape x)
    (Np.FloatData (map (log10_cell log10) (Np.cells_as_floats (Np.data x)))).

(** A cell [v] and the cell [w] stored for it by a log transform, when
    the logarithm of a positive number is a number: [w] is NaN exactly
    when [v] is not positive (NaN, zero or negative), and the logarithm of
    [v] otherwise. *)
Definition nan_unless_positive (log10 : float -> float) (v w : float) : Prop :=
  isnan w = negb (flt zero v) /\ (flt zero v = true -> w = log10 v).

(** A series that has a length: neither a 0-d array nor an array
    scalar. *)
Definition sized (a : Np.ndarray) : Prop := Np.unsized a = false.

(** No series of the list is an array scalar. *)
Definition all_arrays (rows : list Np.ndarray) : bool :=
  forallb (fun x => negb (Np.is_scalar x)) rows.

(** Two [LabelSet] objects that differ at most in [_render_does_overlap]. *)
Definition same_but_overlap (s1 s2 : LabelSet.t) : Prop :=
  s2 = LabelSet.set_render_does_overlap (LabelSet._render_does_overlap s2) s1.

(* ================================================================== *)
(** * Properties of the Python and numpy layer                         *)
(* ================================================================== *)

Section OutcomeFacts.

Context {A B : Type}.
Implicit Types (f : A -> outcome B) (l : list A).

Lemma comprehension_ok_inv f l r :
  comprehension f l = Ok r -> Forall2 (fun x y => f x = Ok y) l r.
Proof.
  revert r. induction l as [|x l IH]; intros r; simpl.
  - intros [= <-]. constructor.
  - destruct (f x) as [y| |] eqn:Hx; simpl; try discriminate.
    destruct (comprehension f l) as [ys| |]; simpl; try discriminate.
    intros [= <-]. constructor; auto.
Qed.

Lemma comprehension_ok_intro f l r :
  Forall2 (fun x y => f x = Ok y) l r -> comprehension f l = Ok r.
Proof.
  induction 1 as [|x y l r Hx _ IH]; simpl; [reflexivity|].
  now rewrite Hx, IH.
Qed.

Lemma comprehension_length f l r :
  comprehension f l = Ok r -> length r = length l.
Proof.
  intros H. apply comprehension_ok_inv in H.
  symmetry. eapply Forall2_length; eauto.
Qed.


End OutcomeFacts.

Lemma is_ok_true {A : Type} (m : outcome A) :
  is_ok m = true -> exists a, m = Ok a.
Proof. destruct m; simpl; try discriminate. eauto. Qed.

(** ** Strings *)

Lemma string_app_cons c a b : String c a +:+ b = String c (a +:+ b).
Proof. reflexivity. Qed.

Lemma string_app_nil_r a : a +:+ "" = a.
Proof.
  induction a as [|c a IH]; [reflexivity|]. now rewrite string_app_cons, IH.
Qed.

Lemma string_app_assoc a b c : (a +:+ b) +:+ c = a +:+ (b +:+ c).
Proof.
  induction a as [|x a IH]; [reflexivity|]. now rewrite !string_app_cons, IH.
Qed.

Lemma string_of_list_ascii_app l1 l2 :
  string_of_list_ascii (l1 ++ l2) = string_of_list_ascii l1 +:+ string_of_list_ascii l2.
Proof.
  induction l1 as [|c l1 IH]; [reflexivity|].
  cbn [app string_of_list_ascii]. now rewrite string_app_cons, IH.
Qed.

(* ================================================================== *)
(** * [MultiSeries]: construction                                       *)
(* ================================================================== *)

Section MultiSeriesConstruction.

Import Np MultiSeries.

Lemma iterable_is_iterable x : iterable x <-> is_iterable x = true.
Proof.
  split.
  - intros [items H]. destruct x; simpl in *; congruence.
  - destruct x; simpl; try discriminate; intros _; eexists; reflexivity.
Qed.

Lemma is_list_is_iterable x : is_list x = true -> is_iterable x = true.
Proof. destruct x; simpl; congruence. Qed.

Lemma comprehension_iter items :
  (forallb is_iterable items = true /\ exists r, comprehension iter items = Ok r) \/
  (forallb is_iterable items = false /\ comprehension iter items = Raise TypeError).
Proof.
  induction items as [|x items IH]; simpl.
  - left. eauto.
  - destruct x; simpl; auto;
      destruct IH as [[-> [r ->]] | [-> ->]]; simpl; eauto.
Qed.

(** The classification of a value by the items that iterating it yields. *)
Lemma _is_multi_dimensional_items v items :
  iter v = Ok items ->
  _is_multi_dimensional v = Ok (forallb is_iterable items).
Proof.
  unfold _is_multi_dimensional. intros ->. cbn [bind].
  destruct (comprehension_iter items) as [[-> [r ->]] | [-> ->]]; reflexivity.
Qed.

Lemma _is_multi_dimensional_list items :
  _is_multi_dimensional (PyList items) = Ok (forallb is_iterable items).
Proof. now apply _is_multi_dimensional_items. Qed.

Lemma _is_multi_dimensional_scalar v :
  is_iterable v = false -> _is_multi_dimensional v = Ok false.
Proof. destruct v; simpl; try discriminate; reflexivity. Qed.

Lemma astype_float_is_float a b :
  astype_float a = Ok b -> float_row b.
Proof.
  unfold astype_float, float_row. destruct (data a) as [l|l|l].
  - intros [= <-]. eauto.
  - intros [= <-]. eauto.
  - destruct (comprehension float_of_object l); simpl; try discriminate.
    intros [= <-]. eauto.
Qed.

Lemma _cast_as_numpy_floats_is_float v a :
  _cast_as_numpy_floats v = Ok a -> float_row a.
Proof.
  unfold _cast_as_numpy_floats.
  destruct (Np.array v) as [b| |]; simpl; try discriminate.
  destruct (is_inexact b) eqn:E.
  - intros [= <-]. unfold is_inexact in E. unfold float_row.
    destruct (data b); simpl in E; try discriminate. eauto.
  - apply astype_float_is_float.
Qed.

Lemma comprehension_cast_float rows r :
  comprehension _cast_as_numpy_floats rows = Ok r -> Forall float_row r.
Proof.
  intros H. apply comprehension_ok_inv in H.
  induction H; constructor; eauto using _cast_as_numpy_floats_is_float.
Qed.

Lemma _convert_timeseries_is_int v a :
  _convert_timeseries_to_numpy v = Ok a -> int_row a.
Proof.
  unfold _convert_timeseries_to_numpy.
  destruct v; cbv beta iota zeta; try discriminate;
    (match goal with
     | |- context [Pd.to_datetime ?l] => destruct (Pd.to_datetime l)
     end; simpl; try discriminate; intros [= <-]; eexists; reflexivity).
Qed.

Lemma comprehension_convert_int rows r :
  comprehension _convert_timeseries_to_numpy rows = Ok r -> Forall int_row r.
Proof.
  intros H. apply comprehension_ok_inv in H.
  induction H; constructor; eauto using _convert_timeseries_is_int.
Qed.

Lemma comprehension_arange rows r :
  comprehension (fun ys_row => n <- len ys_row ;; Ok (arange_from_1 n)) rows = Ok r ->
  Forall2 (fun ys_row x_row =>
             exists n, len ys_row = Ok n /\ x_row = arange_from_1 n) rows r.
Proof.
  intros H. apply comprehension_ok_inv in H.
  induction H as [|a b rows r Hab _ IH]; constructor; auto.
  destruct (len a) as [n| |]; simpl in Hab; try discriminate.
  injection Hab as <-. eauto.
Qed.

(** What a successful construction stores. *)
Lemma __init___inv ys0 xs0 ms :
  __init__ ys0 xs0 = Ok ms ->
  _is_multi_dimensional ys0 = Ok (is_multi_dimensional ms) /\
  x_is_timeseries ms = _is_timeseries_ish xs0 /\
  Forall float_row (ys ms) /\
  match xs0 with
  | PyNone =>
      Forall2 (fun ys_row x_row =>
                 exists n, len ys_row = Ok n /\ x_row = arange_from_1 n)
              (ys ms) (xs ms)
  | _ =>
      if _is_timeseries_ish xs0 then
        if is_multi_dimensional ms
        then exists rows, iter xs0 = Ok rows /\
               comprehension _convert_timeseries_to_numpy rows = Ok (xs ms)
        else exists row, _convert_timeseries_to_numpy xs0 = Ok row /\ xs ms = [row]
      else Forall float_row (xs ms)
  end.
Proof.
  unfold __init__.
  destruct (_is_multi_dimensional ys0) as [multi| |] eqn:Hm; simpl; try discriminate.
  set (ys_rows := if multi then _ else _).
  destruct ys_rows as [rows| |] eqn:Hy; simpl; try discriminate.
  assert (Hfloat : Forall float_row rows).
  { subst ys_rows. destruct multi.
    - destruct (iter ys0); simpl in Hy; try discriminate.
      eauto using comprehension_cast_float.
    - destruct (_cast_as_numpy_floats ys0) eqn:Hc; simpl in Hy; try discriminate.
      injection Hy as <-. repeat constructor.
      eauto using _cast_as_numpy_floats_is_float. }
  clear Hy ys_rows.
  match goal with |- bind ?X _ = _ -> _ => destruct X as [xrows| |] eqn:Hx end;
    simpl; try discriminate.
  intros [= <-]. simpl. repeat split; auto.
  remember (_is_timeseries_ish xs0) as ts eqn:Hts. clear Hts Hm.
  destruct xs0; [now apply comprehension_arange | ..];
    lazy beta iota in Hx;
    (destruct ts, multi;
     [ destruct (iter _) as [its| |]; simpl in Hx; try discriminate; eauto
     | destruct (_convert_timeseries_to_numpy _) as [row| |];
       simpl in Hx; try discriminate; injection Hx as <-; eauto
     | destruct (iter _) as [its| |]; simpl in Hx; try discriminate;
       eauto using comprehension_cast_float
     | destruct (_cast_as_numpy_floats _) as [row| |] eqn:Hc;
       simpl in Hx; try discriminate; injection Hx as <-;
       repeat constructor; eauto using _cast_as_numpy_floats_is_float ]).
Qed.

End MultiSeriesConstruction.

(** The classification of a value that is iterable. *)
Lemma _is_multi_dimensional_spec ys0 items :
  iter ys0 = Ok items ->
  (Forall iterable items -> MultiSeries._is_multi_dimensional ys0 = Ok true) /\
  (Exists (fun x => ~ iterable x) items ->
   MultiSeries._is_multi_dimensional ys0 = Ok false).
Proof.
  intros Hiter. rewrite (_is_multi_dimensional_items ys0 items Hiter). split.
  - intros HF. f_equal. apply List.forallb_forall.
    rewrite List.Forall_forall in HF. intros x Hin.
    now apply iterable_is_iterable, HF.
  - intros Hex. f_equal. apply not_true_is_false. intros Hall.
    rewrite List.forallb_forall in Hall.
    apply List.Exists_exists in Hex as (x & Hin & Hx).
    now apply Hx, iterable_is_iterable, Hall.
Qed.

(** C9. [_is_multi_dimensional] returns true exactly when every element
    that the [ys] input yields is itself iterable, and false otherwise:
    when some element is not iterable (an input that mixes iterable and
    other elements included) and when the input is not iterable itself.
    The constructor stores this classification in [is_multi_dimensional]. *)
Theorem C9_is_multi_dimensional (ys0 : pyval) :
  (forall items, iter ys0 = Ok items -> Forall iterable items ->
     MultiSeries._is_multi_dimensional ys0 = Ok true) /\
  (forall items, iter ys0 = Ok items -> Exists (fun x => ~ iterable x) items ->
     MultiSeries._is_multi_dimensional ys0 = Ok false) /\
  (~ iterable ys0 -> MultiSeries._is_multi_dimensional ys0 = Ok false) /\
  (forall xs0 ms, MultiSeries.__init__ ys0 xs0 = Ok ms ->
     MultiSeries._is_multi_dimensional ys0
     = Ok (MultiSeries.is_multi_dimensional ms)).
Proof.
  split; [|split; [|split]].
  - intros items Hiter. exact (proj1 (_is_multi_dimensional_spec ys0 items Hiter)).
  - intros items Hiter. exact (proj2 (_is_multi_dimensional_spec ys0 items Hiter)).
  - intros Hn. apply _is_multi_dimensional_scalar, not_true_is_false.
    intros Hi. now apply Hn, iterable_is_iterable.
  - intros xs0 ms H. now apply __init___inv in H as (Hm & _).
Qed.

(** [MultiSeries(ys=[[1,2],[3,4]])] is multi-dimensional,
    [MultiSeries(ys=[1,2,3])] is not, and the mixed input [[1, [2, 3]]] is
    classified as not multi-dimensional. *)
Lemma C9_witness_nested :
  let nested := PyList [PyList [PyInt 1; PyInt 2]; PyList [PyInt 3; PyInt 4]] in
  let flat := PyList [PyInt 1; PyInt 2; PyInt 3] in
  let mixed := PyList [PyInt 1; PyList [PyInt 2; PyInt 3]] in
  (exists ms, MultiSeries.__init__ nested PyNone = Ok ms /\
              MultiSeries.is_multi_dimensional ms = true) /\
  (exists ms, MultiSeries.__init__ flat PyNone = Ok ms /\
              MultiSeries.is_multi_dimensional ms = false) /\
  MultiSeries._is_multi_dimensional mixed = Ok false.
Proof.
  intros nested flat mixed.
  assert (Hnot : ~ iterable (PyInt 1)) by (intros [items H]; discriminate H).
  split; [|split].
  - destruct (MultiSeries.__init__ nested PyNone) as [ms| |] eqn:H;
      [| vm_compute in H; discriminate ..].
    exists ms. split; [reflexivity|].
    destruct (C9_is_multi_dimensional nested) as (Hall & _ & _ & Hflag).
    specialize (Hflag PyNone ms H).
    rewrite (Hall _ eq_refl) in Hflag; [now injection Hflag|].
    repeat constructor; eexists; reflexivity.
  - destruct (MultiSeries.__init__ flat PyNone) as [ms| |] eqn:H;
      [| vm_compute in H; discriminate ..].
    exists ms. split; [reflexivity|].
    destruct (C9_is_multi_dimensional flat) as (_ & Hsome & _ & Hflag).
    specialize (Hflag PyNone ms H).
    rewrite (Hsome _ eq_refl) in Hflag; [now injection Hflag|].
    now constructor.
  - destruct (C9_is_multi_dimensional mixed) as (_ & Hsome & _).
    apply (Hsome _ eq_refl). now constructor.
Defined.

(* ================================================================== *)
(** * [MultiSeries]: the log transforms                                 *)
(* ================================================================== *)

Section MultiSeriesLog10.

Import Np MultiSeries.

Variable log10 : float -> float.

Lemma _safe_log10_numeric x :
  numeric_row x ->
  _safe_log10 log10 x =
  if is_scalar x then Raise TypeError else Ok (log10_row log10 x).
Proof.
  unfold _safe_log10, astype_float, log10_row, log10_cell, unsized.
  intros [[cells H] | [cells H]]; rewrite H; cbn [bind];
    unfold assign_where; cbn [is_scalar data shape];
    destruct (is_scalar x); try reflexivity;
    unfold ufunc, unsized; cbn [bind is_scalar data shape cells_as_floats];
    now rewrite ?map_map.
Qed.

Lemma all_arrays_Forall rows : all_arrays rows = true <-> Forall is_array rows.
Proof.
  unfold all_arrays, is_array. rewrite List.forallb_forall, List.Forall_forall.
  split; intros H x Hin; specialize (H x Hin); now destruct (is_scalar x).
Qed.

(** The comprehension over the series: it returns when every series is an
    array, and raises [TypeError] at the first array scalar. *)
Lemma comprehension_safe_log10 rows :
  Forall numeric_row rows ->
  comprehension (_safe_log10 log10) rows =
  if all_arrays rows then Ok (map (log10_row log10) rows) else Raise TypeError.
Proof.
  induction 1 as [|x rows Hx _ IH]; cbn [comprehension all_arrays forallb map];
    [reflexivity|].
  rewrite (_safe_log10_numeric x Hx). fold (all_arrays rows).
  destruct (is_scalar x); cbn [bind negb andb]; [reflexivity|].
  rewrite IH. now destruct (all_arrays rows).
Qed.

Lemma Forall_float_row_map rows :
  Forall float_row (map (log10_row log10) rows).
Proof.
  induction rows; simpl; constructor; auto. eexists; reflexivity.
Qed.

Lemma float_row_numeric rows : Forall float_row rows -> Forall numeric_row rows.
Proof. intros H. eapply Forall_impl; [exact H|]. intros a Ha. now right. Qed.

Lemma int_row_numeric rows : Forall int_row rows -> Forall numeric_row rows.
Proof. intros H. eapply Forall_impl; [exact H|]. intros a Ha. now left. Qed.

(** The rows a constructor stores are arrays of numbers. *)
Lemma __init___numeric ys0 xs0 ms :
  __init__ ys0 xs0 = Ok ms ->
  Forall float_row (ys ms) /\ Forall numeric_row (xs ms).
Proof.
  intros H. apply __init___inv in H as (_ & _ & Hy & Hx). split; [exact Hy|].
  destruct xs0;
    [ clear Hy; induction Hx as [|a b l l' (n & _ & ->) _ IH]; constructor;
      [left; eexists; reflexivity | exact IH]
    | .. ];
    (destruct (_is_timeseries_ish _); [| now apply float_row_numeric];
     destruct (is_multi_dimensional ms);
     [ destruct Hx as (rows & _ & Hc); apply int_row_numeric;
       eauto using comprehension_convert_int
     | destruct Hx as (row & Hc & ->); repeat constructor;
       eauto using _convert_timeseries_is_int ]).
Qed.

Lemma set_x_axis_to_log10_run ms :
  Forall numeric_row (xs ms) ->
  set_x_axis_to_log10 log10 ms =
  if x_is_timeseries ms then (Raise ValueError, ms)
  else if all_arrays (xs ms)
       then (Ok tt, set_xs (map (log10_row log10) (xs ms)) ms)
       else (Raise TypeError, ms).
Proof.
  intros H. unfold set_x_axis_to_log10, mbind, gets, lift, modify.
  destruct (x_is_timeseries ms); [reflexivity|].
  rewrite (comprehension_safe_log10 _ H). now destruct (all_arrays (xs ms)).
Qed.

Lemma set_y_axis_to_log10_run ms :
  Forall numeric_row (ys ms) ->
  set_y_axis_to_log10 log10 ms =
  if all_arrays (ys ms)
  then (Ok tt, set_ys (map (log10_row log10) (ys ms)) ms)
  else (Raise TypeError, ms).
Proof.
  intros H. unfold set_y_axis_to_log10, mbind, gets, lift, modify.
  rewrite (comprehension_safe_log10 _ H). now destruct (all_arrays (ys ms)).
Qed.

(** Invariant of every object a program can hold: the y series have dtype
    [float64] and the x series dtype [int64] or [float64]. *)
Lemma reachable_numeric ms :
  reachable log10 ms ->
  Forall float_row (ys ms) /\ Forall numeric_row (xs ms).
Proof.
  induction 1 as [ys0 xs0 ms H | ms r ms' _ [IHy IHx] H | ms r ms' _ [IHy IHx] H].
  - eauto using __init___numeric.
  - rewrite (set_x_axis_to_log10_run ms IHx) in H.
    destruct (x_is_timeseries ms); [injection H as _ <-; auto|].
    destruct (all_arrays (xs ms)); injection H as _ <-; [|auto].
    split; [exact IHy|]. simpl.
    apply float_row_numeric, Forall_float_row_map.
  - rewrite (set_y_axis_to_log10_run ms (float_row_numeric _ IHy)) in H.
    destruct (all_arrays (ys ms)); injection H as _ <-; [|auto].
    simpl. split; [apply Forall_float_row_map | exact IHx].
Qed.

(** ** Arrays and array scalars *)

Lemma array_is_array v a : Np.array v = Ok a -> is_array a.
Proof.
  destruct v as [|n|f|d|d ns|items|items|stamps|stamps]; cbn [Np.array];
    try (intros [= <-]; reflexivity); try discriminate.
  - destruct (in_int64 n); [intros [= <-]; reflexivity | discriminate].
  - unfold stack.
    destruct (comprehension (fun a => a) (map Np.array items)) as [arrs| |];
      cbn [bind]; try discriminate.
    destruct arrs as [|b rest]; [intros [= <-]; reflexivity|].
    destruct (forallb _ rest); [intros [= <-]; reflexivity | discriminate].
Qed.

Lemma astype_float_is_scalar a b :
  astype_float a = Ok b -> is_scalar b = is_scalar a.
Proof.
  unfold astype_float. destruct (data a) as [l|l|l]; try (intros [= <-]; reflexivity).
  destruct (comprehension float_of_object l); cbn [bind]; try discriminate.
  intros [= <-]. reflexivity.
Qed.

Lemma _cast_as_numpy_floats_is_array v a :
  _cast_as_numpy_floats v = Ok a -> is_array a.
Proof.
  unfold _cast_as_numpy_floats.
  destruct (Np.array v) as [b| |] eqn:Hb; cbn [bind]; try discriminate.
  apply array_is_array in Hb.
  destruct (is_inexact b); [intros [= <-]; exact Hb|].
  intros H. apply astype_float_is_scalar in H. unfold is_array in *. congruence.
Qed.

Lemma _convert_timeseries_is_array v a :
  _convert_timeseries_to_numpy v = Ok a -> is_array a.
Proof.
  unfold _convert_timeseries_to_numpy.
  destruct v; cbv beta iota zeta; try discriminate;
    (match goal with
     | |- context [Pd.to_datetime ?l] => destruct (Pd.to_datetime l)
     end; simpl; try discriminate; intros [= <-]; reflexivity).
Qed.

(** Every series that the constructor stores is the result of a cast, of
    a conversion of dates, or an index series. *)
Lemma __init___rows (P : ndarray -> Prop) :
  (forall v a, _cast_as_numpy_floats v = Ok a -> P a) ->
  (forall v a, _convert_timeseries_to_numpy v = Ok a -> P a) ->
  (forall n, P (arange_from_1 n)) ->
  forall ys0 xs0 ms,
    __init__ ys0 xs0 = Ok ms -> Forall P (ys ms) /\ Forall P (xs ms).
Proof.
  intros Hcast Hconv Hindex ys0 xs0 ms.
  assert (Hcasts : forall rows r,
             comprehension _cast_as_numpy_floats rows = Ok r -> Forall P r).
  { intros rows r H. apply comprehension_ok_inv in H.
    induction H; constructor; eauto. }
  assert (Hconvs : forall rows r,
             comprehension _convert_timeseries_to_numpy rows = Ok r -> Forall P r).
  { intros rows r H. apply comprehension_ok_inv in H.
    induction H; constructor; eauto. }
  unfold __init__.
  destruct (_is_multi_dimensional ys0) as [multi| |]; cbn [bind]; try discriminate.
  set (ys_rows := if multi then _ else _).
  destruct ys_rows as [rows| |] eqn:Hy; cbn [bind]; try discriminate.
  assert (Hrows : Forall P rows).
  { subst ys_rows. destruct multi.
    - destruct (iter ys0); cbn [bind] in Hy; try discriminate. eauto.
    - destruct (_cast_as_numpy_floats ys0) eqn:Hc; cbn [bind] in Hy;
        try discriminate.
      injection Hy as <-. repeat constructor. eauto. }
  clear Hy ys_rows.
  match goal with |- bind ?X _ = _ -> _ => destruct X as [xrows| |] eqn:Hx end;
    cbn [bind]; try discriminate.
  intros [= <-]. cbn [ys xs]. split; [exact Hrows|].
  remember (_is_timeseries_ish xs0) as ts eqn:Hts. clear Hts.
  destruct xs0;
    [ apply comprehension_arange in Hx; clear Hrows;
      induction Hx as [|a b l l' (n & _ & ->) _ IH]; constructor; auto
    | .. ];
    lazy beta iota in Hx;
    (destruct ts, multi;
     [ destruct (iter _) as [its| |]; cbn [bind] in Hx; try discriminate; eauto
     | destruct (_convert_timeseries_to_numpy _) as [row| |] eqn:Hc;
       cbn [bind] in Hx; try discriminate; injection Hx as <-;
       repeat constructor; eauto
     | destruct (iter _) as [its| |]; cbn [bind] in Hx; try discriminate; eauto
     | destruct (_cast_as_numpy_floats _) as [row| |] eqn:Hc;
       cbn [bind] in Hx; try discriminate; injection Hx as <-;
       repeat constructor; eauto ]).
Qed.

(** The constructor stores arrays only. *)
Lemma __init___arrays ys0 xs0 ms :
  __init__ ys0 xs0 = Ok ms -> Forall is_array (ys ms) /\ Forall is_array (xs ms).
Proof.
  apply __init___rows.
  - exact _cast_as_numpy_floats_is_array.
  - exact _convert_timeseries_is_array.
  - reflexivity.
Qed.

(** An array scalar has no dimension: on every object a program can
    hold, a series that has a length is an array. *)
Lemma reachable_sized_arrays ms :
  reachable log10 ms ->
  Forall (fun a => sized a -> is_array a) (ys ms) /\
  Forall (fun a => sized a -> is_array a) (xs ms).
Proof.
  assert (Hlog : forall rows,
             Forall (fun a => sized a -> is_array a) (map (log10_row log10) rows)).
  { intros rows. apply Forall_map, Forall_true. intros a. exact (fun H => H). }
  induction 1 as [ys0 xs0 ms H | ms r ms' Hr [IHy IHx] H | ms r ms' Hr [IHy IHx] H].
  - apply __init___arrays in H as [Hy Hx].
    split; (eapply Forall_impl; [eassumption|]); intros a Ha _; exact Ha.
  - destruct (reachable_numeric ms Hr) as [_ Hnum].
    rewrite (set_x_axis_to_log10_run ms Hnum) in H.
    destruct (x_is_timeseries ms); [injection H as _ <-; auto|].
    destruct (all_arrays (xs ms)); injection H as _ <-; [|auto].
    split; [exact IHy | apply Hlog].
  - destruct (reachable_numeric ms Hr) as [Hnum _].
    rewrite (set_y_axis_to_log10_run ms (float_row_numeric _ Hnum)) in H.
    destruct (all_arrays (ys ms)); injection H as _ <-; [|auto].
    split; [apply Hlog | exact IHx].
Qed.

Lemma sized_rows_are_arrays rows :
  Forall (fun a => sized a -> is_array a) rows ->
  Forall sized rows -> Forall is_array rows.
Proof.
  intros H Hs. induction H as [|a rows Ha _ IH]; [constructor|].
  apply Forall_cons in Hs as [Hs0 Hs]. constructor; auto.
Qed.

End MultiSeriesLog10.


(* ================================================================== *)
(** * [MultiSeries]: claims about the log transforms                    *)
(* ================================================================== *)

Lemma float_sign_cases (v : float) :
  fle v zero = true \/ (flt zero v = true /\ fle v zero = false) \/ v = nan.
Proof.
  destruct v as [s|s| |s m e]; try destruct s; cbn; auto.
Qed.

(** C4, as the code has it.  On an object whose [x_is_timeseries] flag is
    true, [set_x_axis_to_log10] raises [ValueError] and leaves the object,
    so all its stored x and y series, as it was.  On an object whose flag
    is false it returns without raising and leaves the y series alone,
    provided that no x series is an array scalar; that is so of every
    newly constructed object and of every object whose x series have a
    length. *)
Theorem C4_set_x_axis_to_log10 (log10 : float -> float) (ms : MultiSeries.t) :
  MultiSeries.reachable log10 ms ->
  (MultiSeries.x_is_timeseries ms = true ->
   MultiSeries.set_x_axis_to_log10 log10 ms = (Raise ValueError, ms)) /\
  (MultiSeries.x_is_timeseries ms = false ->
   Forall is_array (MultiSeries.xs ms) ->
   exists ms', MultiSeries.set_x_axis_to_log10 log10 ms = (Ok tt, ms') /\
               MultiSeries.ys ms' = MultiSeries.ys ms) /\
  ((exists ys0 xs0, MultiSeries.__init__ ys0 xs0 = Ok ms) ->
   Forall is_array (MultiSeries.xs ms)) /\
  (Forall sized (MultiSeries.xs ms) -> Forall is_array (MultiSeries.xs ms)).
Proof.
  intros Hr. pose proof (reachable_numeric log10 ms Hr) as [_ Hx].
  rewrite (set_x_axis_to_log10_run log10 ms Hx).
  split; [|split; [|split]].
  - intros ->. reflexivity.
  - intros -> Harr. apply all_arrays_Forall in Harr. rewrite Harr.
    eexists. split; reflexivity.
  - intros (ys0 & xs0 & H). now apply __init___arrays in H.
  - apply sized_rows_are_arrays. exact (proj2 (reachable_sized_arrays log10 ms Hr)).
Qed.

(** A time-series object built from two dates rejects the transform and
    keeps its series; an object with plain numbers as x series is
    transformed. *)
Lemma C4_witness_timeseries :
  let dates := PyList [PyDate (mk_date 2024 1 1); PyDate (mk_date 2024 1 2)] in
  let numbers := PyList [PyInt 10; PyInt 100] in
  let ys0 := PyList [PyInt 5; PyInt 7] in
  (exists ms, MultiSeries.__init__ ys0 dates = Ok ms /\
     MultiSeries.x_is_timeseries ms = true /\
     MultiSeries.set_x_axis_to_log10 NpEval.log10_floor ms = (Raise ValueError, ms)) /\
  (exists ms ms', MultiSeries.__init__ ys0 numbers = Ok ms /\
     MultiSeries.x_is_timeseries ms = false /\
     MultiSeries.set_x_axis_to_log10 NpEval.log10_floor ms = (Ok tt, ms') /\
     MultiSeries.ys ms' = MultiSeries.ys ms).
Proof.
  intros dates numbers ys0. split.
  - destruct (MultiSeries.__init__ ys0 dates) as [ms| |] eqn:H;
      [| vm_compute in H; discriminate ..].
    exists ms.
    assert (Hts : MultiSeries.x_is_timeseries ms = true).
    { vm_compute in H. injection H as <-. reflexivity. }
    split; [reflexivity|]. split; [exact Hts|].
    exact (proj1 (C4_set_x_axis_to_log10 NpEval.log10_floor ms
                    (MultiSeries.reach_init _ ys0 dates ms H)) Hts).
  - destruct (MultiSeries.__init__ ys0 numbers) as [ms| |] eqn:H;
      [| vm_compute in H; discriminate ..].
    assert (Hts : MultiSeries.x_is_timeseries ms = false).
    { vm_compute in H. injection H as <-. reflexivity. }
    destruct (C4_set_x_axis_to_log10 NpEval.log10_floor ms
                (MultiSeries.reach_init _ ys0 numbers ms H))
      as (_ & Hrun & Hnew & _).
    destruct (Hrun Hts (Hnew (ex_intro _ ys0 (ex_intro _ numbers H))))
      as (ms' & Hms' & Hys).
    exists ms, ms'. repeat split; assumption.
Defined.

(** The claim as stated fails: the x series of
    [MultiSeries(ys=[[1,2],[3,4]], xs=[1,2])] are 0-d arrays, the first
    transform replaces them by array scalars, and a second transform
    raises [TypeError] although the flag is false. *)
Lemma C4_counterexample_second_transform :
  let ys0 := PyList [PyList [PyInt 1; PyInt 2]; PyList [PyInt 3; PyInt 4]] in
  let xs0 := PyList [PyInt 1; PyInt 2] in
  exists ms ms',
    MultiSeries.__init__ ys0 xs0 = Ok ms /\
    MultiSeries.set_x_axis_to_log10 NpEval.log10_floor ms = (Ok tt, ms') /\
    MultiSeries.x_is_timeseries ms' = false /\
    MultiSeries.set_x_axis_to_log10 NpEval.log10_floor ms' = (Raise TypeError, ms').
Proof.
  intros ys0 xs0.
  destruct (MultiSeries.__init__ ys0 xs0) as [ms| |] eqn:H;
    [| vm_compute in H; discriminate ..].
  destruct (MultiSeries.set_x_axis_to_log10 NpEval.log10_floor ms) as [r ms'] eqn:H'.
  exists ms, ms'. split; [reflexivity|].
  vm_compute in H. injection H as <-.
  vm_compute in H'. injection H' as <- <-.
  split; [reflexivity|]. split; [reflexivity|]. vm_compute. reflexivity.
Qed.




Lemma decimal_exponent_from_bounds fuel num den lo :
  lo <= PyFormat.decimal_exponent_from fuel num den lo <= lo + Z.of_nat fuel.
Proof.
  revert lo. induction fuel as [|fuel IH]; intros lo; simpl; [lia|].
  destruct (PyFormat.ge_pow10 num den (lo + 1)); [|lia].
  specialize (IH (lo + 1)). lia.
Qed.

Lemma float_of_Z_small_finite n :
  -400 <= n <= 400 -> isfinite (float_of_Z n) = true.
Proof.
  intros H.
  assert (Hall : forallb (fun k => isfinite (float_of_Z (Z.of_nat k - 400)))
                         (seq 0 801) = true) by (vm_compute; reflexivity).
  rewrite List.forallb_forall in Hall.
  specialize (Hall (Z.to_nat (n + 400))).
  replace (Z.of_nat (Z.to_nat (n + 400)) - 400) with n in Hall by lia.
  apply Hall, in_seq. lia.
Qed.



Example set_y_axis_to_log10_example :
  (ms <- MultiSeries.__init__
           (PyList [PyList [PyInt 100; PyFloat zero; PyInt (-5); PyFloat nan]]) PyNone ;;
   Ok (MultiSeries.ys (snd (MultiSeries.set_y_axis_to_log10 NpEval.log10_floor ms))))
  = Ok [Np.mk_ndarray [4%nat] (Np.FloatData [float_of_Z 2; nan; nan; nan])].
Proof. vm_compute. reflexivity. Qed.

(* ================================================================== *)
(** * [MultiSeries]: date-like x input                                  *)
(* ================================================================== *)

Lemma _is_timeseries_ish_dates items :
  MultiSeries._is_timeseries_ish (PyList items) = true ->
  Forall (fun x => is_date x = true) items.
Proof.
  simpl. destruct (forallb is_date items) eqn:Hd.
  - intros _. now apply List.Forall_forall, List.forallb_forall.
  - destruct (forallb is_datetime items) eqn:Ht; [|discriminate].
    intros _. rewrite List.forallb_forall in Ht. apply List.Forall_forall.
    intros x Hx. specialize (Ht x Hx). destruct x; simpl in *; congruence.
Qed.

Lemma timestamps_dates stamps :
  Forall (fun x => is_date x = true) (timestamps stamps).
Proof. apply Forall_map, Forall_true. reflexivity. Qed.

(** A value accepted as a time series yields dates only. *)
Lemma _is_timeseries_ish_items xs0 items :
  MultiSeries._is_timeseries_ish xs0 = true ->
  iter xs0 = Ok items ->
  Forall (fun x => is_date x = true) items.
Proof.
  destruct xs0; try discriminate.
  - intros Hts [= <-]. now apply _is_timeseries_ish_dates.
  - intros _ [= <-]. apply timestamps_dates.
  - intros _ [= <-]. apply timestamps_dates.
Qed.

(** The conversion of an iterable value, and of a single date. *)
Lemma _convert_timeseries_items v items a :
  iter v = Ok items ->
  MultiSeries._convert_timeseries_to_numpy v = Ok a ->
  exists stamps,
    Pd.to_datetime items = Ok stamps /\
    a = Np.mk_ndarray [length stamps] (Np.IntData (map (fun ns => ns / 10 ^ 9) stamps)).
Proof.
  unfold MultiSeries._convert_timeseries_to_numpy.
  destruct v; try discriminate; intros [= <-]; cbv beta iota zeta;
    (match goal with
     | |- context [Pd.to_datetime ?l] => destruct (Pd.to_datetime l) as [ns| |]
     end; cbn [bind]; try discriminate; intros [= <-];
     exists ns; split; [reflexivity|]; now rewrite length_map).
Qed.

Lemma _convert_timeseries_date x :
  is_date x = true ->
  MultiSeries._convert_timeseries_to_numpy x = Raise AttributeError.
Proof. destruct x; try discriminate; reflexivity. Qed.

Lemma to_datetime_inv items stamps :
  Pd.to_datetime items = Ok stamps ->
  Forall2 (fun x ns => epoch_ns x = Some ns) items stamps.
Proof.
  intros H. apply comprehension_ok_inv in H.
  eapply Forall2_impl; [exact H|]. intros x ns Hx. cbv beta in Hx.
  destruct (epoch_ns x) as [n|]; [|discriminate].
  destruct (in_int64 n); [|discriminate]. congruence.
Qed.

Lemma floor_seconds ns :
  let s := ns / 10 ^ 9 in
  s * 10 ^ 9 <= ns < (s + 1) * 10 ^ 9 /\ (0 <= ns -> s = Claimed.epoch_seconds ns).
Proof.
  intros s. subst s. split.
  - pose proof (Z.div_mod ns (10 ^ 9) ltac:(lia)) as Hdm.
    pose proof (Z.mod_pos_bound ns (10 ^ 9) ltac:(lia)) as Hb. lia.
  - intros Hns. unfold Claimed.epoch_seconds.
    symmetry. apply Z.quot_div_nonneg; lia.
Qed.

(** C6, as the code has it.  A date-like x input (a list of dates or
    datetimes, or a pandas container of dtype [datetime64[ns]]) is
    converted to the count of whole seconds since the epoch by floor
    division of the nanosecond count by 10^9 (the largest second not after
    the instant); from the epoch on, that is the truncating division of
    the claim. *)
Theorem C6_epoch_seconds_floor (ys0 xs0 : pyval) (items : list pyval)
        (ms : MultiSeries.t) :
  MultiSeries._is_timeseries_ish xs0 = true ->
  iter xs0 = Ok items ->
  MultiSeries.__init__ ys0 xs0 = Ok ms ->
  MultiSeries.x_is_timeseries ms = true /\
  ((MultiSeries.is_multi_dimensional ms = false /\
    exists seconds,
      MultiSeries.xs ms = [Np.mk_ndarray [length seconds] (Np.IntData seconds)] /\
      Forall2 (fun x s => exists ns,
                 epoch_ns x = Some ns /\
                 s * 10 ^ 9 <= ns < (s + 1) * 10 ^ 9 /\
                 (0 <= ns -> s = Claimed.epoch_seconds ns))
              items seconds) \/
   (MultiSeries.is_multi_dimensional ms = true /\ items = [] /\
    MultiSeries.xs ms = [])).
Proof.
  intros Hts Hiter H. pose proof (_is_timeseries_ish_items xs0 items Hts Hiter) as Hdates.
  apply __init___inv in H as (_ & Hflag & _ & Hx).
  rewrite Hts in Hflag, Hx. split; [exact Hflag|].
  assert (Hx' :
    if MultiSeries.is_multi_dimensional ms
    then exists rows, iter xs0 = Ok rows /\
           comprehension MultiSeries._convert_timeseries_to_numpy rows
           = Ok (MultiSeries.xs ms)
    else exists row, MultiSeries._convert_timeseries_to_numpy xs0 = Ok row /\
           MultiSeries.xs ms = [row]).
  { destruct xs0; try discriminate Hiter; exact Hx. }
  clear Hx. destruct (MultiSeries.is_multi_dimensional ms).
  - right. destruct Hx' as (rows & Hrows & Hc).
    rewrite Hiter in Hrows. injection Hrows as <-.
    destruct items as [|x items]; [simpl in Hc; injection Hc as <-; auto|].
    exfalso. apply Forall_cons in Hdates as [Hd _].
    cbn [comprehension] in Hc. rewrite (_convert_timeseries_date x Hd) in Hc.
    discriminate Hc.
  - left. split; [reflexivity|]. destruct Hx' as (row & Hc & ->).
    destruct (_convert_timeseries_items xs0 items row Hiter Hc) as (stamps & Hp & ->).
    eexists. split; [now rewrite length_map|].
    apply to_datetime_inv in Hp. clear -Hp.
    induction Hp as [|x ns items stamps Hx _ IH]; simpl; constructor; [|exact IH].
    exists ns. split; [exact Hx|]. apply floor_seconds.
Qed.

(** The date sequence [[2024-01-01, 2024-01-02]]. *)
Lemma C6_witness_two_days :
  let xs0 := [PyDate (mk_date 2024 1 1); PyDate (mk_date 2024 1 2)] in
  let ys0 := PyList [PyInt 5; PyInt 7] in
  MultiSeries._is_timeseries_ish (PyList xs0) = true /\
  exists ms, MultiSeries.__init__ ys0 (PyList xs0) = Ok ms /\
    MultiSeries.xs ms = [Np.mk_ndarray [2%nat] (Np.IntData [1704067200; 1704153600])] /\
    1704153600 - 1704067200 = 86400.
Proof.
  intros xs0 ys0. split; [reflexivity|].
  destruct (MultiSeries.__init__ ys0 (PyList xs0)) as [ms| |] eqn:H;
    [| vm_compute in H; discriminate ..].
  exists ms. split; [reflexivity|].
  destruct (C6_epoch_seconds_floor ys0 (PyList xs0) xs0 ms eq_refl eq_refl H) as [_ _].
  vm_compute in H. injection H as <-. split; reflexivity.
Defined.

(** C6, as the claim has it, fails before the epoch: half a second before
    1970 the code stores the integer [-1] where truncating division gives
    [0], and the stored array holds integers, not floats. *)
Lemma C6_counterexample_before_epoch :
  let x := PyDatetime (mk_date 1969 12 31) 86399500000000 in
  exists ms,
    MultiSeries.__init__ (PyList [PyInt 1]) (PyList [x]) = Ok ms /\
    epoch_ns x = Some (-500000000) /\
    Claimed.epoch_seconds (-500000000) = 0 /\
    MultiSeries.xs ms = [Np.mk_ndarray [1%nat] (Np.IntData [-1])] /\
    MultiSeries.xs ms <>
      [Np.mk_ndarray [1%nat]
         (Np.FloatData [float_of_Z (Claimed.epoch_seconds (-500000000))])].
Proof.
  intros x. eexists. split; [vm_compute; reflexivity|].
  repeat split; try reflexivity. discriminate.
Qed.

(** A [pd.DatetimeIndex] of two days as [xs], as [pd.date_range] makes
    it: the object is a time series and stores the seconds of the two
    midnights. *)
Example datetime_index_example :
  MultiSeries.__init__
    (PyList [PyFloat zero; PyFloat (float_of_Z 1)])
    (PyDatetimeIndex [(mk_date 2024 4 2, 0); (mk_date 2024 4 3, 0)])
  = Ok (MultiSeries.mk
          [Np.mk_ndarray [2%nat] (Np.IntData [1712016000; 1712102400])]
          [Np.mk_ndarray [2%nat] (Np.FloatData [zero; float_of_Z 1])]
          false true).
Proof. vm_compute. reflexivity. Qed.

(* ================================================================== *)
(** * [MultiSeries]: what is stored                                     *)
(* ================================================================== *)

Section StoredSeries.

Import Np MultiSeries.

(** [np.array] of a scalar is a 0-d array whose one cell is the scalar. *)
Lemma array_scalar x a :
  is_list x = false -> Np.array x = Ok a ->
  Np.shape a = [] /\ cells_as_objects (data a) = [x].
Proof.
  destruct x; simpl; try discriminate; intros _.
  - intros [= <-]. auto.
  - destruct (in_int64 n); [|discriminate]. intros [= <-]. auto.
  - intros [= <-]. auto.
  - intros [= <-]. auto.
  - intros [= <-]. auto.
Qed.





End StoredSeries.

(** The y series a successful construction stores. *)
Lemma __init___ys ys0 xs0 ms :
  MultiSeries.__init__ ys0 xs0 = Ok ms ->
  if MultiSeries.is_multi_dimensional ms
  then exists rows, iter ys0 = Ok rows /\
         comprehension MultiSeries._cast_as_numpy_floats rows = Ok (MultiSeries.ys ms)
  else exists row, MultiSeries._cast_as_numpy_floats ys0 = Ok row /\
         MultiSeries.ys ms = [row].
Proof.
  unfold MultiSeries.__init__.
  destruct (MultiSeries._is_multi_dimensional ys0) as [multi| |]; simpl; try discriminate.
  destruct multi.
  - destruct (iter ys0) as [rows| |]; simpl; try discriminate.
    destruct (comprehension MultiSeries._cast_as_numpy_floats rows) as [r| |] eqn:Hr;
      simpl; try discriminate.
    match goal with |- bind ?X _ = _ -> _ => destruct X end; simpl; try discriminate.
    intros [= <-]. simpl. eauto.
  - destruct (MultiSeries._cast_as_numpy_floats ys0) as [row| |] eqn:Hr;
      simpl; try discriminate.
    match goal with |- bind ?X _ = _ -> _ => destruct X end; simpl; try discriminate.
    intros [= <-]. simpl. eauto.
Qed.

Lemma forallb_is_list_false items i x :
  items !! i = Some x -> is_list x = false -> forallb is_list items = false.
Proof.
  revert i. induction items as [|y items IH]; intros [|i]; simpl; try discriminate.
  - intros [= ->] ->. reflexivity.
  - intros Hi Hx. rewrite (IH i Hi Hx). apply andb_false_r.
Qed.






(* ================================================================== *)
(** * The order of floats                                               *)
(* ================================================================== *)

Lemma SFcompare_rank a b :
  isnan a = false -> isnan b = false ->
  exists c, SFcompare a b = Some c /\
    match c with
    | Lt => lex_lt (rank a) (rank b)
    | Eq => rank a = rank b
    | Gt => lex_lt (rank b) (rank a)
    end.
Proof.
  destruct a as [sa|sa| |sa ma ea], b as [sb|sb| |sb mb eb];
    try discriminate; intros _ _;
    try destruct sa; try destruct sb; cbn [SFcompare rank];
    try (eexists; split; [reflexivity|]; cbn; try reflexivity; lia).
  - change (Pos.compare_cont Eq ma mb) with (Pos.compare ma mb).
    destruct (Z.compare_spec ea eb); [destruct (Pos.compare_spec ma mb)| |];
      (eexists; split; [reflexivity|]); cbn; subst; try reflexivity; lia.
  - change (Pos.compare_cont Eq ma mb) with (Pos.compare ma mb).
    destruct (Z.compare_spec ea eb); [destruct (Pos.compare_spec ma mb)| |];
      (eexists; split; [reflexivity|]); cbn; subst; try reflexivity; lia.
Qed.

Lemma lex_lt_irrefl a : ~ lex_lt a a.
Proof. destruct a as [[a1 a2] a3]. cbn. lia. Qed.

Lemma lex_lt_asym a b : lex_lt a b -> ~ lex_lt b a.
Proof. destruct a as [[a1 a2] a3], b as [[b1 b2] b3]. cbn. lia. Qed.

Lemma lex_le_trans a b c : lex_le a b -> lex_le b c -> lex_le a c.
Proof.
  destruct a as [[a1 a2] a3], b as [[b1 b2] b3], c as [[c1 c2] c3].
  unfold lex_le. cbn. intros [H1 | [= -> -> ->]] [H2 | [= -> -> ->]]; auto.
  left. lia.
Qed.

Lemma fle_rank a b :
  isnan a = false -> isnan b = false ->
  (fle a b = true <-> lex_le (rank a) (rank b)).
Proof.
  intros Ha Hb. destruct (SFcompare_rank a b Ha Hb) as (c & Hc & Hr).
  unfold fle, SFleb. rewrite Hc. unfold lex_le. destruct c.
  - split; auto.
  - split; auto.
  - split; [discriminate|]. intros [H | H].
    + exfalso. exact (lex_lt_asym _ _ H Hr).
    + exfalso. rewrite H in Hr. exact (lex_lt_irrefl _ Hr).
Qed.

Lemma flt_rank a b :
  isnan a = false -> isnan b = false ->
  (flt a b = true <-> lex_lt (rank a) (rank b)).
Proof.
  intros Ha Hb. destruct (SFcompare_rank a b Ha Hb) as (c & Hc & Hr).
  unfold flt, SFltb. rewrite Hc. destruct c.
  - split; [discriminate|]. intros H. rewrite Hr in H.
    exfalso. exact (lex_lt_irrefl _ H).
  - split; auto.
  - split; [discriminate|]. intros H. exfalso. exact (lex_lt_asym _ _ H Hr).
Qed.

Lemma fle_refl a : isnan a = false -> fle a a = true.
Proof. intros Ha. apply fle_rank; auto. now right. Qed.

Lemma fle_trans a b c :
  isnan a = false -> isnan b = false -> isnan c = false ->
  fle a b = true -> fle b c = true -> fle a c = true.
Proof.
  intros Ha Hb Hc. rewrite !fle_rank by assumption. apply lex_le_trans.
Qed.

Lemma flt_fle a b :
  isnan a = false -> isnan b = false -> flt a b = true -> fle a b = true.
Proof.
  intros Ha Hb. rewrite flt_rank, fle_rank by assumption. now left.
Qed.

Lemma not_flt_fle a b :
  isnan a = false -> isnan b = false -> flt a b = false -> fle b a = true.
Proof.
  intros Ha Hb H. apply fle_rank; try assumption.
  destruct (SFcompare_rank a b Ha Hb) as (c & Hc & Hr).
  unfold flt, SFltb in H. rewrite Hc in H. destruct c; try discriminate.
  - right. congruence.
  - now left.
Qed.


(* ================================================================== *)
(** * [MultiSeries]: minimum and maximum                                *)
(* ================================================================== *)

Section Extremum.

Import Np.

(** One proof for the four queries: [pick] is [fmaximum] or [fminimum],
    [below a b] says that [b] is at least as extreme as [a]. *)
Variable pick : float -> float -> float.
Variable below : float -> float -> Prop.

Hypothesis pick_cases : forall a b,
  isnan a = false -> isnan b = false ->
  (pick a b = a \/ pick a b = b) /\ below a (pick a b) /\ below b (pick a b).
Hypothesis below_refl : forall a, isnan a = false -> below a a.
Hypothesis below_trans : forall a b c,
  isnan a = false -> isnan b = false -> isnan c = false ->
  below a b -> below b c -> below a c.

Variable reduce_row : ndarray -> outcome number.
Hypothesis reduce_row_float : forall a cells,
  data a = FloatData cells ->
  reduce_row a =
  match List.filter (fun v => negb (isnan v)) cells with
  | [] => Raise ValueError
  | x :: l => Ok (NFloat (fold_left pick l x))
  end.

Variable reduce_all : list number -> outcome number.
Hypothesis reduce_all_floats : forall x l,
  Forall (fun v => isnan v = false) (x :: l) ->
  reduce_all (map NFloat (x :: l)) = Ok (NFloat (fold_left pick l x)).

Lemma fold_pick l x :
  Forall (fun v => isnan v = false) (x :: l) ->
  let m := fold_left pick l x in
  isnan m = false /\ In m (x :: l) /\ forall v, In v (x :: l) -> below v m.
Proof.
  revert x. induction l as [|y l IH]; intros x Hn; simpl.
  - inversion Hn; subst. repeat split; auto.
    intros v [<- | []]. now apply below_refl.
  - inversion Hn as [|? ? Hx Hn']; subst. inversion Hn' as [|? ? Hy Hl]; subst.
    destruct (pick_cases x y Hx Hy) as (Hp & Hbx & Hby).
    assert (Hpn : isnan (pick x y) = false) by (destruct Hp as [-> | ->]; auto).
    destruct (IH (pick x y) ltac:(constructor; assumption)) as (Hm & Hin & Hall).
    split; [exact Hm|]. split.
    + destruct Hin as [<- | Hin]; [destruct Hp as [-> | ->]; auto | auto].
    + assert (Hpm : below (pick x y) (fold_left pick l (pick x y)))
        by (apply Hall; now left).
      intros v [<- | [<- | Hv]].
      * eapply below_trans; eauto.
      * eapply below_trans; eauto.
      * apply Hall. now right.
Qed.

Lemma filter_not_nan cells :
  Forall (fun v => isnan v = false) (List.filter (fun v => negb (isnan v)) cells).
Proof.
  apply List.Forall_forall. intros v Hv. apply filter_In in Hv as [_ Hv].
  now apply negb_true_iff.
Qed.

(** The row reductions, one after the other. *)
Lemma reduce_rows rows :
  Forall float_row rows ->
  Forall (fun a => numbers_of [a] <> []) rows ->
  exists ms,
    comprehension reduce_row rows = Ok (map NFloat ms) /\
    Forall2 (fun a m => isnan m = false /\ In m (numbers_of [a]) /\
                        forall v, In v (numbers_of [a]) -> below v m) rows ms.
Proof.
  induction 1 as [|a rows [cells Hc] _ IH]; intros Hne.
  - exists []. split; [reflexivity | constructor].
  - inversion Hne as [|? ? Ha Hrest]; subst.
    destruct (IH Hrest) as (ms & Hms & HF).
    assert (Hnum : numbers_of [a] = List.filter (fun v => negb (isnan v)) cells).
    { unfold numbers_of. simpl. rewrite Hc. simpl. now rewrite app_nil_r. }
    rewrite Hnum in Ha.
    simpl. rewrite (reduce_row_float a cells Hc), Hms.
    pose proof (filter_not_nan cells) as Hn.
    destruct (List.filter (fun v => negb (isnan v)) cells) as [|x l] eqn:Hk;
      [congruence|].
    simpl. exists (fold_left pick l x :: ms). split; [reflexivity|].
    constructor; [|exact HF]. rewrite Hnum. apply fold_pick. exact Hn.
Qed.

Lemma numbers_of_cons a rows :
  numbers_of (a :: rows) = numbers_of [a] ++ numbers_of rows.
Proof.
  unfold numbers_of. simpl. rewrite app_nil_r. apply List.filter_app.
Qed.

(** The reduction of all rows is the most extreme number held. *)
Lemma extremum_of_rows rows :
  Forall float_row rows -> rows <> [] ->
  Forall (fun a => numbers_of [a] <> []) rows ->
  exists m,
    (rs <- comprehension reduce_row rows ;; reduce_all rs) = Ok (NFloat m) /\
    isnan m = false /\
    In m (numbers_of rows) /\
    forall v, In v (numbers_of rows) -> below v m.
Proof.
  intros Hf Hne Hnum.
  destruct (reduce_rows rows Hf Hnum) as (ms & Hms & HF).
  rewrite Hms. simpl.
  assert (Hnn : Forall (fun v => isnan v = false) ms).
  { clear -HF. induction HF as [|a m rows ms (Hm & _) _ IH]; constructor; auto. }
  destruct ms as [|x l]; [inversion HF; congruence|].
  rewrite (reduce_all_floats x l Hnn).
  destruct (fold_pick l x Hnn) as (Hm & Hin & Hall).
  exists (fold_left pick l x). split; [reflexivity|]. split; [exact Hm|].
  set (M := fold_left pick l x) in *. clearbody M.
  clear Hms Hne Hf Hnum Hnn. revert HF Hin Hall.
  generalize (x :: l) as ms'. clear x l. intros ms' HF Hin Hall.
  split.
  - induction HF as [|a m rows ms (_ & Hma & _) _ IH]; [destruct Hin|].
    rewrite numbers_of_cons. apply in_or_app.
    destruct Hin as [<- | Hin]; [now left|]. right. apply IH; auto.
    intros v Hv. apply Hall. now right.
  - intros v Hv. clear Hin.
    induction HF as [|a m rows ms (Hmn & _ & Hbound) HF' IH]; [destruct Hv|].
    rewrite numbers_of_cons in Hv. apply in_app_or in Hv as [Hv | Hv].
    + assert (Hvn : isnan v = false).
      { unfold numbers_of in Hv. apply filter_In in Hv as [_ Hv].
        now apply negb_true_iff. }
      eapply (below_trans v m M); auto. apply Hall. now left.
    + apply IH; auto. intros w Hw. apply Hall. now right.
Qed.

End Extremum.

Lemma fmaximum_cases a b :
  isnan a = false -> isnan b = false ->
  (Np.fmaximum a b = a \/ Np.fmaximum a b = b) /\
  fle a (Np.fmaximum a b) = true /\ fle b (Np.fmaximum a b) = true.
Proof.
  intros Ha Hb. unfold Np.fmaximum. rewrite Ha, Hb.
  destruct (flt a b) eqn:E.
  - auto using flt_fle, fle_refl.
  - auto using not_flt_fle, fle_refl.
Qed.

Lemma fminimum_cases a b :
  isnan a = false -> isnan b = false ->
  (Np.fminimum a b = a \/ Np.fminimum a b = b) /\
  fle (Np.fminimum a b) a = true /\ fle (Np.fminimum a b) b = true.
Proof.
  intros Ha Hb. unfold Np.fminimum. rewrite Ha, Hb.
  destruct (flt b a) eqn:E.
  - auto using flt_fle, fle_refl.
  - auto using not_flt_fle, fle_refl.
Qed.

Lemma _safe_max_float a cells :
  Np.data a = Np.FloatData cells ->
  MultiSeries._safe_max a =
  match List.filter (fun v => negb (isnan v)) cells with
  | [] => Raise ValueError
  | x :: l => Ok (Np.NFloat (fold_left Np.fmaximum l x))
  end.
Proof.
  intros H. unfold MultiSeries._safe_max, Np.select_not_nan. rewrite H. simpl.
  unfold Np.amax. simpl. now destruct (List.filter _ cells).
Qed.

Lemma _safe_min_float a cells :
  Np.data a = Np.FloatData cells ->
  MultiSeries._safe_min a =
  match List.filter (fun v => negb (isnan v)) cells with
  | [] => Raise ValueError
  | x :: l => Ok (Np.NFloat (fold_left Np.fminimum l x))
  end.
Proof.
  intros H. unfold MultiSeries._safe_min, Np.select_not_nan. rewrite H. simpl.
  unfold Np.amin. simpl. now destruct (List.filter _ cells).
Qed.

Lemma py_max_floats x l :
  Forall (fun v => isnan v = false) (x :: l) ->
  py_max (map Np.NFloat (x :: l)) = Ok (Np.NFloat (fold_left Np.fmaximum l x)).
Proof.
  simpl. intros H. f_equal. revert x H.
  induction l as [|y l IH]; intros x H; simpl; [reflexivity|].
  inversion H as [|? ? Hx H']; subst. inversion H' as [|? ? Hy Hl]; subst.
  assert (Hstep : (if flt x y then Np.NFloat y else Np.NFloat x)
                  = Np.NFloat (Np.fmaximum x y)).
  { unfold Np.fmaximum. rewrite Hx, Hy. now destruct (flt x y). }
  cbn [Np.num_lt Np.as_float]. rewrite Hstep. apply IH.
  constructor; [|exact Hl].
  destruct (fmaximum_cases x y Hx Hy) as ([-> | ->] & _); assumption.
Qed.

Lemma py_min_floats x l :
  Forall (fun v => isnan v = false) (x :: l) ->
  py_min (map Np.NFloat (x :: l)) = Ok (Np.NFloat (fold_left Np.fminimum l x)).
Proof.
  simpl. intros H. f_equal. revert x H.
  induction l as [|y l IH]; intros x H; simpl; [reflexivity|].
  inversion H as [|? ? Hx H']; subst. inversion H' as [|? ? Hy Hl]; subst.
  assert (Hstep : (if flt y x then Np.NFloat y else Np.NFloat x)
                  = Np.NFloat (Np.fminimum x y)).
  { unfold Np.fminimum. rewrite Hx, Hy. now destruct (flt y x). }
  cbn [Np.num_lt Np.as_float]. rewrite Hstep. apply IH.
  constructor; [|exact Hl].
  destruct (fminimum_cases x y Hx Hy) as ([-> | ->] & _); assumption.
Qed.

(** Over series of floats each of which holds a number, the maximum
    query returns the largest number held by any of them. *)
Lemma maximum_of_float_rows rows :
  Forall float_row rows -> rows <> [] ->
  Forall (fun a => numbers_of [a] <> []) rows ->
  exists m,
    (rs <- comprehension MultiSeries._safe_max rows ;; py_max rs) = Ok (Np.NFloat m) /\
    isnan m = false /\
    In m (numbers_of rows) /\
    forall v, In v (numbers_of rows) -> fle v m = true.
Proof.
  apply (extremum_of_rows Np.fmaximum (fun a b => fle a b = true)).
  - exact fmaximum_cases.
  - exact fle_refl.
  - exact fle_trans.
  - exact _safe_max_float.
  - exact py_max_floats.
Qed.

Lemma minimum_of_float_rows rows :
  Forall float_row rows -> rows <> [] ->
  Forall (fun a => numbers_of [a] <> []) rows ->
  exists m,
    (rs <- comprehension MultiSeries._safe_min rows ;; py_min rs) = Ok (Np.NFloat m) /\
    isnan m = false /\
    In m (numbers_of rows) /\
    forall v, In v (numbers_of rows) -> fle m v = true.
Proof.
  apply (extremum_of_rows Np.fminimum (fun a b => fle b a = true)).
  - exact fminimum_cases.
  - exact fle_refl.
  - intros a b c Ha Hb Hc H1 H2. exact (fle_trans c b a Hc Hb Ha H2 H1).
  - exact _safe_min_float.
  - exact py_min_floats.
Qed.

(** The part of C1 that the code delivers: when every stored y series
    holds at least one number, [y_max] and [y_min] return the largest and
    the smallest number over all series, NaN ignored; the same holds of
    [x_max] and [x_min] over x series of floats. *)
Lemma y_extrema_when_each_row_has_a_number (log10 : float -> float) ms :
  MultiSeries.reachable log10 ms ->
  MultiSeries.ys ms <> [] ->
  Forall (fun a => numbers_of [a] <> []) (MultiSeries.ys ms) ->
  (exists m, MultiSeries.y_max ms = Ok (Np.NFloat m) /\
             In m (numbers_of (MultiSeries.ys ms)) /\
             forall v, In v (numbers_of (MultiSeries.ys ms)) -> fle v m = true) /\
  (exists m, MultiSeries.y_min ms = Ok (Np.NFloat m) /\
             In m (numbers_of (MultiSeries.ys ms)) /\
             forall v, In v (numbers_of (MultiSeries.ys ms)) -> fle m v = true).
Proof.
  intros Hr Hne Hnum. apply reachable_numeric in Hr as [Hy _]. split.
  - destruct (maximum_of_float_rows _ Hy Hne Hnum) as (m & H & _ & Hin & Hall). eauto.
  - destruct (minimum_of_float_rows _ Hy Hne Hnum) as (m & H & _ & Hin & Hall). eauto.
Qed.

Lemma x_extrema_when_each_row_has_a_number ms :
  Forall float_row (MultiSeries.xs ms) ->
  MultiSeries.xs ms <> [] ->
  Forall (fun a => numbers_of [a] <> []) (MultiSeries.xs ms) ->
  (exists m, MultiSeries.x_max ms = Ok (Np.NFloat m) /\
             In m (numbers_of (MultiSeries.xs ms)) /\
             forall v, In v (numbers_of (MultiSeries.xs ms)) -> fle v m = true) /\
  (exists m, MultiSeries.x_min ms = Ok (Np.NFloat m) /\
             In m (numbers_of (MultiSeries.xs ms)) /\
             forall v, In v (numbers_of (MultiSeries.xs ms)) -> fle m v = true).
Proof.
  intros Hx Hne Hnum. split.
  - destruct (maximum_of_float_rows _ Hx Hne Hnum) as (m & H & _ & Hin & Hall). eauto.
  - destruct (minimum_of_float_rows _ Hx Hne Hnum) as (m & H & _ & Hin & Hall). eauto.
Qed.

(** The same over integer x series (the generated index, the converted
    timestamps): [x_max] and [x_min] return the largest and the smallest
    integer held. *)
Section IntegerExtremum.

Import Np.

Variable pick : Z -> Z -> Z.
Variable below : Z -> Z -> Prop.
Hypothesis pick_cases : forall a b,
  (pick a b = a \/ pick a b = b) /\ below a (pick a b) /\ below b (pick a b).
Hypothesis below_refl : forall a, below a a.
Hypothesis below_trans : forall a b c, below a b -> below b c -> below a c.

Variable reduce_row : ndarray -> outcome number.
Hypothesis reduce_row_int : forall a x l,
  data a = IntData (x :: l) -> reduce_row a = Ok (NInt (fold_left pick l x)).
Variable reduce_all : list number -> outcome number.
Hypothesis reduce_all_ints : forall x l,
  reduce_all (map NInt (x :: l)) = Ok (NInt (fold_left pick l x)).

Lemma fold_pick_int l x :
  let m := fold_left pick l x in
  In m (x :: l) /\ forall v, In v (x :: l) -> below v m.
Proof.
  revert x. induction l as [|y l IH]; intros x; simpl.
  - split; [now left|]. intros v [<- | []]. apply below_refl.
  - destruct (pick_cases x y) as (Hp & Hbx & Hby).
    destruct (IH (pick x y)) as (Hin & Hall). split.
    + destruct Hin as [<- | Hin]; [destruct Hp as [-> | ->]; auto | auto].
    + assert (Hpm : below (pick x y) (fold_left pick l (pick x y)))
        by (apply Hall; now left).
      intros v [<- | [<- | Hv]]; eauto. apply Hall. now right.
Qed.

Lemma integer_extremum_of_rows rows :
  Forall int_row rows -> rows <> [] ->
  Forall (fun a => ints_of [a] <> []) rows ->
  exists m,
    (rs <- comprehension reduce_row rows ;; reduce_all rs) = Ok (NInt m) /\
    In m (ints_of rows) /\
    forall v, In v (ints_of rows) -> below v m.
Proof.
  intros Hint Hne Hnum.
  assert (Hrows : exists ms,
             comprehension reduce_row rows = Ok (map NInt ms) /\
             Forall2 (fun a m => In m (ints_of [a]) /\
                                 forall v, In v (ints_of [a]) -> below v m) rows ms).
  { clear Hne. induction Hint as [|a rows [cells Hc] _ IH].
    - exists []. split; [reflexivity | constructor].
    - inversion Hnum as [|? ? Ha Hrest]; subst.
      destruct (IH Hrest) as (ms & Hms & HF).
      assert (Hcells : ints_of [a] = cells)
        by (unfold ints_of; simpl; rewrite Hc; simpl; apply app_nil_r).
      rewrite Hcells in Ha. destruct cells as [|x l]; [congruence|].
      simpl. rewrite (reduce_row_int a x l Hc), Hms. simpl.
      exists (fold_left pick l x :: ms). split; [reflexivity|].
      constructor; [|exact HF]. rewrite Hcells. apply fold_pick_int. }
  destruct Hrows as (ms & Hms & HF). rewrite Hms. simpl.
  destruct ms as [|x l]; [inversion HF; congruence|].
  rewrite reduce_all_ints.
  destruct (fold_pick_int l x) as (Hin & Hall).
  exists (fold_left pick l x). split; [reflexivity|].
  set (M := fold_left pick l x) in *. clearbody M.
  clear Hms Hne Hint Hnum. revert HF Hin Hall.
  generalize (x :: l) as ms'. clear x l. intros ms' HF Hin Hall.
  assert (Hcons : forall a rest, ints_of (a :: rest) = ints_of [a] ++ ints_of rest)
    by (intros a rest; unfold ints_of; simpl; now rewrite app_nil_r).
  split.
  - induction HF as [|a m rows ms (Hma & _) _ IH]; [destruct Hin|].
    rewrite Hcons. apply in_or_app.
    destruct Hin as [<- | Hin]; [now left|]. right. apply IH; auto.
    intros v Hv. apply Hall. now right.
  - intros v Hv. clear Hin.
    induction HF as [|a m rows ms (_ & Hbound) HF' IH]; [destruct Hv|].
    rewrite Hcons in Hv. apply in_app_or in Hv as [Hv | Hv].
    + eapply (below_trans v m M); auto. apply Hall. now left.
    + apply IH; auto. intros w Hw. apply Hall. now right.
Qed.

End IntegerExtremum.

Lemma Zmax_cases a b :
  (Z.max a b = a \/ Z.max a b = b) /\ a <= Z.max a b /\ b <= Z.max a b.
Proof. lia. Qed.

Lemma Zmin_cases a b :
  (Z.min a b = a \/ Z.min a b = b) /\ Z.min a b <= a /\ Z.min a b <= b.
Proof. lia. Qed.

Lemma py_max_ints x l :
  py_max (map Np.NInt (x :: l)) = Ok (Np.NInt (fold_left Z.max l x)).
Proof.
  simpl. f_equal. revert x. induction l as [|y l IH]; intros x; simpl; [reflexivity|].
  replace (if x <? y then Np.NInt y else Np.NInt x) with (Np.NInt (Z.max x y));
    [apply IH|].
  destruct (x <? y) eqn:E; f_equal; [apply Z.ltb_lt in E | apply Z.ltb_ge in E]; lia.
Qed.

Lemma py_min_ints x l :
  py_min (map Np.NInt (x :: l)) = Ok (Np.NInt (fold_left Z.min l x)).
Proof.
  simpl. f_equal. revert x. induction l as [|y l IH]; intros x; simpl; [reflexivity|].
  replace (if y <? x then Np.NInt y else Np.NInt x) with (Np.NInt (Z.min x y));
    [apply IH|].
  destruct (y <? x) eqn:E; f_equal; [apply Z.ltb_lt in E | apply Z.ltb_ge in E]; lia.
Qed.

Lemma x_extrema_of_integer_series ms :
  Forall int_row (MultiSeries.xs ms) ->
  MultiSeries.xs ms <> [] ->
  Forall (fun a => ints_of [a] <> []) (MultiSeries.xs ms) ->
  (exists m, MultiSeries.x_max ms = Ok (Np.NInt m) /\
             In m (ints_of (MultiSeries.xs ms)) /\
             forall v, In v (ints_of (MultiSeries.xs ms)) -> v <= m) /\
  (exists m, MultiSeries.x_min ms = Ok (Np.NInt m) /\
             In m (ints_of (MultiSeries.xs ms)) /\
             forall v, In v (ints_of (MultiSeries.xs ms)) -> m <= v).
Proof.
  intros Hx Hne Hnum. split.
  - apply (integer_extremum_of_rows Z.max Z.le); auto using Zmax_cases, py_max_ints.
    + intros; lia.
    + intros; lia.
    + intros a x l H. unfold MultiSeries._safe_max, Np.select_not_nan.
      rewrite H. reflexivity.
  - apply (integer_extremum_of_rows Z.min (fun a b => b <= a));
      auto using Zmin_cases, py_min_ints.
    + intros; lia.
    + intros; lia.
    + intros a x l H. unfold MultiSeries._safe_min, Np.select_not_nan.
      rewrite H. reflexivity.
Qed.

(** [MultiSeries(ys=[[1, NaN, 3]]).y_max() == 3]. *)
Example y_max_ignores_nan :
  (ms <- MultiSeries.__init__ (PyList [PyList [PyInt 1; PyFloat nan; PyInt 3]]) PyNone ;;
   MultiSeries.y_max ms) = Ok (Np.NFloat (float_of_Z 3)).
Proof. vm_compute. reflexivity. Qed.

(** C1 at the input on which the code departs from it:
    [MultiSeries(ys=[[NaN], [1.0]])] holds the number 1.0, and [y_max()]
    and [y_min()] raise [ValueError], because [_safe_max] / [_safe_min]
    reduce the first row after removing its only entry.  With the same
    rows as [xs], [x_max()] and [x_min()] raise as well. *)
Theorem C1_all_nan_row_raises :
  let rows := PyList [PyList [PyFloat nan]; PyList [PyFloat (float_of_Z 1)]] in
  exists ms,
    MultiSeries.__init__ rows rows = Ok ms /\
    numbers_of (MultiSeries.ys ms) = [float_of_Z 1] /\
    numbers_of (MultiSeries.xs ms) = [float_of_Z 1] /\
    MultiSeries.y_max ms = Raise ValueError /\
    MultiSeries.y_min ms = Raise ValueError /\
    MultiSeries.x_max ms = Raise ValueError /\
    MultiSeries.x_min ms = Raise ValueError.
Proof.
  intros rows. eexists. split; [vm_compute; reflexivity|].
  repeat split; vm_compute; reflexivity.
Qed.


(* ================================================================== *)
(** * [LabelSet]: placement                                             *)
(* ================================================================== *)

Section LabelSetPlacement.

Import LabelSet.

Variable discretize : option float -> float -> float -> Z -> outcome Z.
Variable format_g : nat -> float -> string.
Variable str : float -> string.

Lemma set_render_does_overlap_same s :
  set_render_does_overlap (_render_does_overlap s) s = s.
Proof. now destruct s. Qed.

(** One turn of the loop, in the words of the design document. *)
Lemma place_label_run str_labels k label line s str_label position :
  str_labels !! k = Some str_label ->
  discretize label (x_min s) (x_max s) (available_space s) = Ok position ->
  let buffer := Claimed.intended_start position str_label - len line in
  place_label discretize str_labels (Z.of_nat k, label) line s =
  (Ok (line +:+ spaces (Z.max buffer (Claimed.min_gap k)) +:+ str_label),
   set_render_does_overlap
     (_render_does_overlap s || (buffer <? Claimed.min_gap k)) s).
Proof.
  intros Hstr Hpos buffer.
  unfold place_label, mbind, lift, gets, modify, ret, item, half.
  rewrite Nat2Z.id, Hstr, Hpos.
  fold (Claimed.intended_start position str_label). fold buffer.
  destruct k as [|k].
  - cbn [Claimed.min_gap]. change (Z.of_nat 0 =? 0) with true. cbn [andb].
    destruct (buffer <? 0) eqn:E.
    + rewrite orb_true_r. apply Z.ltb_lt in E. now rewrite Z.max_r by lia.
    + change (0 <? Z.of_nat 0) with false. cbn [andb].
      rewrite orb_false_r, set_render_does_overlap_same.
      apply Z.ltb_ge in E. now rewrite Z.max_l by lia.
  - cbn [Claimed.min_gap].
    assert (H0 : (Z.of_nat (S k) =? 0) = false) by (apply Z.eqb_neq; lia).
    assert (H1 : (0 <? Z.of_nat (S k)) = true) by (apply Z.ltb_lt; lia).
    rewrite H0, H1. cbn [andb].
    destruct (buffer <? 1) eqn:E.
    + rewrite orb_true_r. apply Z.ltb_lt in E. now rewrite Z.max_r by lia.
    + rewrite orb_false_r, set_render_does_overlap_same.
      apply Z.ltb_ge in E. now rewrite Z.max_l by lia.
Qed.

(** The whole loop, from label [k] on. *)
Lemma for_each_layout numbers : forall positions tail seen line s,
  Forall2 (fun label position =>
             discretize label (x_min s) (x_max s) (available_space s) = Ok position)
          numbers positions ->
  length tail = length numbers ->
  for_each (place_label discretize (seen ++ tail))
           (enumerate_from (Z.of_nat (length seen)) numbers) line s =
  let '(line', overlap') :=
    Claimed.layout (length seen) (combine positions tail) line
                   (_render_does_overlap s) in
  (Ok line', set_render_does_overlap overlap' s).
Proof.
  induction numbers as [|label numbers IH];
    intros positions tail seen line s Hpos Hlen.
  - inversion Hpos; subst. simpl. unfold ret.
    now rewrite set_render_does_overlap_same.
  - inversion Hpos as [|? position ? positions' Hp Hpos']; subst.
    destruct tail as [|str_label tail]; [discriminate Hlen|].
    injection Hlen as Hlen.
    cbn [enumerate_from for_each combine Claimed.layout]. unfold mbind at 1.
    rewrite (place_label_run (seen ++ str_label :: tail) (length seen)
               label line s str_label position);
      [| now apply list_lookup_middle | exact Hp].
    set (buffer := Claimed.intended_start position str_label - len line).
    set (s' := set_render_does_overlap _ s).
    replace (Z.of_nat (length seen) + 1) with (Z.of_nat (length (seen ++ [str_label])))
      by (rewrite length_app; simpl; lia).
    replace (seen ++ str_label :: tail) with ((seen ++ [str_label]) ++ tail)
      by (now rewrite <- app_assoc).
    rewrite (IH positions' tail (seen ++ [str_label]) _ s' Hpos' Hlen).
    replace (length (seen ++ [str_label])) with (S (length seen))
      by (rewrite length_app; simpl; lia).
    subst s'. cbn [_render_does_overlap set_render_does_overlap].
    now destruct (Claimed.layout _ _ _ _).
Qed.

Lemma try_precisions_length range numbers strs :
  try_precisions format_g str range numbers = Ok strs ->
  length strs = length numbers.
Proof.
  revert strs. induction range as [|p range IH]; intros strs; simpl.
  - intros [= <-]. apply length_map.
  - destruct (comprehension _ (present numbers)) as [test| |]; simpl; try discriminate.
    destruct (all_distinct test); [|apply IH].
    apply comprehension_length.
Qed.

(** [_render_and_measure_to_cache] on an object that has not rendered
    yet. *)
Lemma _render_and_measure_to_cache_run s strs positions :
  _results_already_in_cache s = false ->
  _find_shortest_string_representation format_g str (labels s) = Ok strs ->
  Forall2 (fun label position =>
             discretize label (x_min s) (x_max s) (available_space s) = Ok position)
          (labels s) positions ->
  _render_and_measure_to_cache discretize format_g str s =
  let '(line, overlap) :=
    Claimed.layout 0 (combine positions strs) "" (_render_does_overlap s) in
  (Ok tt,
   set_results_already_in_cache true
     (set_rendered_result [line] (set_render_does_overlap overlap s))).
Proof.
  intros Hcache Hstrs Hpos.
  unfold _render_and_measure_to_cache, mbind at 1, gets at 1. rewrite Hcache.
  unfold mbind at 1, gets at 1. unfold mbind at 1, lift at 1. rewrite Hstrs.
  unfold mbind at 1, enumerate.
  pose proof (for_each_layout (labels s) positions strs [] "" s Hpos
                (try_precisions_length _ _ _ Hstrs)) as Hloop.
  cbn [length app] in Hloop. change (Z.of_nat 0) with 0 in Hloop.
  rewrite Hloop. destruct (Claimed.layout _ _ _ _) as [line overlap].
  reflexivity.
Qed.

End LabelSetPlacement.


(* ================================================================== *)
(** * The library formatting of integers against the formatting rule   *)
(* ================================================================== *)

Lemma digit_char_digit d : 0 <= d < 10 -> PyFormat.digit_char d = Claimed.digit d.
Proof.
  intros H.
  assert (Hc : d = 0 \/ d = 1 \/ d = 2 \/ d = 3 \/ d = 4 \/ d = 5 \/ d = 6 \/ d = 7
               \/ d = 8 \/ d = 9) by lia.
  repeat (destruct Hc as [-> | Hc]; [reflexivity|]). now subst.
Qed.

Lemma digits_rev_small fuel n :
  n < 10 -> PyFormat.digits_rev (S fuel) n = [PyFormat.digit_char n].
Proof. intros H. cbn [PyFormat.digits_rev]. now rewrite (proj2 (Z.ltb_lt n 10) H). Qed.

Lemma digits_rev_step fuel n :
  10 <= n ->
  PyFormat.digits_rev (S fuel) n
  = PyFormat.digit_char (n mod 10) :: PyFormat.digits_rev fuel (n / 10).
Proof. intros H. cbn [PyFormat.digits_rev]. now rewrite (proj2 (Z.ltb_ge n 10) H). Qed.

Lemma pow10_fuel fuel n :
  0 <= n < 10 ^ (Z.of_nat fuel + 1) -> 10 <= n ->
  exists fuel', fuel = S fuel' /\ 0 <= n / 10 < 10 ^ (Z.of_nat fuel' + 1).
Proof.
  intros [H0 H] H10. destruct fuel as [|fuel']; [simpl in H; lia|].
  exists fuel'. split; [reflexivity|].
  replace (Z.of_nat (S fuel') + 1) with (Z.succ (Z.of_nat fuel' + 1)) in H by lia.
  rewrite Z.pow_succ_r in H by lia.
  split; [apply Z.div_pos; lia|]. apply Z.div_lt_upper_bound; lia.
Qed.

Lemma group_rev_comma c rest :
  PyFormat.group_rev (c :: rest) 3 = ","%char :: PyFormat.group_rev (c :: rest) 0.
Proof. reflexivity. Qed.

Lemma padded_3 n :
  0 <= n ->
  Claimed.padded 3 (n mod 1000)
  = string_of_list_ascii [PyFormat.digit_char (n / 10 / 10 mod 10);
                          PyFormat.digit_char (n / 10 mod 10);
                          PyFormat.digit_char (n mod 10)].
Proof.
  intros Hn. cbn [Claimed.padded string_of_list_ascii].
  rewrite !digit_char_digit by (apply Z.mod_pos_bound; lia).
  replace (n mod 1000 / 10 / 10 mod 10) with (n / 10 / 10 mod 10).
  2:{ rewrite !Z.div_div by lia. change (10 * 10) with 100.
      rewrite (Z.div_mod n 1000) at 1 by lia.
      replace (1000 * (n / 1000) + n mod 1000) with (n mod 1000 + (n / 1000 * 10) * 100) by ring.
      rewrite Z.div_add by lia. rewrite Z.add_mod by lia.
      rewrite Z.mod_mul by lia. rewrite Z.add_0_r. rewrite Z.mod_mod by lia. reflexivity. }
  replace (n mod 1000 / 10 mod 10) with (n / 10 mod 10).
  2:{ rewrite (Z.div_mod n 1000) at 1 by lia.
      replace (1000 * (n / 1000) + n mod 1000) with (n mod 1000 + (n / 1000 * 100) * 10) by ring.
      rewrite Z.div_add by lia. rewrite Z.add_mod by lia.
      replace (n / 1000 * 100) with (n / 1000 * 10 * 10) by ring.
      rewrite Z.mod_mul by lia. rewrite Z.add_0_r. rewrite Z.mod_mod by lia. reflexivity. }
  replace (n mod 1000 mod 10) with (n mod 10).
  2:{ rewrite (Z.div_mod n 1000) at 1 by lia.
      replace (1000 * (n / 1000) + n mod 1000) with (n mod 1000 + (n / 1000 * 100) * 10) by ring.
      rewrite Z.add_mod by lia. rewrite Z.mod_mul by lia. rewrite Z.add_0_r.
      rewrite Z.mod_mod by lia. reflexivity. }
  reflexivity.
Qed.

Lemma below_1000_digits fuel n :
  0 <= n < 1000 -> n < 10 ^ (Z.of_nat fuel + 1) ->
  string_of_list_ascii (rev (PyFormat.group_rev (PyFormat.digits_rev (S fuel) n) 0))
  = Claimed.below_1000 n.
Proof.
  intros Hn Hf. unfold Claimed.below_1000.
  destruct (Z.ltb_spec n 10) as [H10 | H10].
  - rewrite digits_rev_small by lia. cbn. rewrite Z.mod_small by lia.
    now rewrite digit_char_digit by lia.
  - destruct (pow10_fuel fuel n ltac:(lia) H10) as (f1 & -> & Hf1).
    rewrite digits_rev_step by lia.
    destruct (Z.ltb_spec n 100) as [H100 | H100].
    + assert (n / 10 < 10) by (apply Z.div_lt_upper_bound; lia).
      rewrite digits_rev_small by lia. cbn.
      rewrite (Z.mod_small (n / 10) 10) by lia.
      rewrite !digit_char_digit; try lia; [reflexivity | apply Z.mod_pos_bound; lia].
    + assert (10 <= n / 10) by (apply Z.div_le_lower_bound; lia).
      destruct (pow10_fuel f1 (n / 10) Hf1 ltac:(lia)) as (f2 & -> & Hf2).
      rewrite digits_rev_step by lia.
      assert (n / 10 / 10 < 10).
      { apply Z.div_lt_upper_bound; [lia|]. apply Z.div_lt_upper_bound; lia. }
      rewrite digits_rev_small by lia. cbn.
      rewrite (Z.mod_small (n / 10 / 10) 10) by lia.
      rewrite !digit_char_digit; try lia; try (apply Z.mod_pos_bound; lia).
      reflexivity.
Qed.

Lemma grouped_digits : forall g fuel n,
  0 <= n < 2 ^ (Z.of_nat g + 1) -> n < 10 ^ (Z.of_nat fuel + 1) ->
  string_of_list_ascii (rev (PyFormat.group_rev (PyFormat.digits_rev (S fuel) n) 0))
  = Claimed.grouped g n.
Proof.
  induction g as [|g IH]; intros fuel n Hn Hf.
  - cbn [Claimed.grouped]. apply below_1000_digits; [|exact Hf]. simpl in Hn. lia.
  - cbn [Claimed.grouped]. destruct (Z.ltb_spec n 1000) as [Hlt | Hge].
    + apply below_1000_digits; [lia | exact Hf].
    + destruct (pow10_fuel fuel n ltac:(lia) ltac:(lia)) as (f1 & -> & Hf1).
      assert (H1 : 10 <= n / 10) by (apply Z.div_le_lower_bound; lia).
      destruct (pow10_fuel f1 (n / 10) Hf1 H1) as (f2 & -> & Hf2).
      assert (H2 : 10 <= n / 10 / 10).
      { apply Z.div_le_lower_bound; [lia|]. apply Z.div_le_lower_bound; lia. }
      destruct (pow10_fuel f2 (n / 10 / 10) Hf2 H2) as (f3 & -> & Hf3).
      rewrite !digits_rev_step by lia.
      assert (Hdiv : n / 10 / 10 / 10 = n / 1000) by (rewrite !Z.div_div by lia; reflexivity).
      rewrite Hdiv in *.
      cbn [PyFormat.group_rev Nat.eqb].
      assert (Hne : exists c rest, PyFormat.digits_rev (S f3) (n / 1000) = c :: rest).
      { cbn [PyFormat.digits_rev]. destruct (n / 1000 <? 10); eauto. }
      destruct Hne as (c & rest & Hcr). rewrite Hcr, group_rev_comma, <- Hcr.
      cbn [rev]. rewrite !string_of_list_ascii_app.
      rewrite (IH f3 (n / 1000)); [| |lia].
      * rewrite !string_app_assoc. f_equal. rewrite (padded_3 n) by lia. reflexivity.
      * split; [apply Z.div_pos; lia|].
        apply Z.div_lt_upper_bound; [lia|].
        replace (Z.of_nat (S g) + 1) with (Z.succ (Z.of_nat g + 1)) in Hn by lia.
        rewrite Z.pow_succ_r in Hn by lia. lia.
Qed.

Lemma lt_pow10_log2 a : 0 <= a -> a < 10 ^ (Z.of_nat (Z.to_nat (Z.log2 a)) + 1).
Proof.
  intros Ha. rewrite Z2Nat.id by apply Z.log2_nonneg.
  destruct (Z.eq_dec a 0) as [-> | Hne]; [reflexivity|].
  pose proof (Z.log2_spec a ltac:(lia)) as [_ Hlt].
  replace (Z.log2 a + 1) with (Z.succ (Z.log2 a)) by lia.
  eapply Z.lt_le_trans; [exact Hlt|].
  apply Z.pow_le_mono_l. lia.
Qed.

Lemma lt_pow2_log2 a : 0 <= a -> a < 2 ^ (Z.of_nat (Z.to_nat (Z.log2 a)) + 1).
Proof.
  intros Ha. rewrite Z2Nat.id by apply Z.log2_nonneg.
  destruct (Z.eq_dec a 0) as [-> | Hne]; [reflexivity|].
  pose proof (Z.log2_spec a ltac:(lia)) as [_ Hlt].
  replace (Z.log2 a + 1) with (Z.succ (Z.log2 a)) by lia. exact Hlt.
Qed.

Lemma format_d_thousands z : PyFormat.format_d z = Claimed.thousands z.
Proof.
  unfold PyFormat.format_d, Claimed.thousands, PyFormat.grouped, PyFormat.digits.
  rewrite rev_involutive. f_equal.
  apply grouped_digits.
  - split; [lia|]. apply lt_pow2_log2. lia.
  - apply lt_pow10_log2. lia.
Qed.

Lemma int_of_float_whole v :
  isfinite v = true -> int_of_float v = Ok (Claimed.whole v).
Proof.
  destruct v as [s|s| |s m e]; try discriminate; intros _; [reflexivity|].
  cbn [int_of_float Claimed.whole]. f_equal.
  destruct (Z.le_gt_cases 0 e) as [He | He].
  - rewrite Z.max_l, Z.max_r by lia. rewrite Z.shiftl_mul_pow2 by lia.
    change (2 ^ 0) with 1. rewrite Z.quot_1_r. destruct s; cbn [cond_Zopp]; ring.
  - rewrite Z.max_r, Z.max_l by lia. change (2 ^ 0) with 1. rewrite Z.mul_1_r.
    rewrite Z.shiftl_div_pow2 by lia.
    assert (Hp : 0 < 2 ^ (- e)) by (apply Z.pow_pos_nonneg; lia).
    destruct s; cbn [cond_Zopp].
    + rewrite Z.quot_opp_l by lia. f_equal.
      symmetry. apply Z.quot_div_nonneg; lia.
    + symmetry. apply Z.quot_div_nonneg; lia.
Qed.

(* ================================================================== *)
(** * [LabelSet]: the shortest distinct representation                  *)
(* ================================================================== *)

Section LabelSetFormatting.

Import LabelSet.

Variable format_g : nat -> float -> string.
Variable str : float -> string.

Lemma size_list_to_set_le (l : list string) :
  (size (list_to_set l : gset string) <= length l)%nat.
Proof.
  induction l as [|x l IH].
  - reflexivity.
  - cbn [list_to_set length]. rewrite size_union_alt, size_singleton.
    pose proof (subseteq_size (list_to_set l ∖ {[x]}) (list_to_set l : gset string)
                  ltac:(set_solver)).
    lia.
Qed.

(** [len(l) == len(set(l))] holds exactly of a list without repetition. *)
Lemma all_distinct_NoDup (l : list string) :
  all_distinct l = true <-> NoDup l.
Proof.
  unfold all_distinct. rewrite Nat.eqb_eq. split.
  - induction l as [|x l IH]; intros H; [constructor|].
    simpl in H. pose proof (size_list_to_set_le l) as Hle.
    destruct (decide (x ∈ l)) as [Hin | Hnin].
    + exfalso.
      assert (Heq : ({[x]} ∪ list_to_set l : gset string) = list_to_set l)
        by set_solver.
      rewrite Heq in H. lia.
    + rewrite size_union, size_singleton in H by set_solver.
      constructor; [exact Hnin|]. apply IH. lia.
  - intros H. symmetry. now apply size_list_to_set.
Qed.

Lemma _float_format_finite v p :
  isfinite v = true ->
  _float_format format_g v p = Ok (label_string format_g p v).
Proof.
  intros Hv. unfold _float_format. destruct p as [|p]; [|reflexivity].
  destruct v; try discriminate; reflexivity.
Qed.

Lemma present_formattable numbers :
  Forall formattable numbers ->
  Forall (fun v => isfinite v = true) (present numbers).
Proof.
  induction 1 as [|n numbers Hn _ IH]; [constructor|].
  destruct n as [v|]; simpl; [constructor; assumption | exact IH].
Qed.

Lemma format_present p vs :
  Forall (fun v => isfinite v = true) vs ->
  comprehension (fun n => _float_format format_g n p) vs
  = Ok (map (label_string format_g p) vs).
Proof.
  induction 1 as [|v vs Hv _ IH]; simpl; [reflexivity|].
  now rewrite (_float_format_finite v p Hv), IH.
Qed.

Lemma format_all p numbers :
  Forall formattable numbers ->
  comprehension
    (fun n => match n with
              | None => Ok ""
              | Some v => _float_format format_g v p
              end) numbers
  = Ok (label_strings format_g p numbers).
Proof.
  induction 1 as [|n numbers Hn _ IH]; simpl; [reflexivity|].
  destruct n as [v|]; simpl in Hn |- *.
  - now rewrite (_float_format_finite v p Hn), IH.
  - now rewrite IH.
Qed.

(** The search over the precisions [first, first + count), in terms of
    the strings that the code computes. *)
Lemma try_precisions_spec numbers :
  Forall formattable numbers ->
  forall count first,
  exists strs,
    try_precisions format_g str (seq first count) numbers = Ok strs /\
    ((exists p, (first <= p < first + count)%nat /\
                NoDup (map (label_string format_g p) (present numbers)) /\
                (forall q, (first <= q < p)%nat ->
                           ~ NoDup (map (label_string format_g q) (present numbers))) /\
                strs = label_strings format_g p numbers) \/
     ((forall p, (first <= p < first + count)%nat ->
                 ~ NoDup (map (label_string format_g p) (present numbers))) /\
      strs = Claimed.naive str numbers)).
Proof.
  intros Hf. induction count as [|count IH]; intros first.
  - eexists. split; [reflexivity|]. right. split; [intros p Hp; lia | reflexivity].
  - cbn [seq try_precisions].
    rewrite (format_present first _ (present_formattable _ Hf)). cbn [bind].
    destruct (all_distinct (map (label_string format_g first) (present numbers)))
      eqn:Hd.
    + rewrite (format_all first _ Hf). eexists. split; [reflexivity|].
      left. exists first. split; [lia|]. split; [now apply all_distinct_NoDup|].
      split; [intros q Hq; lia | reflexivity].
    + assert (Hnd : ~ NoDup (map (label_string format_g first) (present numbers))).
      { intros Hn. apply all_distinct_NoDup in Hn. congruence. }
      destruct (IH (S first)) as (strs & Hrun & Hspec).
      exists strs. split; [exact Hrun|].
      destruct Hspec as [(p & Hp & Hdp & Hmin & ->) | (Hnone & ->)].
      * left. exists p. split; [lia|]. split; [exact Hdp|].
        split; [|reflexivity]. intros q Hq.
        destruct (decide (q = first)) as [-> | Hne]; [exact Hnd|].
        apply Hmin. lia.
      * right. split; [|reflexivity]. intros p Hp.
        destruct (decide (p = first)) as [-> | Hne]; [exact Hnd|].
        apply Hnone. lia.
Qed.

(** ** The strings of the code against the formatting rule *)

Lemma label_string_0 v :
  isfinite v = true -> label_string format_g 0 v = Claimed.formatted 0 v.
Proof.
  intros Hv. pose proof (int_of_float_whole v Hv) as Hw.
  unfold label_string, Claimed.formatted. rewrite <- format_d_thousands.
  destruct v as [s|s| |s m e]; try discriminate Hv.
  - reflexivity.
  - cbn [int_of_float] in Hw. f_equal. congruence.
Qed.

Lemma label_string_formatted numbers p v :
  formats_as_claimed format_g numbers ->
  In (Some v) numbers -> isfinite v = true -> (p <= 9)%nat ->
  label_string format_g p v = Claimed.formatted p v.
Proof.
  intros Hlib Hin Hv Hp. destruct p as [|p]; [now apply label_string_0|].
  cbn [label_string Claimed.formatted]. apply Hlib; [lia | exact Hin].
Qed.

Lemma In_present v numbers : In v (present numbers) <-> In (Some v) numbers.
Proof.
  unfold present. induction numbers as [|n numbers IH]; [reflexivity|].
  destruct n as [u|]; cbn.
  - rewrite IH. split; intros [H | H]; auto; left; congruence.
  - rewrite IH. split; [auto | intros [H | H]; [discriminate | exact H]].
Qed.

Lemma label_strings_rendered_at numbers p :
  formats_as_claimed format_g numbers ->
  Forall formattable numbers -> (p <= 9)%nat ->
  label_strings format_g p numbers = Claimed.rendered_at p numbers.
Proof.
  intros Hlib Hf Hp. apply map_ext_in. intros [v|] Hin; [|reflexivity].
  rewrite List.Forall_forall in Hf.
  exact (label_string_formatted numbers p v Hlib Hin (Hf _ Hin) Hp).
Qed.

Lemma present_strings numbers p :
  formats_as_claimed format_g numbers ->
  Forall formattable numbers -> (p <= 9)%nat ->
  map (label_string format_g p) (present numbers)
  = map (Claimed.formatted p) (present numbers).
Proof.
  intros Hlib Hf Hp. apply map_ext_in. intros v Hin. apply In_present in Hin.
  rewrite List.Forall_forall in Hf.
  exact (label_string_formatted numbers p v Hlib Hin (Hf _ Hin) Hp).
Qed.

Lemma In_present_lookup v numbers :
  In v (present numbers) <-> exists j, numbers !! j = Some (Some v).
Proof.
  rewrite In_present, <- list_elem_of_In. apply list_elem_of_lookup.
Qed.

(** A list of strings without repetition, by the places of the labels. *)
Lemma NoDup_present (f : float -> string) numbers :
  NoDup (map f (present numbers)) <->
  (forall i j v w, i <> j ->
     numbers !! i = Some (Some v) -> numbers !! j = Some (Some w) -> f v <> f w).
Proof.
  induction numbers as [|n numbers IH].
  - split; [intros _ i j v w _ H; discriminate H | constructor].
  - destruct n as [u|].
    + change (present (Some u :: numbers)) with (u :: present numbers).
      cbn [map]. rewrite NoDup_cons, IH, list_elem_of_In, in_map_iff. split.
      * intros [Hnew Hrest] [|i] [|j] v w Hij Hi Hj; cbn in Hi, Hj.
        -- congruence.
        -- injection Hi as <-. intros Heq. apply Hnew. exists w.
           split; [now symmetry|]. apply In_present_lookup. eauto.
        -- injection Hj as <-. intros Heq. apply Hnew. exists v.
           split; [exact Heq|]. apply In_present_lookup. eauto.
        -- apply (Hrest i j); [congruence | exact Hi | exact Hj].
      * intros H. split.
        -- intros (w & Heq & Hin). apply In_present_lookup in Hin as [j Hj].
           apply (H 0%nat (S j) u w); [discriminate | reflexivity | exact Hj |].
           now symmetry.
        -- intros i j v w Hij Hi Hj.
           apply (H (S i) (S j)); [congruence | exact Hi | exact Hj].
    + change (present (None :: numbers)) with (present numbers).
      rewrite IH. split.
      * intros H [|i] [|j] v w Hij Hi Hj; cbn in Hi, Hj; try discriminate.
        apply (H i j); [congruence | exact Hi | exact Hj].
      * intros H i j v w Hij Hi Hj.
        apply (H (S i) (S j)); [congruence | exact Hi | exact Hj].
Qed.

Lemma NoDup_distinct_at numbers p :
  formats_as_claimed format_g numbers ->
  Forall formattable numbers -> (p <= 9)%nat ->
  NoDup (map (label_string format_g p) (present numbers)) <->
  Claimed.distinct_at p numbers.
Proof.
  intros Hlib Hf Hp. rewrite (present_strings numbers p Hlib Hf Hp).
  apply NoDup_present.
Qed.

End LabelSetFormatting.

(** C3, as the code has it.  For a label list whose labels are missing
    or finite numbers, the rendered label strings are those of the first
    precision [p] in [0..9] at which the labels that are not missing
    format pairwise distinct (precision 0 as a grouped integer, precision
    [p > 0] with [p] significant digits, thousands-separated, a missing
    label as the empty string); if no precision in [0..9] separates them,
    each value's [str] form is used.  The library call
    ["{:,.<p>g}".format] is assumed to format with [p] significant digits,
    thousands-separated, on these labels. *)
Theorem C3_shortest_distinct_representation
        (format_g : nat -> float -> string) (str : float -> string)
        (numbers : list (option float)) :
  Forall formattable numbers ->
  formats_as_claimed format_g numbers ->
  exists strs,
    LabelSet._find_shortest_string_representation format_g str numbers = Ok strs /\
    ((exists p, (p <= 9)%nat /\
                Claimed.distinct_at p numbers /\
                (forall q, (q < p)%nat -> ~ Claimed.distinct_at q numbers) /\
                strs = Claimed.rendered_at p numbers) \/
     ((forall p, (p <= 9)%nat -> ~ Claimed.distinct_at p numbers) /\
      strs = Claimed.naive str numbers)).
Proof.
  intros Hf Hlib.
  destruct (try_precisions_spec format_g str numbers Hf 10 0) as (strs & Hrun & Hspec).
  exists strs. split; [exact Hrun|].
  destruct Hspec as [(p & Hp & Hdp & Hmin & ->) | (Hnone & ->)].
  - left. exists p. split; [lia|].
    split; [apply (NoDup_distinct_at format_g numbers p Hlib Hf); [lia | exact Hdp]|].
    split.
    + intros q Hq Hd. apply (Hmin q); [lia|].
      apply (NoDup_distinct_at format_g numbers q Hlib Hf); [lia | exact Hd].
    + apply label_strings_rendered_at; [exact Hlib | exact Hf | lia].
  - right. split; [|reflexivity]. intros p Hp Hd. apply (Hnone p); [lia|].
    apply (NoDup_distinct_at format_g numbers p Hlib Hf); [lia | exact Hd].
Qed.

(** The labels 1234.5, missing, 1234.6 are told apart at precision 4, with
    their digits grouped; precision 3 writes both as [1.23e+03]. *)
Lemma C3_witness_three_digits :
  let numbers := [Some (PyFormat.float_of_decimal 12345 (-1)); None;
                  Some (PyFormat.float_of_decimal 12346 (-1))] in
  Forall formattable numbers /\
  formats_as_claimed PyFormat.format_g numbers /\
  LabelSet._find_shortest_string_representation
    PyFormat.format_g PyFormat.str_float numbers
  = Ok ["1,234"; ""; "1,235"] /\
  Claimed.rendered_at 4 numbers = ["1,234"; ""; "1,235"] /\
  Claimed.rendered_at 3 numbers = ["1.23e+03"; ""; "1.23e+03"] /\
  Claimed.rendered_at 0 numbers = ["1,234"; ""; "1,234"].
Proof.
  intros numbers.
  assert (Hf : Forall formattable numbers)
    by (repeat constructor; vm_compute; reflexivity).
  assert (Hlib : formats_as_claimed PyFormat.format_g numbers).
  { intros p v Hp Hin.
    assert (Hv : v = PyFormat.float_of_decimal 12345 (-1) \/
                 v = PyFormat.float_of_decimal 12346 (-1)).
    { destruct Hin as [H | [H | [H | []]]]; try discriminate H;
        injection H as <-; auto. }
    assert (Hcases : (p = 1 \/ p = 2 \/ p = 3 \/ p = 4 \/ p = 5 \/ p = 6 \/
                      p = 7 \/ p = 8 \/ p = 9)%nat) by lia.
    destruct Hv as [-> | ->];
      repeat (destruct Hcases as [-> | Hcases]; [vm_compute; reflexivity|]);
      subst p; vm_compute; reflexivity. }
  split; [exact Hf|]. split; [exact Hlib|].
  destruct (C3_shortest_distinct_representation
              PyFormat.format_g PyFormat.str_float numbers Hf Hlib)
    as (strs & Hrun & _).
  repeat split; vm_compute; reflexivity.
Defined.

(** The claim as stated fails on a label that is not a number: with the
    labels [[1.0, nan]] no strings are rendered at all, [int(nan)] raises
    while precision 0 is tried. *)
Lemma C3_counterexample_not_a_number :
  LabelSet._find_shortest_string_representation
    PyFormat.format_g PyFormat.str_float [Some (float_of_Z 1); Some nan]
  = Raise ValueError.
Proof. reflexivity. Qed.

Example shortest_representation_example :
  LabelSet._find_shortest_string_representation PyFormat.format_g PyFormat.str_float
    [Some (PyFormat.float_of_decimal 121 (-1)); None;
     Some (PyFormat.float_of_decimal 124 (-1))]
  = Ok ["12.1"; ""; "12.4"].
Proof. vm_compute. reflexivity. Qed.

(** Equal labels are never told apart: the naive conversion is used. *)
Example shortest_representation_fallback :
  LabelSet._find_shortest_string_representation PyFormat.format_g PyFormat.str_float
    [Some (float_of_Z 1); Some (float_of_Z 1)]
  = Ok ["1.0"; "1.0"].
Proof. vm_compute. reflexivity. Qed.

(** C2. [render] builds its single line label by label, left to right:
    the intended start of label [i] is its discretized position minus half
    the length of its string (rounded down) plus the left margin, not
    below 0; the buffer is the intended start minus the length of the line
    so far; the first label clamps the buffer to 0 and every later label to
    1, and the overlap flag is set exactly when a buffer had to be clamped;
    the buffer, as spaces, and the label string are appended. *)
Theorem C2_render_placement
        (discretize : option float -> float -> float -> Z -> outcome Z)
        (format_g : nat -> float -> string) (str : float -> string)
        (numbers : list (option float)) (lo hi : float) (space : Z) (vertical : bool)
        (strs : list string) (positions : list Z) :
  LabelSet._find_shortest_string_representation format_g str numbers = Ok strs ->
  Forall2 (fun label position => discretize label lo hi space = Ok position)
          numbers positions ->
  let self := LabelSet.__init__ numbers lo hi space vertical in
  let placed := Claimed.layout 0 (combine positions strs) "" false in
  length strs = length numbers /\
  fst (LabelSet.render discretize format_g str self) = Ok [fst placed] /\
  fst (LabelSet.compute_if_render_does_overlap discretize format_g str self)
  = Ok (snd placed).
Proof.
  intros Hstrs Hpos self placed.
  split; [eapply try_precisions_length; exact Hstrs|].
  pose proof (_render_and_measure_to_cache_run discretize format_g str self
                strs positions eq_refl Hstrs Hpos) as Hrun.
  cbn [LabelSet._render_does_overlap self LabelSet.__init__] in Hrun.
  fold placed in Hrun.
  unfold LabelSet.render, LabelSet.compute_if_render_does_overlap, mbind.
  rewrite Hrun. destruct placed as [line overlap]. split; reflexivity.
Qed.

(** Three labels on a grid of 20 columns. *)
Lemma C2_witness_three_labels :
  let numbers := [Some zero; Some (float_of_Z 5); Some (float_of_Z 10)] in
  let self := LabelSet.__init__ numbers zero (float_of_Z 10) 20 false in
  LabelSet._find_shortest_string_representation
    PyFormat.format_g PyFormat.str_float numbers = Ok ["0"; "5"; "10"] /\
  Forall2 (fun label position =>
             Discretizer.discretize label zero (float_of_Z 10) 20 = Ok position)
          numbers [0; 10; 20] /\
  fst (LabelSet.render Discretizer.discretize PyFormat.format_g PyFormat.str_float self)
  = Ok [" 0         5        10"] /\
  fst (LabelSet.compute_if_render_does_overlap
         Discretizer.discretize PyFormat.format_g PyFormat.str_float self)
  = Ok false.
Proof.
  intros numbers self.
  assert (Hstrs : LabelSet._find_shortest_string_representation
                    PyFormat.format_g PyFormat.str_float numbers = Ok ["0"; "5"; "10"])
    by (vm_compute; reflexivity).
  assert (Hpos : Forall2 (fun label position =>
                   Discretizer.discretize label zero (float_of_Z 10) 20 = Ok position)
                   numbers [0; 10; 20])
    by (repeat constructor; vm_compute; reflexivity).
  split; [exact Hstrs|]. split; [exact Hpos|].
  destruct (C2_render_placement Discretizer.discretize PyFormat.format_g
              PyFormat.str_float numbers zero (float_of_Z 10) 20 false
              ["0"; "5"; "10"] [0; 10; 20] Hstrs Hpos) as (_ & Hrender & Hoverlap).
  split; [exact Hrender | exact Hoverlap].
Defined.


(* ================================================================== *)
(** * [LabelSet]: the orientation flag                                  *)
(* ================================================================== *)

Section LabelSetDirection.

Import LabelSet.

Variable discretize : option float -> float -> float -> Z -> outcome Z.
Variable format_g : nat -> float -> string.
Variable str : float -> string.

Lemma ignores_ret {A : Type} (a : A) : ignores_direction (ret a).
Proof. intros b s. reflexivity. Qed.

Lemma ignores_lift {A : Type} (m : outcome A) : ignores_direction (lift m).
Proof. intros b s. reflexivity. Qed.

Lemma ignores_gets {A : Type} (f : t -> A) :
  (forall b s, f (with_direction b s) = f s) -> ignores_direction (gets f).
Proof. intros H b s. unfold gets. simpl. now rewrite H. Qed.

Lemma ignores_modify (f : t -> t) :
  (forall b s, f (with_direction b s) = with_direction b (f s)) ->
  ignores_direction (modify f).
Proof. intros H b s. unfold modify. simpl. now rewrite H. Qed.

Lemma ignores_mbind {A B : Type} (m : method t A) (k : A -> method t B) :
  ignores_direction m -> (forall a, ignores_direction (k a)) ->
  ignores_direction (mbind m k).
Proof.
  intros Hm Hk b s. unfold mbind. rewrite (Hm b s).
  destruct (m s) as [[a|e|] s']; simpl; [apply Hk | reflexivity ..].
Qed.

Lemma ignores_for_each {A B : Type} (body : A -> B -> method t B) (l : list A) :
  (forall x acc, ignores_direction (body x acc)) ->
  forall acc, ignores_direction (for_each body l acc).
Proof.
  intros Hbody. induction l as [|x l IH]; intros acc; simpl.
  - apply ignores_ret.
  - apply ignores_mbind; [apply Hbody | exact IH].
Qed.

Ltac ignores :=
  repeat first
    [ apply ignores_ret
    | apply ignores_lift
    | apply ignores_gets; intros; reflexivity
    | apply ignores_modify; intros; reflexivity
    | apply ignores_mbind; [| intros ?] ].

Lemma ignores_place_label str_labels entry line :
  ignores_direction (place_label discretize str_labels entry line).
Proof.
  unfold place_label. destruct entry as [i label]. ignores.
  destruct (_ && _); [ignores|]. destruct (_ && _); ignores.
Qed.

Lemma ignores__render_and_measure_to_cache :
  ignores_direction (_render_and_measure_to_cache discretize format_g str).
Proof.
  unfold _render_and_measure_to_cache. ignores.
  destruct a; ignores.
  apply ignores_for_each. intros x acc. apply ignores_place_label.
Qed.

Lemma ignores_render : ignores_direction (render discretize format_g str).
Proof.
  unfold render.
  apply ignores_mbind; [apply ignores__render_and_measure_to_cache | intros; ignores].
Qed.

Lemma ignores_compute_if_render_does_overlap :
  ignores_direction (compute_if_render_does_overlap discretize format_g str).
Proof.
  unfold compute_if_render_does_overlap.
  apply ignores_mbind; [apply ignores__render_and_measure_to_cache | intros; ignores].
Qed.

Lemma ignores_same {A : Type} (m : method t A) s1 s2 :
  ignores_direction m -> same_but_direction s1 s2 ->
  fst (m s1) = fst (m s2) /\ same_but_direction (snd (m s1)) (snd (m s2)).
Proof.
  intros Hm Hs. unfold same_but_direction in Hs.
  remember (vertical_direction s2) as b eqn:Hb. clear Hb. subst s2.
  rewrite (Hm b s1). split; reflexivity.
Qed.

End LabelSetDirection.

(** C10. Two [LabelSet] objects with the same labels, domain and
    available space (and the same cached state) but any two values of
    [vertical_direction] return the same lines from [render] and the same
    boolean from [compute_if_render_does_overlap], and still differ at
    most in that flag afterwards. *)
Theorem C10_vertical_direction_has_no_effect
        (discretize : option float -> float -> float -> Z -> outcome Z)
        (format_g : nat -> float -> string) (str : float -> string)
        (s1 s2 : LabelSet.t) :
  same_but_direction s1 s2 ->
  (fst (LabelSet.render discretize format_g str s1)
   = fst (LabelSet.render discretize format_g str s2) /\
   same_but_direction (snd (LabelSet.render discretize format_g str s1))
                      (snd (LabelSet.render discretize format_g str s2))) /\
  (fst (LabelSet.compute_if_render_does_overlap discretize format_g str s1)
   = fst (LabelSet.compute_if_render_does_overlap discretize format_g str s2) /\
   same_but_direction
     (snd (LabelSet.compute_if_render_does_overlap discretize format_g str s1))
     (snd (LabelSet.compute_if_render_does_overlap discretize format_g str s2))).
Proof.
  intros Hs. split.
  - apply ignores_same; [apply ignores_render | exact Hs].
  - apply ignores_same; [apply ignores_compute_if_render_does_overlap | exact Hs].
Qed.

(** Two objects constructed alike but for the flag. *)
Lemma C10_witness_opposite_flags :
  let numbers := [Some zero; Some (float_of_Z 5); Some (float_of_Z 10)] in
  let s1 := LabelSet.__init__ numbers zero (float_of_Z 10) 20 false in
  let s2 := LabelSet.__init__ numbers zero (float_of_Z 10) 20 true in
  same_but_direction s1 s2 /\
  fst (LabelSet.render Discretizer.discretize PyFormat.format_g PyFormat.str_float s1)
  = fst (LabelSet.render Discretizer.discretize PyFormat.format_g PyFormat.str_float s2) /\
  fst (LabelSet.compute_if_render_does_overlap
         Discretizer.discretize PyFormat.format_g PyFormat.str_float s1)
  = fst (LabelSet.compute_if_render_does_overlap
           Discretizer.discretize PyFormat.format_g PyFormat.str_float s2).
Proof.
  intros numbers s1 s2.
  assert (Hs : same_but_direction s1 s2) by reflexivity.
  split; [exact Hs|].
  destruct (C10_vertical_direction_has_no_effect Discretizer.discretize
              PyFormat.format_g PyFormat.str_float s1 s2 Hs)
    as [[Hrender _] [Hoverlap _]].
  split; [exact Hrender | exact Hoverlap].
Defined.

(* ================================================================== *)
(** * [LabelSet]: degenerate inputs and exceptions                      *)
(* ================================================================== *)

Section LabelSetFailure.

Import LabelSet.

Variable discretize : option float -> float -> float -> Z -> outcome Z.
Variable format_g : nat -> float -> string.
Variable str : float -> string.

Lemma positions_exist (lo hi : float) (space : Z) numbers :
  Forall (fun label => is_ok (discretize label lo hi space) = true) numbers ->
  exists positions,
    Forall2 (fun label position => discretize label lo hi space = Ok position)
            numbers positions.
Proof.
  induction 1 as [|label numbers Hl _ (positions & IH)].
  - exists []. constructor.
  - apply is_ok_true in Hl as [position Hl].
    exists (position :: positions). constructor; assumption.
Qed.

(** Once the result is in the cache, both operations return it and call
    nothing. *)
Lemma cached_run s :
  _results_already_in_cache s = true ->
  render discretize format_g str s = (Ok (_rendered_result s), s) /\
  compute_if_render_does_overlap discretize format_g str s
  = (Ok (_render_does_overlap s), s).
Proof.
  intros H.
  unfold render, compute_if_render_does_overlap, _render_and_measure_to_cache,
    mbind, gets, ret.
  rewrite H. split; reflexivity.
Qed.

(** Both operations on a fresh object whose labels format and whose
    positions exist: they return, and they return the same again from the
    cache. *)
Lemma fresh_run numbers lo hi space vertical strs positions :
  _find_shortest_string_representation format_g str numbers = Ok strs ->
  Forall2 (fun label position => discretize label lo hi space = Ok position)
          numbers positions ->
  let self := __init__ numbers lo hi space vertical in
  let placed := Claimed.layout 0 (combine positions strs) "" false in
  fst (render discretize format_g str self) = Ok [fst placed] /\
  fst (compute_if_render_does_overlap discretize format_g str self)
  = Ok (snd placed) /\
  (forall s', s' = snd (render discretize format_g str self) \/
              s' = snd (compute_if_render_does_overlap discretize format_g str self) ->
     fst (render discretize format_g str s') = Ok [fst placed] /\
     fst (compute_if_render_does_overlap discretize format_g str s')
     = Ok (snd placed)).
Proof.
  intros Hstrs Hpos self placed.
  pose proof (_render_and_measure_to_cache_run discretize format_g str self
                strs positions eq_refl Hstrs Hpos) as Hrun.
  cbn [_render_does_overlap self __init__] in Hrun. fold placed in Hrun.
  destruct placed as [line overlap] eqn:Hplaced.
  assert (Hr : render discretize format_g str self
               = (Ok [line],
                  set_results_already_in_cache true
                    (set_rendered_result [line]
                       (set_render_does_overlap overlap self))))
    by (unfold render, mbind; rewrite Hrun; reflexivity).
  assert (Hc : compute_if_render_does_overlap discretize format_g str self
               = (Ok overlap,
                  set_results_already_in_cache true
                    (set_rendered_result [line]
                       (set_render_does_overlap overlap self))))
    by (unfold compute_if_render_does_overlap, mbind; rewrite Hrun; reflexivity).
  rewrite Hr, Hc. split; [reflexivity|]. split; [reflexivity|].
  intros s' [-> | ->]; cbn [snd];
    match goal with
    | |- context [render _ _ _ ?s] =>
        destruct (cached_run s eq_refl) as [-> ->]
    end; split; reflexivity.
Qed.

(** A NaN label makes both operations raise, whatever [discretize] is. *)
Lemma nan_label_raises lo hi space vertical :
  let self := __init__ [Some nan] lo hi space vertical in
  fst (render discretize format_g str self) = Raise ValueError /\
  fst (compute_if_render_does_overlap discretize format_g str self)
  = Raise ValueError.
Proof. split; reflexivity. Qed.

(** An infinite label makes both operations raise as well. *)
Lemma infinite_label_raises lo hi space vertical :
  let self := __init__ [Some pos_inf] lo hi space vertical in
  fst (render discretize format_g str self) = Raise OverflowError /\
  fst (compute_if_render_does_overlap discretize format_g str self)
  = Raise OverflowError.
Proof. split; reflexivity. Qed.

Lemma length_spaces n : String.length (spaces n) = Z.to_nat n.
Proof.
  unfold spaces. induction (Z.to_nat n) as [|k IH]; simpl; [reflexivity|].
  now rewrite IH.
Qed.

Lemma length_string_app s1 s2 :
  String.length (s1 +:+ s2) = (String.length s1 + String.length s2)%nat.
Proof. induction s1 as [|c s1 IH]; simpl; [reflexivity|]. now rewrite IH. Qed.

(** Two missing labels: if [discretize] raises on a missing label, so do
    the operations; if it returns a position, the second label is pushed
    right and the overlap flag is set. *)
Lemma two_missing_labels lo hi space vertical :
  let self := __init__ [None; None] lo hi space vertical in
  match discretize None lo hi space with
  | Ok position =>
      fst (compute_if_render_does_overlap discretize format_g str self) = Ok true
  | Raise e =>
      fst (render discretize format_g str self) = Raise e
  | Unmodelled =>
      fst (render discretize format_g str self) = Unmodelled
  end.
Proof.
  intros self. destruct (discretize None lo hi space) as [position| |] eqn:Hd.
  - assert (Hstrs : _find_shortest_string_representation format_g str [None; None]
                    = Ok [""; ""]) by (vm_compute; reflexivity).
    assert (Hpos : Forall2 (fun label p => discretize label lo hi space = Ok p)
                           [None; None] [position; position])
      by (repeat constructor; assumption).
    destruct (fresh_run [None; None] lo hi space vertical _ _ Hstrs Hpos)
      as (_ & Hc & _).
    fold self in Hc. rewrite Hc. f_equal.
    cbn [combine Claimed.layout Claimed.min_gap snd orb].
    set (start := Claimed.intended_start position "").
    assert (Hstart : 0 <= start) by (unfold start, Claimed.intended_start; lia).
    assert (Hzero : (start - len "" <? 0) = false)
      by (apply Z.ltb_ge; unfold len; simpl; lia).
    rewrite Hzero. cbn [orb].
    apply Z.ltb_lt. unfold len.
    rewrite !length_string_app, length_spaces. simpl. lia.
  - unfold render, _render_and_measure_to_cache, mbind, gets, lift, self.
    cbn -[place_label]. unfold mbind, place_label, item, mbind, lift, gets.
    cbn. now rewrite Hd.
  - unfold render, _render_and_measure_to_cache, mbind, gets, lift, self.
    cbn -[place_label]. unfold mbind, place_label, item, mbind, lift, gets.
    cbn. now rewrite Hd.
Qed.

(** The formatted strings exist when every label is missing or finite. *)
Lemma strings_exist numbers :
  Forall formattable numbers ->
  exists strs, _find_shortest_string_representation format_g str numbers = Ok strs.
Proof.
  intros Hf.
  destruct (try_precisions_spec format_g str numbers Hf 10 0) as (strs & Hrun & _).
  eauto.
Qed.

End LabelSetFailure.

(** C8, as the code has it.  When every label is missing or a finite
    number and [discretize] returns a position for every label, [render]
    and [compute_if_render_does_overlap] return without raising, on the
    first call and on every later one; rendering an empty label list gives
    the single empty line and no overlap. *)
Theorem C8_degenerate_inputs
        (discretize : option float -> float -> float -> Z -> outcome Z)
        (format_g : nat -> float -> string) (str : float -> string)
        (numbers : list (option float)) (lo hi : float) (space : Z) (vertical : bool) :
  Forall formattable numbers ->
  Forall (fun label => is_ok (discretize label lo hi space) = true) numbers ->
  let self := LabelSet.__init__ numbers lo hi space vertical in
  (exists line overlap,
     fst (LabelSet.render discretize format_g str self) = Ok [line] /\
     fst (LabelSet.compute_if_render_does_overlap discretize format_g str self)
     = Ok overlap /\
     (forall s',
        s' = snd (LabelSet.render discretize format_g str self) \/
        s' = snd (LabelSet.compute_if_render_does_overlap discretize format_g str self) ->
        fst (LabelSet.render discretize format_g str s') = Ok [line] /\
        fst (LabelSet.compute_if_render_does_overlap discretize format_g str s')
        = Ok overlap) /\
     (numbers = [] -> line = "" /\ overlap = false)).
Proof.
  intros Hf Hd self.
  destruct (strings_exist format_g str numbers Hf) as [strs Hstrs].
  destruct (positions_exist discretize lo hi space numbers Hd) as [positions Hpos].
  destruct (fresh_run discretize format_g str numbers lo hi space vertical
              strs positions Hstrs Hpos) as (Hr & Hc & Hagain).
  fold self in Hr, Hc, Hagain.
  eexists. eexists. split; [exact Hr|]. split; [exact Hc|]. split; [exact Hagain|].
  intros ->. inversion Hpos; subst. split; reflexivity.
Qed.

(** The empty label list. *)
Lemma C8_witness_empty_labels :
  let self := LabelSet.__init__ [] zero (float_of_Z 10) 20 false in
  Forall formattable [] /\
  Forall (fun label =>
            is_ok (Discretizer.discretize label zero (float_of_Z 10) 20) = true) [] /\
  fst (LabelSet.render Discretizer.discretize PyFormat.format_g PyFormat.str_float self)
  = Ok [""] /\
  fst (LabelSet.compute_if_render_does_overlap
         Discretizer.discretize PyFormat.format_g PyFormat.str_float self)
  = Ok false.
Proof.
  intros self. split; [constructor|]. split; [constructor|].
  destruct (C8_degenerate_inputs Discretizer.discretize PyFormat.format_g
              PyFormat.str_float [] zero (float_of_Z 10) 20 false
              ltac:(constructor) ltac:(constructor))
    as (line & overlap & Hr & Hc & _ & Hempty).
  destruct (Hempty eq_refl) as [-> ->]. split; [exact Hr | exact Hc].
Defined.

(** C8, as the claim has it, fails: a label list holding NaN (the
    not-a-number "missing value") makes [render] and
    [compute_if_render_does_overlap] raise [ValueError], from [int(n)] in
    [_float_format] at precision 0; and a list of two missing labels
    either raises (as here, where [discretize] cannot subtract from
    [None]) or sets the overlap flag. *)
Lemma C8_counterexample_nan_label :
  let render := LabelSet.render Discretizer.discretize PyFormat.format_g PyFormat.str_float in
  let overlap :=
    LabelSet.compute_if_render_does_overlap
      Discretizer.discretize PyFormat.format_g PyFormat.str_float in
  fst (render (LabelSet.__init__ [Some nan] zero (float_of_Z 10) 20 false))
  = Raise ValueError /\
  fst (overlap (LabelSet.__init__ [Some nan] zero (float_of_Z 10) 20 false))
  = Raise ValueError /\
  fst (render (LabelSet.__init__ [None; None] zero (float_of_Z 10) 20 false))
  = Raise TypeError /\
  fst (LabelSet.compute_if_render_does_overlap
         (fun _ _ _ _ => Ok 3) PyFormat.format_g PyFormat.str_float
         (LabelSet.__init__ [None; None] zero (float_of_Z 10) 20 false))
  = Ok true.
Proof. repeat split; vm_compute; reflexivity. Qed.

(** [half] against the float computation [int(0.5 * n)] of the source, on
    the lengths 0..199. *)
Example half_is_the_float_product :
  forallb
    (fun n =>
       match int_of_float
               (SFmul prec emax (PyFormat.float_of_decimal 5 (-1)) (float_of_Z n)) with
       | Ok k => k =? LabelSet.half n
       | _ => false
       end)
    (map Z.of_nat (seq 0 200)) = true.
Proof. vm_compute. reflexivity. Qed.

(* ================================================================== *)
(** * [MultiSeries]: further properties of construction                 *)
(* ================================================================== *)

Lemma timeseries_ish_dates_intro items :
  Forall (fun x => is_date x = true) items ->
  MultiSeries._is_timeseries_ish (PyList items) = true.
Proof.
  intros H. simpl.
  assert (Hd : forallb is_date items = true).
  { apply List.forallb_forall. now apply List.Forall_forall. }
  now rewrite Hd.
Qed.

(** X1. [_is_timeseries_ish] accepts exactly the [pd.DatetimeIndex]
    values, the [pd.Series] values of dtype [datetime64[ns]], and the
    lists all of whose items are dates (datetimes are dates): the test for
    lists of datetimes and the [pendulum] test never decide anything, the
    empty list is accepted, and a [pd.Series] of another dtype is not,
    whatever its items are. *)
Theorem timeseries_ish_iff_all_dates (series : pyval) :
  MultiSeries._is_timeseries_ish series = true <->
  (exists stamps, series = PyDatetimeIndex stamps \/ series = PyDatetimeSeries stamps) \/
  (exists items, series = PyList items /\ Forall (fun x => is_date x = true) items).
Proof.
  split.
  - destruct series; try discriminate; intros H.
    + right. exists items. split; [reflexivity|]. now apply _is_timeseries_ish_dates.
    + left. eauto.
    + left. eauto.
  - intros [(stamps & [-> | ->]) | (items & -> & H)]; try reflexivity.
    now apply timeseries_ish_dates_intro.
Qed.

Section FlatLists.

Import Np MultiSeries.

Lemma array_number_like x :
  number_like x ->
  exists d, Np.array x = Ok (mk_ndarray [] d) /\
            cells_as_objects d = [x] /\
            (is_obj_data d = true <-> x = PyNone) /\
            (is_obj_data d = false -> cells_as_floats d = [as_cell x]) /\
            (is_obj_data d = false -> is_float_data d = false ->
             map float_of_Z (cells_as_ints d) = [as_cell x]).
Proof.
  destruct x; simpl; try contradiction.
  - intros _. eexists. split; [reflexivity|]. simpl. repeat split; auto; discriminate.
  - intros ->. eexists. split; [reflexivity|]. simpl. repeat split; auto; discriminate.
  - intros _. eexists. split; [reflexivity|]. simpl. repeat split; auto; discriminate.
Qed.

(** The arrays of the items of a flat list of numbers, and their cells at
    each of the three dtypes. *)
Lemma arrays_of_numbers items :
  Forall number_like items ->
  exists arrs,
    comprehension (fun a => a) (map Np.array items) = Ok arrs /\
    length arrs = length items /\
    Forall (fun a => Np.shape a = []) arrs /\
    concat (map cells_as_objects (map data arrs)) = items /\
    (existsb is_obj_data (map data arrs) = false ->
     concat (map cells_as_floats (map data arrs)) = map as_cell items) /\
    (existsb is_obj_data (map data arrs) = false ->
     existsb is_float_data (map data arrs) = false ->
     map float_of_Z (concat (map cells_as_ints (map data arrs))) = map as_cell items).
Proof.
  induction 1 as [|x items Hx _ (arrs & Hc & Hlen & Hshape & Hobj & Hflt & Hint)].
  - exists []. simpl. repeat split; auto.
  - destruct (array_number_like x Hx) as (d & Ha & Hdo & _ & Hdf & Hdi).
    exists (mk_ndarray [] d :: arrs). cbn [map comprehension].
    rewrite Ha, Hc. cbn [bind map data concat existsb length].
    split; [reflexivity|]. split; [now rewrite Hlen|].
    split; [constructor; auto|]. split; [now rewrite Hdo, Hobj|]. split.
    + intros H. apply orb_false_iff in H as [H1 H2].
      now rewrite (Hdf H1), (Hflt H2).
    + intros H H'. apply orb_false_iff in H as [H1 H2].
      apply orb_false_iff in H' as [H1' H2'].
      now rewrite map_app, (Hdi H1 H1'), (Hint H2 H2').
Qed.

Lemma float_of_object_number_like items :
  Forall number_like items ->
  comprehension float_of_object items = Ok (map as_cell items).
Proof.
  induction 1 as [|x items Hx _ IH]; simpl; [reflexivity|].
  destruct x; simpl in Hx |- *; try contradiction; now rewrite IH.
Qed.

(** X2. [_cast_as_numpy_floats] of a flat list of numbers and [None]s is
    the one-dimensional [float64] array of the same length whose cell [i]
    is item [i] as a float, NaN for [None], whichever dtype [np.array]
    picks on the way (int64, float64 or object). *)
Theorem cast_of_flat_list (items : list pyval) :
  Forall number_like items ->
  _cast_as_numpy_floats (PyList items)
  = Ok (mk_ndarray [length items] (FloatData (map as_cell items))).
Proof.
  intros Hn.
  destruct (arrays_of_numbers items Hn)
    as (arrs & Hc & Hlen & Hshape & Hobj & Hflt & Hint).
  unfold _cast_as_numpy_floats. cbn [Np.array]. unfold stack. rewrite Hc.
  cbn [bind]. destruct arrs as [|a0 rest].
  - destruct items; [reflexivity | discriminate Hlen].
  - apply Forall_cons in Hshape as [H0 Hrest].
    assert (Hsame : forallb (fun b => shape_eqb (Np.shape b) (Np.shape a0)) rest = true).
    { apply List.forallb_forall. intros b Hb.
      rewrite List.Forall_forall in Hrest. rewrite H0, (Hrest b Hb).
      unfold shape_eqb. now apply bool_decide_eq_true. }
    rewrite Hsame, H0, Hlen.
    cbn [bind]. unfold promote, is_inexact. cbn [data].
    destruct (existsb is_obj_data (map data (a0 :: rest))) eqn:Eo.
    + cbn [is_float_data]. unfold astype_float. cbn [data Np.shape].
      rewrite Hobj, (float_of_object_number_like items Hn). reflexivity.
    + destruct (existsb is_float_data (map data (a0 :: rest))) eqn:Ef.
      * cbn [is_float_data]. now rewrite (Hflt eq_refl).
      * cbn [is_float_data]. unfold astype_float. cbn [data Np.shape].
        now rewrite (Hint eq_refl eq_refl).
Qed.

Lemma cast_of_flat_list_witness :
  let items := [PyInt 1; PyNone; PyFloat (float_of_Z 3)] in
  Forall number_like items /\
  _cast_as_numpy_floats (PyList items)
  = Ok (mk_ndarray [3%nat] (FloatData [float_of_Z 1; nan; float_of_Z 3])).
Proof.
  intros items.
  assert (Hn : Forall number_like items) by (repeat constructor).
  split; [exact Hn|]. exact (cast_of_flat_list items Hn).
Defined.

End FlatLists.

Section ConstructionShapes.

Import Np MultiSeries.

(** The x series a successful construction stores when [xs] is given. *)
Lemma __init___xs_given ys0 xs0 ms :
  __init__ ys0 xs0 = Ok ms -> xs0 <> PyNone ->
  let convert :=
    if _is_timeseries_ish xs0 then _convert_timeseries_to_numpy
    else _cast_as_numpy_floats in
  if is_multi_dimensional ms
  then exists rows, iter xs0 = Ok rows /\ comprehension convert rows = Ok (xs ms)
  else exists row, convert xs0 = Ok row /\ xs ms = [row].
Proof.
  unfold __init__.
  destruct (_is_multi_dimensional ys0) as [multi| |]; simpl; try discriminate.
  match goal with |- bind ?X _ = _ -> _ => destruct X as [yrows| |] end;
    simpl; try discriminate.
  match goal with |- bind ?X _ = _ -> _ => destruct X as [xrows| |] eqn:Hx end;
    simpl; try discriminate.
  intros [= <-] Hne. simpl.
  remember (_is_timeseries_ish xs0) as ts eqn:Hts. clear Hts.
  destruct xs0; [congruence | ..]; lazy beta iota in Hx;
    (destruct ts, multi;
     [ destruct (iter _) as [its| |]; simpl in Hx; try discriminate; eauto
     | destruct (_convert_timeseries_to_numpy _) as [row| |];
       simpl in Hx; try discriminate; injection Hx as <-; eauto
     | destruct (iter _) as [its| |]; simpl in Hx; try discriminate; eauto
     | destruct (_cast_as_numpy_floats _) as [row| |];
       simpl in Hx; try discriminate; injection Hx as <-; eauto ]).
Qed.

Lemma len_arange n : len (arange_from_1 n) = Ok n.
Proof. reflexivity. Qed.

(** X3. When [xs] is omitted, the stored x series are the index series
    of the y series: x series [i] is [1..n] for the length [n] of y series
    [i], so there are as many x series as y series, [shape()] returns the
    lengths without raising, and the x series have the same lengths. *)
Theorem index_series_follow_shape (ys0 : pyval) (ms : MultiSeries.t) :
  __init__ ys0 PyNone = Ok ms ->
  exists ns,
    MultiSeries.shape ms = Ok ns /\
    xs ms = map arange_from_1 ns /\
    comprehension len (xs ms) = Ok ns /\
    length (xs ms) = length (ys ms).
Proof.
  intros H. apply __init___inv in H as (_ & _ & _ & HF). cbn iota in HF.
  unfold MultiSeries.shape.
  induction HF as [|y x yrows xrows (n & Hy & ->) _ (ns & Hs & Hx & Hl & Hlen)].
  - exists []. repeat split; reflexivity.
  - exists (n :: ns). cbn [comprehension map length].
    rewrite Hy, Hs, Hx, len_arange. rewrite <- Hx, Hl, Hlen.
    repeat split; reflexivity.
Qed.

Lemma index_series_follow_shape_witness :
  let ys0 := PyList [PyList [PyInt 4; PyInt 5; PyInt 6]; PyList [PyFloat nan]] in
  exists ms,
    __init__ ys0 PyNone = Ok ms /\
    MultiSeries.shape ms = Ok [3%nat; 1%nat] /\
    xs ms = [arange_from_1 3; arange_from_1 1].
Proof.
  intros ys0.
  destruct (__init__ ys0 PyNone) as [ms| |] eqn:H; [| vm_compute in H; discriminate ..].
  exists ms. split; [reflexivity|].
  destruct (index_series_follow_shape ys0 ms H) as (ns & Hs & Hx & _ & _).
  rewrite Hs, Hx. vm_compute in H. injection H as <-.
  vm_compute in Hs. injection Hs as <-. split; reflexivity.
Defined.

(** X4. The number of stored series is read off each argument on its
    own: there is one y series per item of a multi-dimensional [ys] and one
    otherwise, and, when [xs] is given, one x series per item of [xs]
    (multi-dimensional) or one otherwise.  The constructor never compares
    the two numbers. *)
Theorem series_counts (ys0 xs0 : pyval) (ms : MultiSeries.t) :
  __init__ ys0 xs0 = Ok ms ->
  (if is_multi_dimensional ms
   then exists items, iter ys0 = Ok items /\ __len__ ms = Z.of_nat (length items)
   else __len__ ms = 1) /\
  (xs0 <> PyNone ->
   if is_multi_dimensional ms
   then exists items, iter xs0 = Ok items /\ length (xs ms) = length items
   else length (xs ms) = 1%nat).
Proof.
  intros H. split.
  - pose proof (__init___ys _ _ _ H) as Hy. unfold __len__.
    destruct (is_multi_dimensional ms).
    + destruct Hy as (rows & Hi & Hc). exists rows. split; [exact Hi|].
      now rewrite (comprehension_length _ _ _ Hc).
    + destruct Hy as (row & _ & ->). reflexivity.
  - intros Hne. pose proof (__init___xs_given _ _ _ H Hne) as Hx. cbv zeta in Hx.
    destruct (is_multi_dimensional ms).
    + destruct Hx as (rows & Hi & Hc). exists rows. split; [exact Hi|].
      exact (comprehension_length _ _ _ Hc).
    + destruct Hx as (row & _ & ->). reflexivity.
Qed.

(** Two y series with three x series: construction succeeds. *)
Lemma series_counts_witness :
  let ys0 := PyList [PyList [PyInt 1]; PyList [PyInt 2]] in
  let xs0 := PyList [PyList [PyInt 1]; PyList [PyInt 2]; PyList [PyInt 3]] in
  exists ms,
    __init__ ys0 xs0 = Ok ms /\ __len__ ms = 2 /\ length (xs ms) = 3%nat.
Proof.
  intros ys0 xs0.
  destruct (__init__ ys0 xs0) as [ms| |] eqn:H; [| vm_compute in H; discriminate ..].
  exists ms. split; [reflexivity|].
  destruct (series_counts ys0 xs0 ms H) as [Hy Hx].
  specialize (Hx ltac:(discriminate)).
  assert (Hm : is_multi_dimensional ms = true)
    by (vm_compute in H; injection H as <-; reflexivity).
  rewrite Hm in Hy, Hx.
  destruct Hy as (items & [= <-] & ->). destruct Hx as (items' & [= <-] & ->).
  split; reflexivity.
Defined.


Lemma not_iterable_not_list x : is_iterable x = false -> is_list x = false.
Proof. now destruct x. Qed.



End ConstructionShapes.

Section ConstructionEdges.

Import Np MultiSeries.

(** X6. With a multi-dimensional [ys] whose rows cast, a non-empty list
    of dates as [xs] is recognised as a time series and then handed to
    [_convert_timeseries_to_numpy] one date at a time; a date has no
    [astype], so construction raises [AttributeError]. *)
Theorem multi_dimensional_dates_raise
        (yitems : list pyval) (rows : list ndarray) (x : pyval) (rest : list pyval) :
  Forall (fun r => is_list r = true) yitems ->
  comprehension _cast_as_numpy_floats yitems = Ok rows ->
  Forall (fun d => is_date d = true) (x :: rest) ->
  __init__ (PyList yitems) (PyList (x :: rest)) = Raise AttributeError.
Proof.
  intros Hlists Hrows Hdates. unfold __init__.
  rewrite _is_multi_dimensional_list.
  assert (Hall : forallb is_iterable yitems = true).
  { apply List.forallb_forall. rewrite List.Forall_forall in Hlists.
    intros r Hr. now apply is_list_is_iterable, Hlists. }
  rewrite Hall. cbn [bind iter]. rewrite Hrows. cbn [bind].
  assert (Hts : _is_timeseries_ish (PyList (x :: rest)) = true).
  { apply timeseries_ish_dates_intro. exact Hdates. }
  rewrite Hts. cbn [iter bind comprehension].
  apply Forall_cons in Hdates as [Hx _].
  destruct x; try discriminate Hx; reflexivity.
Qed.

Lemma multi_dimensional_dates_raise_witness :
  let yitems := [PyList [PyInt 1; PyInt 2]; PyList [PyInt 3; PyInt 4]] in
  let dates := [PyDate (mk_date 2024 1 1); PyDate (mk_date 2024 1 2)] in
  Forall (fun r => is_list r = true) yitems /\
  Forall (fun d => is_date d = true) dates /\
  __init__ (PyList yitems) (PyList dates) = Raise AttributeError.
Proof.
  intros yitems dates.
  assert (Hl : Forall (fun r => is_list r = true) yitems) by (repeat constructor).
  assert (Hd : Forall (fun d => is_date d = true) dates) by (repeat constructor).
  split; [exact Hl|]. split; [exact Hd|].
  destruct (comprehension _cast_as_numpy_floats yitems) as [rows| |] eqn:Hrows;
    [| vm_compute in Hrows; discriminate ..].
  exact (multi_dimensional_dates_raise yitems rows _ _ Hl Hrows Hd).
Defined.

Lemma cast_scalar_shape x row :
  is_list x = false -> _cast_as_numpy_floats x = Ok row -> Np.shape row = [].
Proof.
  intros Hx. unfold _cast_as_numpy_floats.
  destruct (Np.array x) as [b| |] eqn:Hb; try discriminate.
  destruct (array_scalar x b Hx Hb) as [Hshape _]. cbn [bind].
  destruct (is_inexact b); [intros [= <-]; exact Hshape|].
  unfold astype_float. destruct (data b) as [l|l|l].
  - intros [= <-]. exact Hshape.
  - intros [= <-]. exact Hshape.
  - destruct (comprehension float_of_object l); simpl; try discriminate.
    intros [= <-]. exact Hshape.
Qed.

(** X7. A [ys] that is not iterable (a number, [None], a date) is stored
    as one unsized (0-d) series: construction needs [xs] to be given (with
    [xs] omitted, [len] of the series raises inside the constructor), the
    object holds one series, and [shape()] raises [TypeError]. *)
Theorem scalar_ys_is_unsized (ys0 xs0 : pyval) (ms : MultiSeries.t) :
  is_iterable ys0 = false ->
  __init__ ys0 xs0 = Ok ms ->
  xs0 <> PyNone /\
  is_multi_dimensional ms = false /\
  __len__ ms = 1 /\
  MultiSeries.shape ms = Raise TypeError.
Proof.
  intros Hy H.
  pose proof (__init___inv _ _ _ H) as (Hm & _ & _ & Hx).
  rewrite (_is_multi_dimensional_scalar ys0 Hy) in Hm. injection Hm as Hm.
  pose proof (__init___ys _ _ _ H) as Hys. rewrite <- Hm in Hys.
  destruct Hys as (row & Hc & Hrows).
  pose proof (cast_scalar_shape ys0 row (not_iterable_not_list ys0 Hy) Hc) as Hshape.
  assert (Hlen : len row = Raise TypeError) by (unfold len; now rewrite Hshape).
  split; [|split; [now symmetry | split]].
  - intros ->. cbn iota in Hx. rewrite Hrows in Hx.
    inversion Hx as [|? ? ? ? (n & Hn & _)]; subst. congruence.
  - unfold __len__. now rewrite Hrows.
  - unfold MultiSeries.shape. rewrite Hrows. cbn [comprehension]. now rewrite Hlen.
Qed.

Lemma scalar_ys_is_unsized_witness :
  exists ms,
    __init__ (PyInt 5) (PyInt 3) = Ok ms /\
    MultiSeries.shape ms = Raise TypeError /\
    __init__ (PyInt 5) PyNone = Raise TypeError.
Proof.
  destruct (__init__ (PyInt 5) (PyInt 3)) as [ms| |] eqn:H;
    [| vm_compute in H; discriminate ..].
  exists ms. split; [reflexivity|].
  destruct (scalar_ys_is_unsized (PyInt 5) (PyInt 3) ms eq_refl H) as (_ & _ & _ & Hs).
  split; [exact Hs | reflexivity].
Defined.

(** X8. Dates (as opposed to datetimes) are converted without loss: a
    list of dates as [xs] of a single series is stored as 86400 times the
    day number of each date, so the stored seconds times [10^9] are the
    nanoseconds of the date and two dates [k] days apart are stored
    [86400 * k] apart. *)
Theorem dates_convert_exactly (ys0 : pyval) (dates : list date) (ms : MultiSeries.t) :
  __init__ ys0 (PyList (map PyDate dates)) = Ok ms ->
  is_multi_dimensional ms = false ->
  xs ms = [mk_ndarray [length dates]
             (IntData (map (fun d => 86400 * days_from_civil d) dates))].
Proof.
  intros H Hmulti.
  assert (Hts : _is_timeseries_ish (PyList (map PyDate dates)) = true).
  { apply timeseries_ish_dates_intro. apply List.Forall_forall.
    intros x Hx. apply in_map_iff in Hx as (d & <- & _). reflexivity. }
  pose proof (__init___xs_given _ _ _ H ltac:(discriminate)) as Hx.
  cbv zeta in Hx. rewrite Hts, Hmulti in Hx. destruct Hx as (row & Hc & ->).
  cbn [_convert_timeseries_to_numpy] in Hc.
  destruct (Pd.to_datetime (map PyDate dates)) as [stamps| |] eqn:Hp;
    simpl in Hc; try discriminate.
  injection Hc as <-. apply to_datetime_inv in Hp.
  assert (Hs : map (fun ns => ns / 10 ^ 9) stamps
               = map (fun d => 86400 * days_from_civil d) dates).
  { clear -Hp. remember (map PyDate dates) as items eqn:E.
    revert dates E. induction Hp as [|x ns items stamps Hx _ IH]; intros dates E.
    - destruct dates; [reflexivity | discriminate].
    - destruct dates as [|d dates]; [discriminate|]. injection E as -> ->.
      simpl in Hx. injection Hx as <-. cbn [map]. rewrite (IH dates eq_refl).
      f_equal. unfold NS_PER_DAY, NS_PER_SECOND.
      replace (days_from_civil d * (86400 * 10 ^ 9))
        with (86400 * days_from_civil d * 10 ^ 9) by ring.
      apply Z.div_mul. discriminate. }
  rewrite Hs, !length_map. reflexivity.
Qed.

Lemma dates_convert_exactly_witness :
  let dates := [mk_date 2024 1 1; mk_date 2024 1 2; mk_date 1969 12 31] in
  exists ms,
    __init__ (PyList [PyInt 1; PyInt 2; PyInt 3]) (PyList (map PyDate dates)) = Ok ms /\
    is_multi_dimensional ms = false /\
    xs ms = [mk_ndarray [3%nat] (IntData [1704067200; 1704153600; -86400])].
Proof.
  intros dates.
  destruct (__init__ (PyList [PyInt 1; PyInt 2; PyInt 3]) (PyList (map PyDate dates)))
    as [ms| |] eqn:H; [| vm_compute in H; discriminate ..].
  exists ms.
  assert (Hm : is_multi_dimensional ms = false)
    by (vm_compute in H; injection H as <-; reflexivity).
  split; [reflexivity|]. split; [exact Hm|].
  rewrite (dates_convert_exactly _ dates ms H Hm). reflexivity.
Defined.

End ConstructionEdges.

(* ================================================================== *)
(** * [MultiSeries]: further properties of the log transforms and of
      the minimum and maximum                                           *)
(* ================================================================== *)

Section LogTransformsCompose.

Import Np MultiSeries.

Variable log10 : float -> float.

Lemma comprehension_len_log10 rows :
  comprehension len (map (log10_row log10) rows) = comprehension len rows.
Proof.
  induction rows as [|a rows IH]; [reflexivity|].
  cbn [map comprehension]. rewrite IH. reflexivity.
Qed.

(** X9. On an object that is not a time series and whose series are
    arrays (a newly constructed object, say) the two log transforms
    commute: taking the logarithm of the x axis and then of the y axis
    leaves the object in the same state as the other order, and neither
    raises.  Whenever it returns, the x transform leaves the y series
    alone and the y transform the x series, and each leaves both flags,
    the number of series and [shape()] as they were. *)
Theorem log_transforms_commute (ms : MultiSeries.t) :
  reachable log10 ms ->
  x_is_timeseries ms = false ->
  let x_log := set_x_axis_to_log10 log10 in
  let y_log := set_y_axis_to_log10 log10 in
  (Forall is_array (xs ms) -> Forall is_array (ys ms) ->
   (x_log ;;; y_log)%method ms = (y_log ;;; x_log)%method ms /\
   fst ((x_log ;;; y_log)%method ms) = Ok tt) /\
  (forall ms', x_log ms = (Ok tt, ms') ->
     ys ms' = ys ms /\
     is_multi_dimensional ms' = is_multi_dimensional ms /\
     x_is_timeseries ms' = x_is_timeseries ms /\
     __len__ ms' = __len__ ms /\
     MultiSeries.shape ms' = MultiSeries.shape ms) /\
  (forall ms', y_log ms = (Ok tt, ms') ->
     xs ms' = xs ms /\
     is_multi_dimensional ms' = is_multi_dimensional ms /\
     x_is_timeseries ms' = x_is_timeseries ms /\
     __len__ ms' = __len__ ms /\
     MultiSeries.shape ms' = MultiSeries.shape ms).
Proof.
  intros Hr Hts x_log y_log.
  destruct (reachable_numeric log10 ms Hr) as [Hy Hx].
  pose proof (set_x_axis_to_log10_run log10 ms Hx) as Hxrun.
  pose proof (set_y_axis_to_log10_run log10 ms (float_row_numeric _ Hy)) as Hyrun.
  rewrite Hts in Hxrun.
  split; [|split].
  - intros Hxa Hya. apply all_arrays_Forall in Hxa, Hya.
    rewrite Hxa in Hxrun. rewrite Hya in Hyrun.
    unfold mbind, x_log, y_log. rewrite Hxrun, Hyrun.
    rewrite (set_y_axis_to_log10_run log10 (set_xs _ ms))
      by (apply float_row_numeric; exact Hy).
    rewrite (set_x_axis_to_log10_run log10 (set_ys _ ms)) by exact Hx.
    cbn [x_is_timeseries set_ys set_xs xs ys is_multi_dimensional].
    rewrite Hts, Hxa, Hya. split; reflexivity.
  - unfold x_log. rewrite Hxrun. intros ms'.
    destruct (all_arrays (xs ms)); [|discriminate]. intros [= <-].
    unfold __len__, MultiSeries.shape.
    cbn [set_xs xs ys is_multi_dimensional x_is_timeseries]. repeat split; auto.
  - unfold y_log. rewrite Hyrun. intros ms'.
    destruct (all_arrays (ys ms)); [|discriminate]. intros [= <-].
    unfold __len__, MultiSeries.shape.
    cbn [set_ys xs ys is_multi_dimensional x_is_timeseries].
    rewrite length_map, comprehension_len_log10. repeat split; auto.
Qed.

End LogTransformsCompose.

Lemma log_transforms_commute_witness :
  let ys0 := PyList [PyInt 100; PyInt 0; PyInt 10] in
  let xs0 := PyList [PyInt 1; PyInt 10; PyInt 1000] in
  exists ms,
    MultiSeries.__init__ ys0 xs0 = Ok ms /\
    MultiSeries.x_is_timeseries ms = false /\
    (MultiSeries.set_x_axis_to_log10 NpEval.log10_floor ;;;
     MultiSeries.set_y_axis_to_log10 NpEval.log10_floor)%method ms
    = (MultiSeries.set_y_axis_to_log10 NpEval.log10_floor ;;;
       MultiSeries.set_x_axis_to_log10 NpEval.log10_floor)%method ms.
Proof.
  intros ys0 xs0.
  destruct (MultiSeries.__init__ ys0 xs0) as [ms| |] eqn:H;
    [| vm_compute in H; discriminate ..].
  exists ms.
  assert (Hts : MultiSeries.x_is_timeseries ms = false)
    by (vm_compute in H; injection H as <-; reflexivity).
  split; [reflexivity|]. split; [exact Hts|].
  destruct (__init___arrays ys0 xs0 ms H) as [Hya Hxa].
  exact (proj1 (proj1 (log_transforms_commute NpEval.log10_floor ms
                         (MultiSeries.reach_init _ ys0 xs0 ms H) Hts) Hxa Hya)).
Defined.

Section LogTransformNumbers.

Import Np MultiSeries.

Variable log10 : float -> float.

Lemma flt_zero_not_nan v : flt zero v = true -> isnan v = false.
Proof. destruct v; simpl; try reflexivity. discriminate. Qed.

Lemma numbers_of_log10_cells cells :
  log10 nan = nan ->
  (forall v, flt zero v = true -> isnan (log10 v) = false) ->
  List.filter (fun w => negb (isnan w)) (map (log10_cell log10) cells)
  = map log10 (List.filter (fun v => flt zero v) cells).
Proof.
  intros Hnan Hpos. induction cells as [|v cells IH]; [reflexivity|].
  cbn [map List.filter].
  destruct (float_sign_cases v) as [Hle | [[Hlt Hle] | ->]].
  - assert (Hlt : flt zero v = false).
    { revert Hle. destruct v as [s|s| |s m e]; try destruct s; cbn;
        try reflexivity; discriminate. }
    assert (Hc : log10_cell log10 v = nan)
      by (unfold log10_cell; now rewrite Hle).
    rewrite Hc, Hlt. cbn. exact IH.
  - assert (Hc : log10_cell log10 v = log10 v)
      by (unfold log10_cell; now rewrite Hle).
    rewrite Hc, Hlt, (Hpos v Hlt). cbn. now rewrite IH.
  - assert (Hc : log10_cell log10 nan = nan) by (unfold log10_cell; exact Hnan).
    rewrite Hc. cbn. exact IH.
Qed.

Lemma log10_cells_nan_unless_positive cells :
  log10 nan = nan ->
  (forall v, flt zero v = true -> isnan (log10 v) = false) ->
  Forall2 (nan_unless_positive log10) cells (map (log10_cell log10) cells).
Proof.
  intros Hnan Hpos. induction cells as [|v cells IH]; cbn [map]; constructor;
    [|exact IH].
  unfold nan_unless_positive, log10_cell.
  destruct (float_sign_cases v) as [Hle | [[Hlt Hle] | ->]].
  - assert (Hlt : flt zero v = false).
    { revert Hle. destruct v as [s|s| |s m e]; try destruct s; cbn;
        try reflexivity; discriminate. }
    rewrite Hle, Hlt, Hnan. split; [reflexivity | discriminate].
  - rewrite Hle, Hlt, (Hpos v Hlt). split; reflexivity.
  - cbn. rewrite Hnan. split; [reflexivity | discriminate].
Qed.

(** X10. When no y series is an array scalar, [set_y_axis_to_log10]
    returns and keeps the shape of every y series; in the stored series a
    cell is NaN exactly when the cell it replaces was not positive (NaN,
    zero or negative) and is the logarithm of that cell otherwise, so the
    numbers the series holds afterwards are the logarithms of the positive
    numbers it held before, in the same order.  [np.log10] is assumed to
    map NaN to NaN and a positive number to a number. *)
Theorem numbers_after_log_are_logs_of_positives (ms : MultiSeries.t) :
  log10 nan = nan ->
  (forall v, flt zero v = true -> isnan (log10 v) = false) ->
  reachable log10 ms ->
  Forall is_array (ys ms) ->
  exists ms',
    set_y_axis_to_log10 log10 ms = (Ok tt, ms') /\
    Forall2 (fun row row' =>
               Np.shape row' = Np.shape row /\
               (exists cells cells',
                  data row = FloatData cells /\ data row' = FloatData cells' /\
                  Forall2 (nan_unless_positive log10) cells cells') /\
               numbers_of [row']
               = map log10 (List.filter (fun v => flt zero v)
                                        (cells_as_floats (data row))))
            (ys ms) (ys ms').
Proof.
  intros Hnan Hpos Hr Harr. destruct (reachable_numeric log10 ms Hr) as [Hy _].
  apply all_arrays_Forall in Harr.
  eexists. split.
  { rewrite (set_y_axis_to_log10_run log10 ms (float_row_numeric _ Hy)), Harr.
    reflexivity. }
  cbn [set_ys ys]. clear Hr Harr.
  induction Hy as [|row rows [cells Hc] _ IH]; cbn [map]; constructor; [|exact IH].
  split; [reflexivity|]. split.
  - exists cells. eexists. split; [exact Hc|]. split; [reflexivity|].
    rewrite Hc. cbn [cells_as_floats].
    now apply log10_cells_nan_unless_positive.
  - unfold numbers_of. cbn [map concat data log10_row]. rewrite app_nil_r.
    cbn [cells_as_floats]. now apply numbers_of_log10_cells.
Qed.

End LogTransformNumbers.

Lemma log10_floor_number v :
  flt zero v = true -> isnan (NpEval.log10_floor v) = false.
Proof.
  destruct v as [s|s| |s m e]; try destruct s;
    try (intros H; discriminate H); try reflexivity.
  intros _. unfold NpEval.log10_floor.
  destruct (PyFormat.fraction_of m e) as [num den].
  pose proof (decimal_exponent_from_bounds 800 num den (-400)) as Hb.
  fold (PyFormat.decimal_exponent num den) in Hb.
  pose proof (float_of_Z_small_finite (PyFormat.decimal_exponent num den)
                ltac:(lia)) as Hf.
  destruct (float_of_Z (PyFormat.decimal_exponent num den)); try discriminate Hf;
    reflexivity.
Qed.

Lemma numbers_after_log_witness :
  let ys0 := PyList [PyInt 100; PyInt 0; PyFloat nan; PyInt (-1); PyInt 1000] in
  exists ms ms',
    MultiSeries.__init__ ys0 PyNone = Ok ms /\
    MultiSeries.set_y_axis_to_log10 NpEval.log10_floor ms = (Ok tt, ms') /\
    numbers_of (MultiSeries.ys ms') = [float_of_Z 2; float_of_Z 3].
Proof.
  intros ys0.
  destruct (MultiSeries.__init__ ys0 PyNone) as [ms| |] eqn:H;
    [| vm_compute in H; discriminate ..].
  destruct (numbers_after_log_are_logs_of_positives NpEval.log10_floor ms
              eq_refl log10_floor_number (MultiSeries.reach_init _ ys0 PyNone ms H)
              (proj1 (__init___arrays ys0 PyNone ms H)))
    as (ms' & Hrun & _).
  exists ms, ms'. split; [reflexivity|]. split; [exact Hrun|].
  vm_compute in H. injection H as <-.
  vm_compute in Hrun. injection Hrun as <-. vm_compute. reflexivity.
Defined.

Section ExtremaFailures.

Import Np MultiSeries.

Lemma _safe_max_float_outcome a :
  float_row a ->
  (numbers_of [a] = [] /\ _safe_max a = Raise ValueError) \/
  (numbers_of [a] <> [] /\ exists m, _safe_max a = Ok (NFloat m)).
Proof.
  intros [cells Hc]. rewrite (_safe_max_float a cells Hc).
  unfold numbers_of. cbn [map concat]. rewrite app_nil_r, Hc. cbn [cells_as_floats].
  destruct (List.filter _ cells); [left | right]; split; eauto; discriminate.
Qed.

Lemma _safe_min_float_outcome a :
  float_row a ->
  (numbers_of [a] = [] /\ _safe_min a = Raise ValueError) \/
  (numbers_of [a] <> [] /\ exists m, _safe_min a = Ok (NFloat m)).
Proof.
  intros [cells Hc]. rewrite (_safe_min_float a cells Hc).
  unfold numbers_of. cbn [map concat]. rewrite app_nil_r, Hc. cbn [cells_as_floats].
  destruct (List.filter _ cells); [left | right]; split; eauto; discriminate.
Qed.

(** A series without a number makes the comprehension over the series
    raise. *)
Lemma reduction_raises (reduce_row : ndarray -> outcome number) rows :
  (forall a, float_row a ->
     (numbers_of [a] = [] /\ reduce_row a = Raise ValueError) \/
     (numbers_of [a] <> [] /\ exists m, reduce_row a = Ok (NFloat m))) ->
  Forall float_row rows ->
  Exists (fun a => numbers_of [a] = []) rows ->
  comprehension reduce_row rows = Raise ValueError.
Proof.
  intros Hrow Hf. induction Hf as [|a rows Ha _ IH]; intros Hex.
  - inversion Hex.
  - cbn [comprehension].
    destruct (Hrow a Ha) as [[Hempty ->] | [Hne (m & ->)]]; [reflexivity|].
    cbn [bind]. apply Exists_cons in Hex as [Hex | Hex]; [contradiction|].
    now rewrite (IH Hex).
Qed.

Lemma each_or_some_empty rows :
  Forall (fun a => numbers_of [a] <> []) rows \/
  Exists (fun a => numbers_of [a] = []) rows.
Proof.
  induction rows as [|a rows [IH | IH]].
  - left. constructor.
  - destruct (numbers_of [a]) eqn:E.
    + right. now apply Exists_cons_hd.
    + left. constructor; [congruence | exact IH].
  - right. now apply Exists_cons_tl.
Qed.

Lemma maximum_raises_iff rows :
  Forall float_row rows ->
  ((rs <- comprehension _safe_max rows ;; py_max rs) = Raise ValueError <->
   rows = [] \/ Exists (fun a => numbers_of [a] = []) rows).
Proof.
  intros Hf. split.
  - intros Hraise. destruct rows as [|a rows]; [now left|]. right.
    destruct (each_or_some_empty (a :: rows)) as [Hall | Hex]; [|exact Hex].
    destruct (maximum_of_float_rows (a :: rows) Hf ltac:(discriminate) Hall)
      as (m & Hm & _). congruence.
  - intros [-> | Hex]; [reflexivity|].
    now rewrite (reduction_raises _safe_max rows _safe_max_float_outcome Hf Hex).
Qed.

Lemma minimum_raises_iff rows :
  Forall float_row rows ->
  ((rs <- comprehension _safe_min rows ;; py_min rs) = Raise ValueError <->
   rows = [] \/ Exists (fun a => numbers_of [a] = []) rows).
Proof.
  intros Hf. split.
  - intros Hraise. destruct rows as [|a rows]; [now left|]. right.
    destruct (each_or_some_empty (a :: rows)) as [Hall | Hex]; [|exact Hex].
    destruct (minimum_of_float_rows (a :: rows) Hf ltac:(discriminate) Hall)
      as (m & Hm & _). congruence.
  - intros [-> | Hex]; [reflexivity|].
    now rewrite (reduction_raises _safe_min rows _safe_min_float_outcome Hf Hex).
Qed.

Variable log10 : float -> float.

(** X11. [y_max] and [y_min] raise [ValueError] exactly when the object
    holds no y series or some y series holds no number (it is empty, or
    all its entries are NaN); in every other case they return a float. *)
Theorem y_extrema_raise_iff (ms : MultiSeries.t) :
  reachable log10 ms ->
  let failing :=
    ys ms = [] \/ Exists (fun a => numbers_of [a] = []) (ys ms) in
  (y_max ms = Raise ValueError <-> failing) /\
  (y_min ms = Raise ValueError <-> failing) /\
  (~ failing -> exists lo hi, y_min ms = Ok (NFloat lo) /\ y_max ms = Ok (NFloat hi)).
Proof.
  intros Hr failing. destruct (reachable_numeric log10 ms Hr) as [Hy _].
  split; [apply maximum_raises_iff, Hy|]. split; [apply minimum_raises_iff, Hy|].
  intros Hok.
  assert (Hne : ys ms <> []) by (intros E; apply Hok; now left).
  assert (Hall : Forall (fun a => numbers_of [a] <> []) (ys ms)).
  { destruct (each_or_some_empty (ys ms)) as [H | H]; [exact H|].
    exfalso. apply Hok. now right. }
  destruct (minimum_of_float_rows _ Hy Hne Hall) as (lo & Hlo & _).
  destruct (maximum_of_float_rows _ Hy Hne Hall) as (hi & Hhi & _).
  exists lo, hi. split; assumption.
Qed.

(** X12. Taking the logarithm of the y axis and then asking for the
    maximum or the minimum raises [ValueError] as soon as some y series
    has no positive entry: the transform turns all its entries into NaN.
    [np.log10] is assumed to map NaN to NaN. *)
Theorem extrema_after_log_raise (ms ms' : MultiSeries.t) :
  log10 nan = nan ->
  reachable log10 ms ->
  Exists (fun row => Forall (fun v => flt zero v = false)
                            (cells_as_floats (data row))) (ys ms) ->
  set_y_axis_to_log10 log10 ms = (Ok tt, ms') ->
  y_max ms' = Raise ValueError /\ y_min ms' = Raise ValueError.
Proof.
  intros Hnan Hr Hex Hrun.
  destruct (reachable_numeric log10 ms Hr) as [Hy _].
  rewrite (set_y_axis_to_log10_run log10 ms (float_row_numeric _ Hy)) in Hrun.
  destruct (all_arrays (ys ms)); [|discriminate Hrun].
  injection Hrun as <-.
  assert (Hf' : Forall float_row (ys (set_ys (map (log10_row log10) (ys ms)) ms)))
    by (cbn [set_ys ys]; apply Forall_float_row_map).
  assert (Hempty : Exists (fun a => numbers_of [a] = [])
                          (ys (set_ys (map (log10_row log10) (ys ms)) ms))).
  { cbn [set_ys ys]. clear Hf' Hy Hr.
    induction Hex as [row rows Hrow | row rows _ IH]; cbn [map].
    - apply Exists_cons_hd. unfold numbers_of, log10_row.
      cbn [map concat data cells_as_floats]. rewrite app_nil_r.
      induction Hrow as [|v cells Hv _ IHc]; [reflexivity|].
      cbn [map List.filter].
      assert (Hc : log10_cell log10 v = nan).
      { unfold log10_cell.
        destruct (float_sign_cases v) as [Hle | [[Hlt _] | ->]];
          [now rewrite Hle | congruence | exact Hnan]. }
      rewrite Hc. exact IHc.
    - now apply Exists_cons_tl. }
  split.
  - apply maximum_raises_iff; [exact Hf' | now right].
  - apply minimum_raises_iff; [exact Hf' | now right].
Qed.

End ExtremaFailures.

Lemma y_extrema_raise_iff_witness :
  let ys0 := PyList [PyList [PyInt 1; PyInt 2]; PyList [PyFloat nan]] in
  exists ms,
    MultiSeries.__init__ ys0 PyNone = Ok ms /\
    MultiSeries.y_max ms = Raise ValueError.
Proof.
  intros ys0.
  destruct (MultiSeries.__init__ ys0 PyNone) as [ms| |] eqn:H;
    [| vm_compute in H; discriminate ..].
  exists ms. split; [reflexivity|].
  apply (proj1 (y_extrema_raise_iff NpEval.log10_floor ms
                  (MultiSeries.reach_init _ ys0 PyNone ms H))).
  right. vm_compute in H. injection H as <-.
  apply Exists_cons_tl, Exists_cons_hd. reflexivity.
Defined.

Lemma extrema_after_log_raise_witness :
  let ys0 := PyList [PyList [PyInt 5; PyInt 50]; PyList [PyInt 0; PyInt (-3)]] in
  exists ms ms',
    MultiSeries.__init__ ys0 PyNone = Ok ms /\
    MultiSeries.y_max ms = Ok (Np.NFloat (float_of_Z 50)) /\
    MultiSeries.set_y_axis_to_log10 NpEval.log10_floor ms = (Ok tt, ms') /\
    MultiSeries.y_max ms' = Raise ValueError.
Proof.
  intros ys0.
  destruct (MultiSeries.__init__ ys0 PyNone) as [ms| |] eqn:H;
    [| vm_compute in H; discriminate ..].
  destruct (MultiSeries.set_y_axis_to_log10 NpEval.log10_floor ms) as [r ms'] eqn:Hrun.
  assert (Hr : r = Ok tt).
  { vm_compute in H. injection H as <-. vm_compute in Hrun. now injection Hrun as <- _. }
  subst r. exists ms, ms'. split; [reflexivity|].
  split; [vm_compute in H; injection H as <-; vm_compute; reflexivity|].
  split; [exact Hrun|].
  apply (extrema_after_log_raise NpEval.log10_floor ms ms' eq_refl
           (MultiSeries.reach_init _ ys0 PyNone ms H)); [|exact Hrun].
  vm_compute in H. injection H as <-.
  apply Exists_cons_tl, Exists_cons_hd. repeat constructor.
Defined.

(* ================================================================== *)
(** * [LabelSet]: further properties of the string representation       *)
(* ================================================================== *)

Section FormattingEdges.

Import LabelSet.

Variable format_g : nat -> float -> string.
Variable str : float -> string.

Lemma first_format_error_none numbers :
  first_format_error numbers = None <-> Forall formattable numbers.
Proof.
  induction numbers as [|n numbers IH]; cbn [first_format_error].
  - split; [constructor | reflexivity].
  - rewrite Forall_cons, <- IH.
    destruct n as [[s|s| |s m e]|]; cbn; split;
      try discriminate; try tauto; intros [H _]; discriminate H.
Qed.

Lemma format_present_raises numbers e :
  first_format_error numbers = Some e ->
  comprehension (fun n => _float_format format_g n 0) (present numbers) = Raise e.
Proof.
  induction numbers as [|n numbers IH]; cbn [first_format_error]; [discriminate|].
  destruct n as [v|]; [|exact IH].
  change (present (Some v :: numbers)) with (v :: present numbers).
  cbn [comprehension]. unfold _float_format at 1. cbn [Nat.eqb].
  destruct v as [s|s| |s m e']; cbn [format_error int_of_float bind].
  - intros H. now rewrite (IH H).
  - intros [= <-]. reflexivity.
  - intros [= <-]. reflexivity.
  - intros H. now rewrite (IH H).
Qed.

(** X13. [_find_shortest_string_representation] returns exactly when
    every label is missing or finite.  Otherwise it raises while trying
    precision 0, with the exception of the first label that is NaN
    ([ValueError]) or infinite ([OverflowError]); the other precisions and
    the naive conversion, which could format such a label, are never
    reached. *)
Theorem shortest_representation_outcome (numbers : list (option float)) :
  match first_format_error numbers with
  | Some e => _find_shortest_string_representation format_g str numbers = Raise e
  | None =>
      exists strs,
        _find_shortest_string_representation format_g str numbers = Ok strs /\
        length strs = length numbers
  end.
Proof.
  destruct (first_format_error numbers) as [e|] eqn:E.
  - unfold _find_shortest_string_representation. cbn [seq try_precisions].
    now rewrite (format_present_raises numbers e E).
  - apply first_format_error_none in E.
    destruct (strings_exist format_g str numbers E) as [strs Hs].
    exists strs. split; [exact Hs|].
    exact (try_precisions_length format_g str _ _ _ Hs).
Qed.

Lemma present_app l1 l2 : present (l1 ++ l2) = present l1 ++ present l2.
Proof.
  unfold present. induction l1 as [|n l1 IH]; [reflexivity|].
  destruct n as [v|]; cbn; [f_equal|]; exact IH.
Qed.

Lemma present_some v l : present (Some v :: l) = v :: present l.
Proof. reflexivity. Qed.

(** X14. Two labels with the same value cannot be told apart at any
    precision, so the search falls through to the naive conversion: the
    result is [str] of every label, the repeated one included. *)
Theorem repeated_label_gives_naive_strings
        (before between after : list (option float)) (v : float) :
  let numbers := before ++ Some v :: between ++ Some v :: after in
  Forall formattable numbers ->
  _find_shortest_string_representation format_g str numbers
  = Ok (Claimed.naive str numbers).
Proof.
  intros numbers Hf.
  destruct (try_precisions_spec format_g str numbers Hf 10 0)
    as (strs & Hrun & [(p & _ & Hd & _) | (_ & ->)]); [exfalso | exact Hrun].
  unfold numbers in Hd.
  rewrite present_app, present_some, present_app, present_some in Hd.
  rewrite map_app in Hd. cbn [map] in Hd.
  rewrite map_app in Hd. cbn [map] in Hd.
  apply NoDup_app in Hd as (_ & _ & Hd).
  apply NoDup_cons in Hd as [Hd _]. apply Hd.
  apply list_elem_of_In, in_or_app. right. now left.
Qed.

End FormattingEdges.

Lemma repeated_label_witness :
  let numbers := [Some (float_of_Z 1); Some (float_of_Z 2); Some (float_of_Z 1)] in
  Forall formattable numbers /\
  LabelSet._find_shortest_string_representation
    PyFormat.format_g PyFormat.str_float numbers
  = Ok ["1.0"; "2.0"; "1.0"].
Proof.
  intros numbers.
  assert (Hf : Forall formattable numbers) by (repeat constructor).
  split; [exact Hf|].
  pose proof (repeated_label_gives_naive_strings PyFormat.format_g PyFormat.str_float
                [] [Some (float_of_Z 2)] [] (float_of_Z 1) Hf) as H.
  cbn [app] in H. unfold numbers. rewrite H. vm_compute. reflexivity.
Defined.


(** X15. With at most one label that is not missing there is nothing to
    tell apart: precision 0 is chosen, so the label is shown as the grouped
    integer obtained by truncating it towards zero (12.7 as [12]), and a
    list of missing labels only gives empty strings. *)
Theorem lone_label_is_truncated_integer
        (format_g : nat -> float -> string) (str : float -> string)
        (numbers : list (option float)) :
  Forall formattable numbers ->
  (length (LabelSet.present numbers) <= 1)%nat ->
  LabelSet._find_shortest_string_representation format_g str numbers
  = Ok (Claimed.rendered_at 0 numbers).
Proof.
  intros Hf Hlen. unfold LabelSet._find_shortest_string_representation.
  change (seq 0 10) with (0%nat :: seq 1 9). cbn [LabelSet.try_precisions].
  rewrite (format_present format_g 0 _ (present_formattable _ Hf)). cbn [bind].
  assert (Hd : LabelSet.all_distinct
                 (map (label_string format_g 0) (LabelSet.present numbers)) = true).
  { apply all_distinct_NoDup.
    destruct (LabelSet.present numbers) as [|v [|w rest]]; cbn [map].
    - constructor.
    - apply NoDup_singleton.
    - cbn in Hlen. lia. }
  rewrite Hd, (format_all format_g 0 numbers Hf). f_equal.
  apply map_ext_in. intros [v|] Hin; [|reflexivity].
  rewrite List.Forall_forall in Hf. exact (label_string_0 format_g v (Hf _ Hin)).
Qed.

Lemma lone_label_witness :
  let numbers := [None; Some (PyFormat.float_of_decimal 127 (-1)); None] in
  Forall formattable numbers /\
  (length (LabelSet.present numbers) <= 1)%nat /\
  LabelSet._find_shortest_string_representation
    PyFormat.format_g PyFormat.str_float numbers
  = Ok [""; "12"; ""].
Proof.
  intros numbers.
  assert (Hf : Forall formattable numbers)
    by (repeat constructor; vm_compute; reflexivity).
  assert (Hlen : (length (LabelSet.present numbers) <= 1)%nat) by (cbn; lia).
  split; [exact Hf|]. split; [exact Hlen|].
  rewrite (lone_label_is_truncated_integer PyFormat.format_g PyFormat.str_float
             numbers Hf Hlen).
  vm_compute. reflexivity.
Defined.

(* ================================================================== *)
(** * [LabelSet]: the cache                                             *)
(* ================================================================== *)

Section LabelSetCache.

Import LabelSet.

Variable discretize : option float -> float -> float -> Z -> outcome Z.
Variable format_g : nat -> float -> string.
Variable str : float -> string.

Lemma same_but_overlap_refl s : same_but_overlap s s.
Proof. unfold same_but_overlap. now destruct s. Qed.

Lemma same_but_overlap_set b s : same_but_overlap s (set_render_does_overlap b s).
Proof. reflexivity. Qed.

Lemma same_but_overlap_trans s1 s2 s3 :
  same_but_overlap s1 s2 -> same_but_overlap s2 s3 -> same_but_overlap s1 s3.
Proof.
  unfold same_but_overlap. intros H12 H23. rewrite H23, H12. reflexivity.
Qed.

(** The loop body and the loop touch nothing but the overlap flag,
    whether they return or raise. *)
Lemma place_label_same_but_overlap str_labels entry line s :
  same_but_overlap s (snd (place_label discretize str_labels entry line s)).
Proof.
  unfold place_label, mbind, lift, gets, modify, ret. destruct entry as [i label].
  destruct (item str_labels i) as [str_label| |]; cbn [snd];
    try apply same_but_overlap_refl.
  destruct (discretize label (x_min s) (x_max s) (available_space s))
    as [position| |]; cbn [snd]; try apply same_but_overlap_refl.
  destruct (_ && _); [apply same_but_overlap_set|].
  destruct (_ && _); [apply same_but_overlap_set | apply same_but_overlap_refl].
Qed.

Lemma for_each_same_but_overlap str_labels entries : forall line s,
  same_but_overlap s
    (snd (for_each (place_label discretize str_labels) entries line s)).
Proof.
  induction entries as [|entry entries IH]; intros line s; cbn [for_each].
  - apply same_but_overlap_refl.
  - unfold mbind.
    pose proof (place_label_same_but_overlap str_labels entry line s) as Hstep.
    destruct (place_label discretize str_labels entry line s) as [[line'|e|] s1];
      cbn [snd] in Hstep |- *; [|exact Hstep ..].
    exact (same_but_overlap_trans _ _ _ Hstep (IH line' s1)).
Qed.

(** What [_render_and_measure_to_cache] leaves behind. *)
Lemma _render_and_measure_to_cache_after s r s' :
  _render_and_measure_to_cache discretize format_g str s = (r, s') ->
  (_results_already_in_cache s = true -> r = Ok tt /\ s' = s) /\
  (_results_already_in_cache s = false ->
   match r with
   | Ok _ =>
       _results_already_in_cache s' = true /\
       exists line, _rendered_result s' = [line]
   | _ => same_but_overlap s s'
   end).
Proof.
  unfold _render_and_measure_to_cache, mbind at 1, gets at 1.
  destruct (_results_already_in_cache s) eqn:Hc.
  - unfold ret. intros [= <- <-]. split; [auto | discriminate].
  - intros Hrun. split; [discriminate|]. intros _. revert Hrun.
    unfold mbind at 1, gets at 1. unfold mbind at 1, lift at 1.
    destruct (_find_shortest_string_representation format_g str (labels s))
      as [strs| |].
    + unfold mbind at 1.
      pose proof (for_each_same_but_overlap strs (enumerate (labels s)) "" s) as Hloop.
      destruct (for_each (place_label discretize strs) (enumerate (labels s)) "" s)
        as [[line|e|] s1]; cbn [snd] in Hloop.
      * unfold mbind, modify. intros [= <- <-]. cbn. eauto.
      * intros [= <- <-]. exact Hloop.
      * intros [= <- <-]. exact Hloop.
    + intros [= <- <-]. apply same_but_overlap_refl.
    + intros [= <- <-]. apply same_but_overlap_refl.
Qed.

End LabelSetCache.

(** X16. Once [render] has returned, the result is never computed again:
    every later [render] and [compute_if_render_does_overlap] on the
    object returns the stored line and flag and leaves the object alone,
    even if its labels, its domain or the functions it calls have changed
    in the meantime.  The first [render] of an object returns exactly one
    line. *)
Theorem rendered_result_is_never_recomputed
        (discretize discretize' : option float -> float -> float -> Z -> outcome Z)
        (format_g format_g' : nat -> float -> string) (str str' : float -> string)
        (s s' : LabelSet.t) (lines : list string) :
  LabelSet.render discretize format_g str s = (Ok lines, s') ->
  (LabelSet._results_already_in_cache s = false -> exists line, lines = [line]) /\
  forall changed : LabelSet.t,
    LabelSet._results_already_in_cache changed = LabelSet._results_already_in_cache s' ->
    LabelSet._rendered_result changed = LabelSet._rendered_result s' ->
    LabelSet._render_does_overlap changed = LabelSet._render_does_overlap s' ->
    LabelSet.render discretize' format_g' str' changed = (Ok lines, changed) /\
    LabelSet.compute_if_render_does_overlap discretize' format_g' str' changed
    = (Ok (LabelSet._render_does_overlap s'), changed).
Proof.
  unfold LabelSet.render at 1, mbind, gets.
  destruct (LabelSet._render_and_measure_to_cache discretize format_g str s)
    as [[[]|e|] s1] eqn:Hrun; try discriminate.
  intros [= <- <-].
  destruct (_render_and_measure_to_cache_after discretize format_g str s _ _ Hrun)
    as [Hcached Hfresh].
  assert (Hc : LabelSet._results_already_in_cache s1 = true).
  { destruct (LabelSet._results_already_in_cache s) eqn:E.
    - destruct (Hcached eq_refl) as [_ ->]. exact E.
    - exact (proj1 (Hfresh eq_refl)). }
  split.
  - intros E. rewrite E in Hfresh. exact (proj2 (Hfresh eq_refl)).
  - intros changed H1 H2 H3. rewrite Hc in H1.
    destruct (cached_run discretize' format_g' str' changed H1) as [-> ->].
    now rewrite H2, H3.
Qed.

Lemma rendered_result_is_never_recomputed_witness :
  let s := LabelSet.__init__ [Some zero; Some (float_of_Z 10)] zero (float_of_Z 10) 20 false in
  exists s',
    LabelSet.render Discretizer.discretize PyFormat.format_g PyFormat.str_float s
    = (Ok [" 0                  10"], s') /\
    LabelSet.render (fun _ _ _ _ => Raise TypeError) PyFormat.format_g PyFormat.str_float s'
    = (Ok [" 0                  10"], s').
Proof.
  intros s.
  destruct (LabelSet.render Discretizer.discretize PyFormat.format_g PyFormat.str_float s)
    as [r s'] eqn:Hrun.
  assert (Hr : r = Ok [" 0                  10"])
    by (vm_compute in Hrun; now injection Hrun as <- _).
  subst r. exists s'. split; [reflexivity|].
  destruct (rendered_result_is_never_recomputed
              Discretizer.discretize (fun _ _ _ _ => Raise TypeError)
              PyFormat.format_g PyFormat.format_g PyFormat.str_float PyFormat.str_float
              s s' _ Hrun) as [_ Hlater].
  exact (proj1 (Hlater s' eq_refl eq_refl eq_refl)).
Defined.

(** X17. A [render] or [compute_if_render_does_overlap] that does not
    return caches nothing: on an object without a cached result, the
    object afterwards differs from the object before at most in the
    overlap flag, so the cache mark is still unset, no line is stored, and
    the next call starts from scratch. *)
Theorem failed_render_caches_nothing
        (discretize : option float -> float -> float -> Z -> outcome Z)
        (format_g : nat -> float -> string) (str : float -> string)
        (s : LabelSet.t) :
  LabelSet._results_already_in_cache s = false ->
  (is_ok (fst (LabelSet.render discretize format_g str s)) = false ->
   same_but_overlap s (snd (LabelSet.render discretize format_g str s))) /\
  (is_ok (fst (LabelSet.compute_if_render_does_overlap discretize format_g str s))
   = false ->
   same_but_overlap s
     (snd (LabelSet.compute_if_render_does_overlap discretize format_g str s))).
Proof.
  intros Hc.
  unfold LabelSet.render, LabelSet.compute_if_render_does_overlap, mbind, gets.
  destruct (LabelSet._render_and_measure_to_cache discretize format_g str s)
    as [r s1] eqn:Hrun.
  destruct (_render_and_measure_to_cache_after discretize format_g str s r s1 Hrun)
    as [_ Hfresh].
  specialize (Hfresh Hc).
  destruct r as [[]|e|]; cbn [fst snd is_ok]; split; intros H;
    try discriminate H; exact Hfresh.
Qed.

Lemma failed_render_caches_nothing_witness :
  let s := LabelSet.__init__ [Some zero; Some zero; None] zero (float_of_Z 10) 20 false in
  let after :=
    snd (LabelSet.render Discretizer.discretize PyFormat.format_g PyFormat.str_float s) in
  LabelSet._results_already_in_cache s = false /\
  fst (LabelSet.render Discretizer.discretize PyFormat.format_g PyFormat.str_float s)
  = Raise TypeError /\
  same_but_overlap s after /\
  LabelSet._render_does_overlap after = true.
Proof.
  intros s after. split; [reflexivity|].
  assert (Hr : fst (LabelSet.render Discretizer.discretize PyFormat.format_g
                      PyFormat.str_float s) = Raise TypeError)
    by (vm_compute; reflexivity).
  split; [exact Hr|]. split.
  - apply (proj1 (failed_render_caches_nothing Discretizer.discretize
                    PyFormat.format_g PyFormat.str_float s eq_refl)).
    now rewrite Hr.
  - vm_compute. reflexivity.
Defined.

(* ================================================================== *)
(** * [LabelSet]: where the labels end up in the line                  *)
(* ================================================================== *)

Section LabelSetColumns.

Import LabelSet.

Lemma substring_app_l a b : forall n m,
  (n + m <= String.length a)%nat ->
  substring n m (a +:+ b) = substring n m a.
Proof.
  induction a as [|c a IH]; intros n m Hle; cbn in Hle.
  - assert (n = 0%nat) as -> by lia. assert (m = 0%nat) as -> by lia.
    now destruct b.
  - rewrite string_app_cons. destruct n as [|n]; cbn [substring].
    + destruct m as [|m]; [reflexivity|]. f_equal. apply IH. lia.
    + apply IH. lia.
Qed.

Lemma substring_all b : substring 0 (String.length b) b = b.
Proof. induction b as [|c b IH]; cbn; [reflexivity|]. now rewrite IH. Qed.

Lemma substring_app_r a b :
  substring (String.length a) (String.length b) (a +:+ b) = b.
Proof.
  induction a as [|c a IH]; [apply substring_all|].
  rewrite string_app_cons. exact IH.
Qed.

Lemma intended_start_nonneg position str_label :
  0 <= Claimed.intended_start position str_label.
Proof. unfold Claimed.intended_start. lia. Qed.

Lemma columns_length placed : forall i cursor,
  length (columns i placed cursor) = length placed.
Proof.
  induction placed as [|[position str_label] rest IH]; intros i cursor; cbn;
    [reflexivity|]. now rewrite IH.
Qed.

(** The line and the flag of the loop, read through the columns. *)
Lemma layout_columns placed : forall i line overlap,
  let cols := columns i placed (len line) in
  let '(line', overlap') := Claimed.layout i placed line overlap in
  (exists suffix, line' = line +:+ suffix) /\
  Forall2 (fun column entry => text_at line' column (snd entry)) cols placed /\
  Forall2 (fun column entry =>
             Claimed.intended_start (fst entry) (snd entry) <= column)
          cols placed /\
  match last (combine cols placed) with
  | None => line' = line
  | Some (column, (_, str_label)) => len line' = column + len str_label
  end /\
  overlap' = overlap || existsb shifted (combine cols placed).
Proof.
  induction placed as [|[position str_label] rest IH]; intros i line overlap.
  - cbn. repeat split; try constructor.
    + exists "". now rewrite string_app_nil_r.
    + now rewrite orb_false_r.
  - cbn [columns Claimed.layout].
    set (start := Claimed.intended_start position str_label).
    set (gap := Claimed.min_gap i).
    set (column := Z.max start (len line + gap)).
    set (line1 := line +:+ spaces (Z.max (start - len line) gap) +:+ str_label).
    assert (Hgap : 0 <= gap) by (subst gap; destruct i; cbn; lia).
    assert (Hstart : 0 <= start) by apply intended_start_nonneg.
    assert (Hlen0 : 0 <= len line) by (unfold len; lia).
    assert (Hcol : Z.to_nat column
                   = String.length (line +:+ spaces (Z.max (start - len line) gap))).
    { rewrite length_string_app, length_spaces. subst column. unfold len in *. lia. }
    assert (Hlen1 : len line1 = column + len str_label).
    { unfold len, line1. rewrite !length_string_app, length_spaces.
      subst column. unfold len in *. lia. }
    specialize (IH (S i) line1 (overlap || (start - len line <? gap))).
    cbv zeta in IH. rewrite Hlen1 in IH.
    destruct (Claimed.layout (S i) rest line1 _) as [line' overlap'].
    destruct IH as ([suffix Hsuffix] & Htexts & Hstarts & Hlast & Hflag).
    cbv zeta. repeat split.
    + exists (spaces (Z.max (start - len line) gap) +:+ str_label +:+ suffix).
      rewrite Hsuffix. unfold line1. now rewrite !string_app_assoc.
    + constructor; [|exact Htexts]. unfold text_at. cbn [snd].
      rewrite Hsuffix, substring_app_l.
      * unfold line1. rewrite <- string_app_assoc, Hcol. apply substring_app_r.
      * unfold line1. rewrite <- string_app_assoc, Hcol, !length_string_app. lia.
    + constructor; [|exact Hstarts]. cbn [fst snd]. subst column. fold start. lia.
    + cbn [combine]. rewrite last_cons.
      destruct (last (combine _ rest)) as [[c [q t]]|]; [exact Hlast|].
      rewrite Hlast. exact Hlen1.
    + rewrite Hflag. cbn [combine existsb shifted]. fold start.
      rewrite <- orb_assoc. f_equal. f_equal.
      subst column.
      destruct (start - len line <? gap) eqn:E.
      * apply Z.ltb_lt in E. symmetry. apply negb_true_iff, Z.eqb_neq. lia.
      * apply Z.ltb_ge in E. symmetry. apply negb_false_iff, Z.eqb_eq. lia.
Qed.

End LabelSetColumns.

(** X18. The line that [render] returns for the first time holds every
    label text at its column: the column is the label's intended start
    (its position minus half its length plus the left margin, not below
    0), or the first column that leaves one space after the previous
    text, whichever is further right.  Nothing is cut off or padded at
    the right: the line ends with the last label text, whatever the
    available space is. *)
Theorem labels_are_written_at_their_columns
        (discretize : option float -> float -> float -> Z -> outcome Z)
        (format_g : nat -> float -> string) (str : float -> string)
        (s : LabelSet.t) (strs : list string) (positions : list Z) :
  LabelSet._results_already_in_cache s = false ->
  LabelSet._find_shortest_string_representation format_g str (LabelSet.labels s)
  = Ok strs ->
  Forall2 (fun label position =>
             discretize label (LabelSet.x_min s) (LabelSet.x_max s)
                        (LabelSet.available_space s) = Ok position)
          (LabelSet.labels s) positions ->
  let placed := combine positions strs in
  let cols := columns 0 placed 0 in
  exists line,
    fst (LabelSet.render discretize format_g str s) = Ok [line] /\
    Forall2 (fun column entry => text_at line column (snd entry)) cols placed /\
    match last (combine cols placed) with
    | None => line = ""
    | Some (column, (_, str_label)) =>
        LabelSet.len line = column + LabelSet.len str_label
    end.
Proof.
  intros Hcache Hstrs Hpos placed cols.
  pose proof (_render_and_measure_to_cache_run discretize format_g str
                s strs positions Hcache Hstrs Hpos) as Hrun.
  pose proof (layout_columns placed 0 "" (LabelSet._render_does_overlap s)) as Hlay.
  cbv zeta in Hlay. change (LabelSet.len "") with 0 in Hlay.
  fold placed in Hrun. fold cols in Hlay.
  destruct (Claimed.layout 0 placed "" (LabelSet._render_does_overlap s))
    as [line overlap].
  destruct Hlay as (_ & Htexts & _ & Hlast & _).
  exists line. split; [|split; assumption].
  unfold LabelSet.render, mbind. rewrite Hrun. reflexivity.
Qed.

(** X19. The overlap flag of an object that starts without it says
    exactly whether some label is shifted: it is true when some label
    text starts right of its intended start, and false when every label
    starts at its intended start.  A label is never written left of its
    intended start, and a label whose position would put it left of
    column 0 is written at column 0 without the flag being set. *)
Theorem overlap_flag_tells_a_shifted_label
        (discretize : option float -> float -> float -> Z -> outcome Z)
        (format_g : nat -> float -> string) (str : float -> string)
        (s : LabelSet.t) (strs : list string) (positions : list Z) :
  LabelSet._results_already_in_cache s = false ->
  LabelSet._render_does_overlap s = false ->
  LabelSet._find_shortest_string_representation format_g str (LabelSet.labels s)
  = Ok strs ->
  Forall2 (fun label position =>
             discretize label (LabelSet.x_min s) (LabelSet.x_max s)
                        (LabelSet.available_space s) = Ok position)
          (LabelSet.labels s) positions ->
  let placed := combine positions strs in
  let cols := columns 0 placed 0 in
  fst (LabelSet.compute_if_render_does_overlap discretize format_g str s)
  = Ok (existsb shifted (combine cols placed)) /\
  Forall2 (fun column entry =>
             Z.max 0 (fst entry - LabelSet.len (snd entry) / 2
                      + LabelSet.LEFT_MARGIN_FOR_HORIZONTAL_AXIS) <= column)
          cols placed.
Proof.
  intros Hcache Hflag Hstrs Hpos placed cols.
  pose proof (_render_and_measure_to_cache_run discretize format_g str
                s strs positions Hcache Hstrs Hpos) as Hrun.
  pose proof (layout_columns placed 0 "" (LabelSet._render_does_overlap s)) as Hlay.
  cbv zeta in Hlay. change (LabelSet.len "") with 0 in Hlay.
  fold placed in Hrun. fold cols in Hlay.
  destruct (Claimed.layout 0 placed "" (LabelSet._render_does_overlap s))
    as [line overlap].
  destruct Hlay as (_ & _ & Hstarts & _ & Hover).
  split; [|exact Hstarts].
  unfold LabelSet.compute_if_render_does_overlap, mbind. rewrite Hrun.
  cbn. rewrite Hover, Hflag. reflexivity.
Qed.

Lemma labels_are_written_at_their_columns_witness :
  let s := LabelSet.__init__ [Some zero; Some (float_of_Z 10)] zero (float_of_Z 10) 20 false in
  exists line,
    fst (LabelSet.render Discretizer.discretize PyFormat.format_g PyFormat.str_float s)
    = Ok [line] /\
    text_at line 1 "0" /\ text_at line 20 "10" /\ LabelSet.len line = 22.
Proof.
  intros s.
  assert (Hstrs : LabelSet._find_shortest_string_representation
                    PyFormat.format_g PyFormat.str_float (LabelSet.labels s)
                  = Ok ["0"; "10"]) by (vm_compute; reflexivity).
  assert (Hpos : Forall2 (fun label position =>
                            Discretizer.discretize label (LabelSet.x_min s)
                              (LabelSet.x_max s) (LabelSet.available_space s)
                            = Ok position)
                         (LabelSet.labels s) [0; 20])
    by (repeat constructor; vm_compute; reflexivity).
  destruct (labels_are_written_at_their_columns
              Discretizer.discretize PyFormat.format_g PyFormat.str_float
              s ["0"; "10"] [0; 20] eq_refl Hstrs Hpos)
    as (line & Hline & Htexts & Hlast).
  exists line. split; [exact Hline|].
  apply Forall2_cons in Htexts as [H0 Htexts].
  apply Forall2_cons in Htexts as [H1 _].
  split; [exact H0|]. split; [exact H1 | exact Hlast].
Defined.

Lemma overlap_flag_tells_a_shifted_label_witness :
  let s := LabelSet.__init__ [Some zero; Some (float_of_Z 1); Some (float_of_Z 2)]
                             zero (float_of_Z 10) 5 false in
  fst (LabelSet.compute_if_render_does_overlap
         Discretizer.discretize PyFormat.format_g PyFormat.str_float s)
  = Ok true.
Proof.
  intros s.
  assert (Hstrs : LabelSet._find_shortest_string_representation
                    PyFormat.format_g PyFormat.str_float (LabelSet.labels s)
                  = Ok ["0"; "1"; "2"]) by (vm_compute; reflexivity).
  assert (Hpos : Forall2 (fun label position =>
                            Discretizer.discretize label (LabelSet.x_min s)
                              (LabelSet.x_max s) (LabelSet.available_space s)
                            = Ok position)
                         (LabelSet.labels s) [0; 0; 1])
    by (repeat constructor; vm_compute; reflexivity).
  exact (proj1 (overlap_flag_tells_a_shifted_label
                  Discretizer.discretize PyFormat.format_g PyFormat.str_float
                  s ["0"; "1"; "2"] [0; 0; 1] eq_refl eq_refl Hstrs Hpos)).
Defined.
